(** * Behavioural state and ad-eligibility engine

    A shallow embedding of [app/common/state/userModelState.js] (module
    [userModelState] below) and of the engine that drives it (module
    [userModel] below), followed by the properties established about them.

    Modelling conventions.
    - Application state is an [Immutable.Map]; it is a [gmap string value].
      An Immutable collection and the plain array or object it converts to
      have one representation, so [toJS], [fromJS], [makeImmutable] and
      [makeJS] are the identity.  The collections of the state, of an
      action and of a setting are Immutable, as [makeImmutable] leaves
      them; the arrays and objects that the engine builds itself are plain.
      Where the code can tell the two apart the model says which is which
      ([isEqual], [immutableMap]), and a case it cannot represent raises
      [Unmodelled].
    - A plain object answers a lookup [o[k]] with what it inherits from
      [Object.prototype] when it has no entry of its own ([inherited]).
    - JavaScript numbers that the engine computes with are integers
      (timestamps, counts); classifier scores are rationals.
    - A call that can raise returns a [result]; code that reads the clock,
      draws random numbers or identifiers, touches the module-level
      variables of the engine or dispatches actions runs in the monad [M]
      over a [World]. *)

From Stdlib Require Import ZArith QArith Ascii String.
From stdpp Require Import gmap strings list fin_maps pretty.

#[local] Set Warnings "-register-all".
#[local] Open Scope Z_scope.
#[local] Open Scope string_scope.
#[local] Open Scope list_scope.

(** ** Values *)

Inductive value : Type :=
  | VUndef
  | VNull
  | VBool (b : bool)
  | VNum (n : Z)
  | VStr (s : string)
  | VList (l : list value)
  | VMap (m : gmap string value).

Fixpoint value_eq_dec (a b : value) {struct a} : Decision (a = b).
Proof.
  refine (match a, b with
          | VUndef, VUndef => left _
          | VNull, VNull => left _
          | VBool x, VBool y => cast_if (decide (x = y))
          | VNum x, VNum y => cast_if (decide (x = y))
          | VStr x, VStr y => cast_if (decide (x = y))
          | VList x, VList y => cast_if (@list_eq_dec _ value_eq_dec x y)
          | VMap x, VMap y => cast_if (@gmap_eq_dec _ _ _ _ value_eq_dec x y)
          | _, _ => right _
          end); congruence.
Defined.

#[global] Instance value_eqdec : EqDecision value := value_eq_dec.

Abbreviation state := (gmap string value) (only parsing).

(** An object literal. *)
Definition obj (fields : list (string * value)) : value :=
  VMap (list_to_map fields).

(** JavaScript truthiness. *)
Definition truthy (v : value) : bool :=
  match v with
  | VUndef | VNull => false
  | VBool b => b
  | VNum n => negb (n =? 0)%Z
  | VStr s => negb (String.eqb s "")
  | VList _ | VMap _ => true
  end.

(** [a || b] and [a && b]. *)
Definition js_or (a b : value) : value := if truthy a then a else b.
Definition js_and (a b : value) : value := if truthy a then b else a.

Definition isMap (v : value) : bool :=
  match v with VMap _ => true | _ => false end.

(** [a === b] where at least one side is a primitive: collections are
    compared by reference in JavaScript and are never [===] to a primitive. *)
Definition strict_eq (a b : value) : bool :=
  match a, b with
  | VList _, _ | VMap _, _ | _, VList _ | _, VMap _ => false
  | _, _ => bool_decide (a = b)
  end.

Definition primitive (v : value) : bool :=
  match v with VList _ | VMap _ => false | _ => true end.

(** A plain object whose values are all primitive. *)
Definition plainObject (m : gmap string value) : bool :=
  bool_decide (map_Forall (fun _ v => primitive v = true) m).

(** The record that [generateAdReportingEvent] builds is a plain object.
    Two of its fields are collections that the engine builds itself and
    are plain too: [tabClassification], an array, and [settings], an
    object that holds the object [notifications].  A collection anywhere
    else in the record was read from the action or from the state and is
    Immutable. *)
Definition plainField (k : string) (v : value) : bool :=
  if String.eqb k "tabClassification" then
    match v with VList l => forallb primitive l | _ => primitive v end
  else if String.eqb k "settings" then
    match v with
    | VMap m =>
        plainObject (delete "notifications" m)
        && match m !! "notifications" with
           | Some (VMap n) => plainObject n
           | Some v => primitive v
           | None => true
           end
    | _ => primitive v
    end
  else primitive v.

Definition plainRecord (map : gmap string value) : bool :=
  bool_decide (map_Forall (fun k v => plainField k v = true) map).

(** [underscore.isEqual(last, map)] in the duplicate check.  [last] is a
    queued record after [toJS], plain data all the way down; [map] is the
    record under construction.  [isEqual] compares plain data by structure,
    blind to the order of an object's keys, and never finds an Immutable
    collection equal to a plain array or object: a record that holds one
    is equal to no queued record. *)
Definition isEqual (last map : gmap string value) : bool :=
  plainRecord map && bool_decide (last = map).

(** Names that every plain object inherits from [Object.prototype]: the
    lookup [o[k]] finds a function there (the prototype itself under
    [__proto__]), which is truthy. *)
Definition inheritedKeys : list string :=
  ["constructor"; "toString"; "toLocaleString"; "valueOf"; "hasOwnProperty";
   "isPrototypeOf"; "propertyIsEnumerable"; "__proto__"; "__defineGetter__";
   "__defineSetter__"; "__lookupGetter__"; "__lookupSetter__"].

Definition inherited (k : string) : bool := bool_decide (k ∈ inheritedKeys).

(** ** Exceptions *)

Inductive exn : Type :=
  | TypeError (msg : string)
  | AssertionError (msg : string)
  | InvalidKeyPath
  | Unmodelled (what : string).

Inductive result (A : Type) : Type :=
  | Ok (a : A)
  | Throw (e : exn).
Arguments Ok {A} a.
Arguments Throw {A} e.

#[global] Instance result_ret : MRet result := fun A a => Ok a.
#[global] Instance result_bind : MBind result := fun A B f r =>
  match r with
  | Ok a => f a
  | Throw e => Throw e
  end.

(** ** Immutable's [getIn] and [setIn] *)

(** [cur] is the entry found so far: [None] when the key is not set. *)
Fixpoint getIn' (path : list string) (cur : option value) : value :=
  match path, cur with
  | [], Some v => v
  | k :: ks, Some (VMap m) => getIn' ks (m !! k)
  | _, _ => VUndef
  end.

Definition getIn (path : list string) (s : state) : value :=
  getIn' path (Some (VMap s)).

(** A key that is not set is created as a fresh [Map]; a key that holds
    anything but a [Map] is an invalid key path. *)
Fixpoint setIn' (path : list string) (v : value) (cur : option value) : result value :=
  match path with
  | [] => Ok v
  | k :: ks =>
      match cur with
      | None => r ← setIn' ks v None; Ok (VMap {[ k := r ]})
      | Some (VMap m) => r ← setIn' ks v (m !! k); Ok (VMap (<[ k := r ]> m))
      | Some _ => Throw InvalidKeyPath
      end
  end.

Definition setIn (path : list string) (v : value) (s : state) : result state :=
  match path with
  | [] => Throw InvalidKeyPath
  | k :: ks => r ← setIn' ks v (s !! k); Ok (<[ k := r ]> s)
  end.

(** Method call [o.get(k)] on an Immutable collection. *)
Definition get (o : value) (k : string) : result value :=
  match o with
  | VMap m => Ok (default VUndef (m !! k))
  | VList _ => Ok VUndef
  | VUndef | VNull => Throw (TypeError "Cannot read property 'get' of undefined")
  | _ => Throw (TypeError "get is not a function")
  end.

(** Property read [o.k] on a plain object. *)
Definition prop (o : value) (k : string) : result value :=
  match o with
  | VMap m => Ok (default VUndef (m !! k))
  | VUndef | VNull => Throw (TypeError "Cannot read property of undefined")
  | _ => Ok VUndef
  end.

(** ** The ad catalog *)

Record ad : Type := {
  uuid : string;
  notificationText : value;
  notificationURL : value;
  advertiser : value
}.

Definition ad_to_value (a : ad) : value :=
  obj [("uuid", VStr (uuid a)); ("notificationText", notificationText a);
       ("notificationURL", notificationURL a); ("advertiser", advertiser a)].

(** [bundle.categories]: category name to its list of ads.  Only the
    catalog's own entries are category names; what a plain object inherits
    from its prototype is not looked up. *)
Abbreviation catalog := (gmap string (list ad)) (only parsing).

(** ** What the engine sends out *)

(** The closure handed to [roundtrip] by [collectActivity], with the
    variables it captures. *)
Inductive callback : Type :=
  | CollectActivityCallback (stamp : value) (path : string)
  | UploadLogsCallback (path : string).

Inductive effect : Type :=
  | OnUserModelLog (what : string) (detail : value)
  | NativeNotificationCreate (windowId : value) (title text url : value)
      (id : value) (notificationId : value)
  | OnUserModelUploadLogs (stamp : value) (retryIn : Z)
  | SetTimeout (timer : nat) (delay : option Z)
  | ClearTimeout (timer : nat)
  | Roundtrip (method path : string) (payload : value) (k : callback).

(** ** Collaborators

    Constants, library functions and the sources of time, randomness and
    identifiers that the two files import. *)

Record Env : Type := {
  (* js/constants/settings *)
  ADS_ENABLED : string;
  ADS_LOCALE : string;
  ADS_PER_DAY : string;
  ADS_PER_HOUR : string;
  ADS_OPERATING_MODE : string;
  ADS_PLACE : string;
  (* common/constants/notificationTypes *)
  AD_SHOWN : string;
  NOTIFICATION_RESULT : string;
  NOTIFICATION_CLICK : string;
  NOTIFICATION_TIMEOUT : string;
  ADS : string;
  SURVEYS : string;
  SURVEY_SHOWN : string;
  (* js/settings: the collection argument [state.settings] is not set on
     an Immutable.Map, so the lookup goes to the settings store *)
  getSetting : string -> value;
  (* js/lib/urlutil *)
  isURL : value -> bool;
  getHostname : value -> value;
  (* bat-usermodel *)
  deriveCategoryScores : value -> list Q;
  vectorIndexOfMax : list Q -> option nat;
  (* bat-elph *)
  initOnlineELPH : value;
  updateOnlineELPH : value -> value -> value;
  alphabetizer : string -> value -> value -> bool -> bool -> string -> string -> value;
  (* the language runtime *)
  ToString : value -> string;
  StringToNumber : string -> option Z;
  toISOString : Z -> string;
  dateGetTime : value -> option Z;
  (* the n-th reading of the clock (milliseconds), the n-th draw of
     Math.random, and the n-th uuidv4.  A draw is a double in [0,1) given
     as (m, k): the number m / 2^k, with 0 <= m < 2^53 and m < 2^k *)
  clock : nat -> Z;
  random : nat -> Z * Z;
  uuidv4 : nat -> string;
  (* process and host *)
  testingP : bool;
  appVersion : value;
  platform : value;
  (* urlFormat(roundTripOptions.server) *)
  server : value
}.

(** ** The world the engine runs in *)

Record World : Type := {
  (* module-level variables of the engine *)
  initP : bool;
  foregroundP : value;
  matrixData : value;
  priorData : value;
  sampleAdFeed : option catalog;
  lastSingleClassification : value;
  collectActivityId : option nat;
  (* how many clock readings, random draws, identifiers and timers have
     been handed out *)
  ticks : nat;
  draws : nat;
  idents : nat;
  timers : nat;
  (* effects dispatched so far, oldest first *)
  trace : list effect
}.

Definition M (A : Type) : Type := World -> result (A * World).

#[global] Instance M_ret : MRet M := fun A a w => Ok (a, w).
#[global] Instance M_bind : MBind M := fun A B f m w =>
  match m w with
  | Ok (a, w') => f a w'
  | Throw e => Throw e
  end.

Definition liftR {A} (r : result A) : M A := fun w =>
  match r with
  | Ok a => Ok (a, w)
  | Throw e => Throw e
  end.

Definition throw {A} (e : exn) : M A := fun _ => Throw e.

Definition getWorld : M World := fun w => Ok (w, w).

Definition emit (e : effect) : M unit := fun w =>
  Ok (tt, {| initP := initP w; foregroundP := foregroundP w;
             matrixData := matrixData w; priorData := priorData w;
             sampleAdFeed := sampleAdFeed w;
             lastSingleClassification := lastSingleClassification w;
             collectActivityId := collectActivityId w;
             ticks := ticks w; draws := draws w; idents := idents w;
             timers := timers w; trace := trace w ++ [e] |}).

Definition set_collectActivityId (id : option nat) : M unit := fun w =>
  Ok (tt, {| initP := initP w; foregroundP := foregroundP w;
             matrixData := matrixData w; priorData := priorData w;
             sampleAdFeed := sampleAdFeed w;
             lastSingleClassification := lastSingleClassification w;
             collectActivityId := id;
             ticks := ticks w; draws := draws w; idents := idents w;
             timers := timers w; trace := trace w |}).

Definition tick (w : World) : World :=
  {| initP := initP w; foregroundP := foregroundP w;
     matrixData := matrixData w; priorData := priorData w;
     sampleAdFeed := sampleAdFeed w;
     lastSingleClassification := lastSingleClassification w;
     collectActivityId := collectActivityId w;
     ticks := S (ticks w); draws := draws w; idents := idents w;
     timers := timers w; trace := trace w |}.

Definition draw (w : World) : World :=
  {| initP := initP w; foregroundP := foregroundP w;
     matrixData := matrixData w; priorData := priorData w;
     sampleAdFeed := sampleAdFeed w;
     lastSingleClassification := lastSingleClassification w;
     collectActivityId := collectActivityId w;
     ticks := ticks w; draws := S (draws w); idents := idents w;
     timers := timers w; trace := trace w |}.

Definition ident (w : World) : World :=
  {| initP := initP w; foregroundP := foregroundP w;
     matrixData := matrixData w; priorData := priorData w;
     sampleAdFeed := sampleAdFeed w;
     lastSingleClassification := lastSingleClassification w;
     collectActivityId := collectActivityId w;
     ticks := ticks w; draws := draws w; idents := S (idents w);
     timers := timers w; trace := trace w |}.

Definition timer (w : World) : World :=
  {| initP := initP w; foregroundP := foregroundP w;
     matrixData := matrixData w; priorData := priorData w;
     sampleAdFeed := sampleAdFeed w;
     lastSingleClassification := lastSingleClassification w;
     collectActivityId := collectActivityId w;
     ticks := ticks w; draws := draws w; idents := idents w;
     timers := S (timers w); trace := trace w |}.

(** [new Date().getTime()] *)
Definition getTime (E : Env) : M Z := fun w => Ok (clock E (ticks w), tick w).

(** [Math.random()] *)
Definition mathRandom (E : Env) : M (Z * Z) := fun w => Ok (random E (draws w), draw w).

(** [uuidv4()] *)
Definition newUuid (E : Env) : M string := fun w => Ok (uuidv4 E (idents w), ident w).

(** [setTimeout(f, delay)]: a fresh, truthy handle. *)
Definition setTimeout (delay : option Z) : M nat := fun w =>
  (_ ← emit (SetTimeout (timers w) delay); mret (timers w)) (timer w).

(** ToNumber, [None] standing for NaN. *)
Definition toNumber (E : Env) (v : value) : option Z :=
  match v with
  | VUndef => None
  | VNull => Some 0
  | VBool b => Some (if b then 1 else 0)
  | VNum n => Some n
  | VStr s => StringToNumber E s
  | VList _ | VMap _ => None
  end.

(** ToPrimitive: an Immutable collection has no [valueOf] of its own and
    converts through [toString]. *)
Definition toPrimitive (E : Env) (v : value) : value :=
  match v with
  | VList _ | VMap _ => VStr (ToString E v)
  | _ => v
  end.

(** [a > b]: two strings are compared lexicographically by code unit;
    otherwise both sides go through ToNumber and the comparison is false
    when either is NaN. *)
Definition js_gt (E : Env) (a b : value) : bool :=
  match toPrimitive E a, toPrimitive E b with
  | VStr x, VStr y => match String.compare x y with Gt => true | _ => false end
  | pa, pb =>
      match toNumber E pa, toNumber E pb with
      | Some x, Some y => (y <? x)%Z
      | _, _ => false
      end
  end.

(** [Immutable.Map(x)]: empty for [undefined] and [null], the entries of a
    keyed collection or plain object, and a TypeError for a number, a
    boolean or a string: a string that is not empty is iterated, and its
    first character is not an entry.  A list is read as a list of entries,
    which is left out of the model unless it is empty. *)
Definition immutableMap (E : Env) (x : value) : result value :=
  match x with
  | VUndef | VNull => Ok (VMap ∅)
  | VMap m => Ok (VMap m)
  | VList [] => Ok (VMap ∅)
  | VList _ => Throw (Unmodelled "Immutable.Map of a list of entries")
  | VStr (String c _) => Throw (TypeError ("Expected [K, V] tuple: " +:+ String c ""))
  | VBool _ | VNum _ | VStr _ =>
      Throw (TypeError ("Expected Array or iterable object of [k, v] entries, or keyed object: "
                        +:+ ToString E x))
  end.

(** * app/common/state/userModelState.js *)

Module userModelState.
Section userModelState.
Context (E : Env).

Definition maxRowsInPageScoreHistory : nat := 5.
Definition maxRowsInAdsShownHistory : nat := 99.

Definition validateState (v : value) : result state :=
  match v with
  | VMap s =>
      match s !! "userModel" with
      | Some (VMap _) => Ok s
      | _ => Throw (AssertionError "state must contain an Immutable.Map of userModel")
      end
  | _ => Throw (AssertionError "state must be an Immutable.Map")
  end.

(** [Math.round(+new Date() / 1000)]: halves round up. *)
Definition unixTimeNowSeconds : M Z :=
  ms ← getTime E; mret ((ms + 500) / 1000).

Definition getAdEnabledValue (s : state) : value :=
  getIn ["settings"; ADS_ENABLED E] s.

(** The test [delta < secondsWindow] of the loop body; a [timeOfAd] that
    is not a number makes [delta] NaN and the test false. *)
Definition insideWindow (now secondsWindow : Z) (timeOfAd : value) : bool :=
  match toNumber E timeOfAd with
  | Some t => bool_decide (now - t < secondsWindow)
  | None => false
  end.

(** The loop runs over [history.get(i)] for [i < history.size]; a history
    that is not a list has no entry at any such index. *)
Definition historyRespectsRollingTimeConstraint
    (history : value) (secondsWindow : Z) (allowableAdCount : value) : M bool :=
  let entries := match history with VList l => l | _ => [] end in
  now ← unixTimeNowSeconds;
  let recentCount :=
    fold_left (fun count timeOfAd =>
                 if insideWindow now secondsWindow timeOfAd then count + 1 else count)
              entries 0 in
  mret (match toNumber E allowableAdCount with
        | Some allowed => if (allowed <? recentCount)%Z then false else true
        | None => true
        end).

Definition appendToRingBufferUnderKey
    (s : state) (key : list string) (item : value) (maxRows : nat) : result state :=
  if negb (truthy (getAdEnabledValue s)) then Ok s else
  s ← validateState (VMap s);
  let previous := match getIn key s with VList l => l | _ => [] end in
  let ringbuf := previous ++ [item] in
  let n := length ringbuf in
  let ringbuf := if (maxRows <? n)%nat then drop (n - maxRows) ringbuf else ringbuf in
  setIn key (VList ringbuf) s.

Definition getUserSurveyQueue (s : state) : value :=
  js_or (getIn ["userModel"; "userSurveyQueue"] s) (VList []).

Definition setUserSurveyQueue (s : state) (queue : value) : result state :=
  if negb (truthy (getAdEnabledValue s)) then Ok s else
  setIn ["userModel"; "userSurveyQueue"] queue s.

Definition getReportingEventQueue (s : state) : value :=
  js_or (getIn ["userModel"; "reportingEventQueue"] s) (VList []).

Definition setReportingEventQueue (s : state) (queue : value) : result state :=
  if negb (truthy (getAdEnabledValue s)) then Ok s else
  setIn ["userModel"; "reportingEventQueue"] queue s.

Definition setUserModelValue (s : state) (key : string) (v : value) : result state :=
  if negb (truthy (VStr key)) || negb (truthy (getAdEnabledValue s)) then Ok s else
  s ← validateState (VMap s);
  setIn ["userModel"; key] v s.

Definition getUserModelValue (s : state) (key : string) : result value :=
  s ← validateState (VMap s);
  Ok (getIn ["userModel"; key] s).

Definition appendPageScoreToHistoryAndRotate (s : state) (pageScore : list value) : result state :=
  let stateKey := ["userModel"; "pageScoreHistory"] in
  let wrappedScore := VList pageScore in
  appendToRingBufferUnderKey s stateKey wrappedScore maxRowsInPageScoreHistory.

(** The clock is read before the gate is looked at. *)
Definition appendAdShownToAdHistory (s : state) : M state :=
  let stateKey := ["userModel"; "adsShownHistory"] in
  unixTime ← unixTimeNowSeconds;
  liftR (appendToRingBufferUnderKey s stateKey (VNum unixTime) maxRowsInAdsShownHistory).

Definition getAdUUIDSeen (s : state) : gmap string value :=
  match js_or (getIn ["userModel"; "adsUUIDSeen"] s) (VMap ∅) with
  | VMap seen => seen
  | _ => ∅
  end.

(** The parameter is declared [value = 1]: an argument that is omitted or
    [undefined] is 1.  A truthy entry under the key that is not a
    collection has no [setIn]; a list there is indexed by numbers and is
    left out of the model. *)
Definition recordAdUUIDSeen (s : state) (uuid : string) (v : value) : result state :=
  let v := match v with VUndef => VNum 1 | _ => v end in
  if negb (truthy (getAdEnabledValue s)) then Ok s else
  let key := ["userModel"; "adsUUIDSeen"] in
  match js_or (getIn key s) (VMap ∅) with
  | VMap seen => setIn key (VMap (<[ uuid := v ]> seen)) s
  | VList _ => Throw (Unmodelled "seen-set that is a list")
  | _ => Throw (TypeError "seen.setIn is not a function")
  end.

Definition allowedToShowAdBasedOnHistory (s : state) : M bool :=
  let history := js_or (getIn ["userModel"; "adsShownHistory"] s) (VList []) in
  let hourWindow := 60 * 60 in
  let dayWindow := 24 * hourWindow in
  let hourAllowed := getSetting E (ADS_PER_HOUR E) in
  let dayAllowed := getSetting E (ADS_PER_DAY E) in
  respectsHourLimit ← historyRespectsRollingTimeConstraint history hourWindow hourAllowed;
  respectsDayLimit ← historyRespectsRollingTimeConstraint history dayWindow dayAllowed;
  if negb respectsHourLimit || negb respectsDayLimit then mret false else mret true.

Definition getPageScoreHistory (s : state) (mutable : bool) : result value :=
  s ← validateState (VMap s);
  Ok (js_or (getIn ["userModel"; "pageScoreHistory"] s) (VList [])).

Definition removeAllHistory (s : state) : result state :=
  s ← validateState (VMap s);
  setIn ["userModel"] (VMap ∅) s.

Definition flagSearchState (s : state) (url score : value) : M state :=
  if negb (truthy url) || negb (isURL E url) || negb (truthy (getAdEnabledValue s))
  then mret s else
  s ← liftR (validateState (VMap s));
  s ← liftR (setIn ["userModel"; "searchActivity"] (VBool true) s);
  s ← liftR (setIn ["userModel"; "searchUrl"] url s);
  s ← liftR (setIn ["userModel"; "score"] score s);
  now ← getTime E;
  liftR (setIn ["userModel"; "lastSearchTime"] (VNum now) s).

Definition unFlagSearchState (s : state) (url : value) : M state :=
  if negb (truthy url) || negb (isURL E url) || negb (truthy (getAdEnabledValue s))
  then mret s else
  s ← liftR (validateState (VMap s));
  if strict_eq (getIn ["userModel"; "searchUrl"] s) url then mret s else
  s ← liftR (setIn ["userModel"; "searchActivity"] (VBool false) s);
  now ← getTime E;
  liftR (setIn ["userModel"; "lastSearchTime"] (VNum now) s).

Definition flagShoppingState (s : state) (url : value) : M state :=
  if negb (truthy (getAdEnabledValue s)) then mret s else
  s ← liftR (validateState (VMap s));
  s ← liftR (setIn ["userModel"; "shopActivity"] (VBool true) s);
  s ← liftR (setIn ["userModel"; "shopUrl"] url s);
  now ← getTime E;
  liftR (setIn ["userModel"; "lastShopTime"] (VNum now) s).

(** The argument is whatever the caller passes, [undefined] included. *)
Definition getSearchState (v : value) : result value :=
  s ← validateState v;
  Ok (getIn ["userModel"; "searchActivity"] s).

(** The argument is whatever the caller passes, [undefined] included. *)
Definition getShoppingState (v : value) : result value :=
  s ← validateState v;
  Ok (getIn ["userModel"; "shopActivity"] s).

Definition unFlagShoppingState (s : state) : result state :=
  if negb (truthy (getAdEnabledValue s)) then Ok s else
  s ← validateState (VMap s);
  setIn ["userModel"; "shopActivity"] (VBool false) s.

Definition flagUserBuyingSomething (s : state) (url : value) : M state :=
  if negb (truthy (getAdEnabledValue s)) then mret s else
  s ← liftR (validateState (VMap s));
  now ← getTime E;
  s ← liftR (setIn ["userModel"; "purchaseTime"] (VNum now) s);
  s ← liftR (setIn ["userModel"; "purchaseUrl"] url s);
  liftR (setIn ["userModel"; "purchaseActive"] (VBool true) s).

(** The argument is whatever the caller passes, [undefined] included. *)
Definition getUserBuyingState (v : value) : result value :=
  s ← validateState v;
  Ok (getIn ["userModel"; "purchaseActive"] s).

Definition getUserModelTimingMdl (s : state) (mutable : bool) : value :=
  js_or (getIn ["userModel"; "timingModel"] s) (VList []).

Definition setUserModelTimingMdl (s : state) (model : value) : result state :=
  if negb (truthy (getAdEnabledValue s)) then Ok s else
  setIn ["userModel"; "timingModel"] model s.

Definition setServedAd (s : state) (adServed adClass : value) : M state :=
  if negb (truthy adServed) || negb (truthy (getAdEnabledValue s)) then mret s else
  s ← liftR (validateState (VMap s));
  now ← getTime E;
  s ← liftR (setIn ["userModel"; "lastAdTime"] (VNum now) s);
  s ← liftR (setIn ["userModel"; "adServed"] adServed s);
  liftR (setIn ["userModel"; "adClass"] adClass s).

Definition setLastUserActivity (s : state) : M state :=
  if negb (truthy (getAdEnabledValue s)) then mret s else
  s ← liftR (validateState (VMap s));
  now ← getTime E;
  liftR (setIn ["userModel"; "lastUserActivity"] (VNum now) s).

Definition setLocale (s : state) (locale : value) : result state :=
  if negb (truthy (getAdEnabledValue s)) then Ok s else
  s ← validateState (VMap s);
  setIn ["userModel"; "locale"] locale s.

Definition setLastUserIdleStopTime (s : state) : M state :=
  if negb (truthy (getAdEnabledValue s)) then mret s else
  s ← liftR (validateState (VMap s));
  now ← getTime E;
  liftR (setIn ["userModel"; "lastUserIdleStopTime"] (VNum now) s).

Definition getLastUserIdleStopTime (s : state) : result value :=
  s ← validateState (VMap s);
  Ok (getIn ["userModel"; "lastUserIdleStopTime"] s).

Definition getSSID (s : state) : value :=
  js_or (getIn ["userModel"; "currentSSID"] s) VNull.

(** [places.get(ssid)] finds nothing under a key that is not a string. *)
Definition getAdPlace (s : state) : value :=
  let ssid := getSSID s in
  let places := getIn ["userModel"; "places"] s in
  let found :=
    match places, ssid with
    | VMap m, VStr id => default VUndef (m !! id)
    | _, _ => VUndef
    end in
  js_or (js_and places (js_and ssid (js_and (VBool (isMap places)) found)))
        (VStr "UNDISCLOSED").

Definition setSSID (s : state) (v : value) : result state :=
  if negb (truthy (getAdEnabledValue s)) then Ok s else
  let current := getSSID s in
  let v := if negb (truthy v) then VStr "unknown" else v in
  s ← setIn ["userModel"; "currentSSID"] v s;
  if negb (strict_eq current v)
  then setIn ["settings"; ADS_PLACE E] (js_or (getAdPlace s) (VStr "UNDISCLOSED")) s
  else Ok s.

Definition getAdUUID (s : state) : value :=
  getIn ["userModel"; "adUUID"] s.

Definition setAdUUID (s : state) (uuid : value) : result state :=
  if negb (truthy (getAdEnabledValue s)) then Ok s else
  setIn ["userModel"; "adUUID"] uuid s.

(** The argument [q.push(Immutable.Map(event))] is evaluated before
    [setReportingEventQueue] looks at the gate. *)
Definition appendToReportingEventQueue (s : state) (event : value) : result state :=
  let q := match getReportingEventQueue s with VList l => l | _ => [] end in
  event ← immutableMap E event;
  setReportingEventQueue s (VList (q ++ [event])).

Definition appendToUserSurveyQueue (s : state) (survey : value) : result state :=
  let q := match getUserSurveyQueue s with VList l => l | _ => [] end in
  survey ← immutableMap E survey;
  setUserSurveyQueue s (VList (q ++ [survey])).

(** With ads on the code stores a plain array [[]] under the key.  No
    other value of the state is one, and every reader of the queue treats
    it differently from an Immutable list: that state is left out of the
    model. *)
Definition flushReportingEventQueue (s : state) : result state :=
  if negb (truthy (getAdEnabledValue s)) then Ok s
  else Throw (Unmodelled "a plain array stored as the reporting queue").

End userModelState.
End userModelState.

(** * The engine that drives the behavioural state *)

Module userModel.
Section userModel.
Context (E : Env).

(** [noop(state)] is [state] (an object, hence truthy) when the classifier
    data is not loaded or ads are off, and [false] otherwise; callers only
    test it. *)
Definition noop (s : state) : M bool :=
  w ← getWorld;
  mret (negb (truthy (matrixData w)) || negb (truthy (priorData w))
        || negb (truthy (userModelState.getAdEnabledValue E s))).

Definition onUserModelLog (what : string) (detail : value) : M unit :=
  emit (OnUserModelLog what detail).

(** A computed property name. *)
Definition toPropertyKey (v : value) : string :=
  match v with VStr k => k | _ => ToString E v end.

(** [o.length] *)
Definition js_length (o : value) : result (option nat) :=
  match o with
  | VUndef | VNull => Throw (TypeError "Cannot read property 'length' of null")
  | VStr x => Ok (Some (String.length x))
  | VList l => Ok (Some (length l))
  | _ => Ok None
  end.

(** [queue.last()] and [underscore.last(queue.toJS())] *)
Definition lastOf (queue : value) : result value :=
  match queue with
  | VList l => Ok (default VUndef (last l))
  | VMap _ => Throw (Unmodelled "last entry of a keyed collection")
  | _ => Throw (TypeError "last is not a function")
  end.

Definition translate : gmap string value :=
  list_to_map [("clicked", VStr "clicked"); ("closed", VStr "dismissed");
               ("ignored", VStr "timeout")].

(** [underscore.invert] of the settings table, the entries of the object
    it returns: when two constants coincide the later entry wins, and
    assigning a string to [__proto__] creates no entry. *)
Definition mapping : gmap string string :=
  list_to_map (filter (fun kv => kv.1 <> "__proto__")
                 (reverse [(ADS_ENABLED E, "enabled"); (ADS_LOCALE E, "locale");
                           (ADS_PER_DAY E, "adsPerDay"); (ADS_PER_HOUR E, "adsPerHour");
                           (ADS_OPERATING_MODE E, "operatingMode")])).

(** [mapping[key]] is truthy: an entry of [mapping], or a property that
    the object inherits. *)
Definition reported (key : string) : bool :=
  bool_decide (is_Some (mapping !! key)) || inherited key.

(** The event-specific fields: [inl s] is an early [return state], [inr]
    carries the state and the record on to the queue. *)
Definition eventFields (s : state) (eventType : string) (action : value)
    (map : gmap string value) : M (state + state * gmap string value) :=
  if String.eqb eventType "notify" then
    eventName ← liftR (get action "eventName");
    data ← liftR (get action "data");
    if strict_eq eventName (VStr (AD_SHOWN E)) then
      classification ← liftR (get data "hierarchy");
      let map := <[ "notificationType" := VStr "generated" ]> map in
      let map := <[ "notificationClassification" := classification ]> map in
      let map := <[ "notificationCatalog" := VStr "unspecified-catalog" ]> map in
      notificationUrl ← liftR (get data "notificationUrl");
      let map := <[ "notificationUrl" := notificationUrl ]> map in
      id ← liftR (get data "uuid");
      mret (inr (s, <[ "notificationId" := id ]> map))
    else if strict_eq eventName (VStr (NOTIFICATION_RESULT E)) then
      uuid ← liftR (get data "uuid");
      result ← liftR (get data "result");
      notificationType ←
        (if inherited (toPropertyKey result)
         then throw (Unmodelled "notification result that names an inherited property")
         else mret (js_or (default VUndef (translate !! toPropertyKey result)) result));
      let map := <[ "notificationType" := notificationType ]> map in
      s ← (if strict_eq notificationType (VStr "clicked")
              || strict_eq notificationType (VStr "dismissed")
           then match uuid with
                | VStr u => liftR (userModelState.recordAdUUIDSeen E s u (VNum 1))
                | _ => throw (Unmodelled "seen-map key that is not a string")
                end
           else mret s);
      id ← liftR (get data "uuid");
      mret (inr (s, <[ "notificationId" := id ]> map))
    else mret (inl s)
  else if String.eqb eventType "load" then
    tabValue ← liftR (get action "tabValue");
    if negb (truthy tabValue) then mret (inl s) else
    incognito ← liftR (get tabValue "incognito");
    if truthy incognito then mret (inl s) else
    tabUrl ← liftR (get tabValue "url");
    match tabUrl with
    | VStr url =>
        if negb (String.prefix "http://" url) && negb (String.prefix "https://" url)
        then mret (inl s) else
        tabId ← liftR (get tabValue "tabId");
        let map := <[ "tabId" := VStr (ToString E tabId) ]> map in
        let map := <[ "tabType" := VStr "click" ]> map in
        searchState ← liftR (userModelState.getSearchState (VMap s));
        let map := if truthy searchState then <[ "tabType" := VStr "search" ]> map else map in
        let map := <[ "tabUrl" := tabUrl ]> map in
        w ← getWorld;
        match js_or (lastSingleClassification w) (VList []) with
        | VList classification =>
            if forallb primitive classification
            then mret (inr (s, <[ "tabClassification" := VList classification ]> map))
            else throw (Unmodelled "classification that holds collections")
        | VMap _ => throw (Unmodelled "classification that is not an array")
        | _ => throw (TypeError "classification.toArray is not a function")
        end
    | _ => throw (TypeError "tabUrl.startsWith is not a function")
    end
  else if String.eqb eventType "blur" then
    tabValue ← liftR (get action "tabValue");
    tabId ← liftR (get tabValue "tabId");
    mret (inr (s, <[ "tabId" := VStr (ToString E tabId) ]> map))
  else if String.eqb eventType "focus" then
    tabId ← liftR (get action "tabId");
    mret (inr (s, <[ "tabId" := VStr (ToString E tabId) ]> map))
  else if String.eqb eventType "settings" then
    key ← liftR (get action "key");
    if negb (reported (toPropertyKey key)) then mret (inl s) else
    configured ← liftR (userModelState.getUserModelValue s "configured");
    allowed ← liftR (userModelState.getUserModelValue s "allowed");
    v ← liftR (get action "value");
    let settings : gmap string value :=
      {[ "notifications" := obj [("configured", configured); ("allowed", allowed)] ]} in
    let settings :=
      foldr (fun '(k, short) (acc : gmap string value) =>
               let x := if negb (strict_eq (VStr k) key) then getSetting E k else v in
               let x := if String.eqb k (ADS_OPERATING_MODE E)
                        then (if truthy x then VStr "B" else VStr "A") else x in
               <[ short := x ]> acc)
            settings (map_to_list mapping) in
    mret (inr (s, <[ "settings" := VMap (delete "enabled" settings) ]> map))
  else
    mret (inr (s, <[ "place" := userModelState.getAdPlace s ]> map)).

Definition generateAdReportingEvent (s : state) (eventType : string) (action : value) : M state :=
  gate ← noop s;
  if (gate : bool) then mret s else
  let map : gmap string value := {[ "type" := VStr eventType ]} in
  now ← getTime E;
  let stamp := VStr (toISOString E now) in
  let map := <[ "stamp" := stamp ]> map in
  fields ← eventFields s eventType action map;
  match fields with
  | inl s => mret s
  | inr (s, map) =>
      last ← liftR (lastOf (userModelState.getReportingEventQueue s));
      duplicate ←
        (if truthy last then
           match last with
           | VMap last => mret (isEqual (<[ "stamp" := stamp ]> last) map)
           | VList _ => mret false
           | _ => throw (TypeError "last.toJS is not a function")
           end
         else mret false);
      if (duplicate : bool) then mret s else
      _ ← onUserModelLog "Event logged" (VMap map);
      liftR (userModelState.appendToReportingEventQueue E s (VMap map))
  end.

(** ** Identity *)

Definition generateAdUUIDString : M string := newUuid E.

Definition generateAndSetAdUUIDRegardless (s : state) : M state :=
  u ← generateAdUUIDString;
  liftR (userModelState.setAdUUID E s (VStr u)).

Definition generateAndSetAdUUIDButOnlyIfDNE (s : state) : M state :=
  let uuid := userModelState.getAdUUID s in
  match uuid with
  | VUndef => generateAndSetAdUUIDRegardless s
  | _ => mret s
  end.

Definition oneDay : Z := (if testingP E then 600 else 86400) * 1000.
Definition oneHour : Z := (if testingP E then 25 else 3600) * 1000.

Definition collectActivityAsNeeded (s : state) (adEnabled : value) : M state :=
  w ← getWorld;
  if negb (truthy adEnabled) then
    match collectActivityId w with
    | Some id =>
        _ ← emit (ClearTimeout id);
        _ ← set_collectActivityId None;
        mret s
    | None => mret s
    end
  else
  match collectActivityId w with
  | Some _ => mret s
  | None =>
      mark ← liftR (lastOf (userModelState.getReportingEventQueue s));
      retryIn ←
        (if truthy mark then
           now ← getTime E;
           stamp ← liftR (prop mark "stamp");
           mret (match dateGetTime E stamp with
                 | Some t => Some (if (oneHour <? now - t)%Z then oneHour else now - t)
                 | None => None
                 end)
         else mret (Some oneHour));
      id ← setTimeout retryIn;
      _ ← set_collectActivityId (Some id);
      mret s
  end.

Definition confirmAdUUIDIfAdEnabled (s : state) : M state :=
  let adEnabled := userModelState.getAdEnabledValue E s in
  s ← (if truthy adEnabled then generateAndSetAdUUIDButOnlyIfDNE s else mret s);
  collectActivityAsNeeded s adEnabled.

Definition removeAllHistory (s : state) : M state :=
  s ← liftR (userModelState.removeAllHistory s);
  confirmAdUUIDIfAdEnabled s.

(** ** Timing model *)

(** [x < thresh]; [None] is a value that is not a finite number, which
    compares false. *)
Definition valueToLowHigh (x : option Q) (thresh : Q) : string :=
  match x with
  | Some x => if negb (Qle_bool thresh x) then "low" else "high"
  | None => "high"
  end.

Definition topicVariance (s : state) : M string :=
  history ← liftR (userModelState.getPageScoreHistory s true);
  nback ← liftR (js_length history);
  let scores := deriveCategoryScores E history in
  let indexOfMax := vectorIndexOfMax E scores in
  let varval :=
    match nback, indexOfMax ≫= (fun i => scores !! i) with
    | Some n, Some score =>
        if Qeq_bool score 0 then None else Some (inject_Z (Z.of_nat n) / score)%Q
    | _, _ => None
    end in
  mret (valueToLowHigh varval (11 # 10)).

Definition recencyCalc (s : state) : M string :=
  now ← getTime E;
  last ← liftR (userModelState.getLastUserIdleStopTime s);
  let diff := (fun t => inject_Z (now - t)) <$> toNumber E last in
  mret (valueToLowHigh diff (60 # 1)).

(** [getSearchState], [getShoppingState] and [getUserBuyingState] are
    called without an argument. *)
Definition stateToLetterStd (s : state) : M value :=
  tvar ← topicVariance s;
  sch ← liftR (userModelState.getSearchState VUndef);
  shp ← liftR (userModelState.getShoppingState VUndef);
  buy ← (if truthy shp then mret shp else liftR (userModelState.getUserBuyingState VUndef));
  rec ← recencyCalc s;
  mret (alphabetizer E tvar sch buy false false "low" rec).

(** [special] is [VUndef] when the caller omits it; the default is [null]. *)
Definition updateTimingModel (s : state) (special : value) : M state :=
  gate ← noop s;
  if (gate : bool) then mret s else
  let special := match special with VUndef => VNull | _ => special end in
  len ← liftR (js_length special);
  letter ← (if bool_decide (len = Some 0%nat) then stateToLetterStd s else mret special);
  let mdl := userModelState.getUserModelTimingMdl s true in
  len ← liftR (js_length mdl);
  let mdl := if bool_decide (len = Some 0%nat) then initOnlineELPH E else mdl in
  let mdl := updateOnlineELPH E letter mdl in
  liftR (userModelState.setUserModelTimingMdl E s mdl).

(** ** Shopping *)

Definition testShoppingData (s : state) (url : value) : M state :=
  gate ← noop s;
  if (gate : bool) then mret s else
  let hostname := getHostname E url in
  lastShopState ← liftR (userModelState.getSearchState (VMap s));
  if strict_eq hostname (VStr "amazon.com") then
    userModelState.flagShoppingState E s url
  else if negb (strict_eq hostname (VStr "amazon.com")) && truthy lastShopState then
    liftR (userModelState.unFlagShoppingState E s)
  else mret s.

(** ** Ad selection *)

(** The non-negative integer [P] cut to the 53 significant bits of a
    double: the nearest integer with that many, a tie going to the even
    one. *)
Definition roundDouble (P : Z) : Z :=
  let d := Z.log2 P - 52 in
  if (d <=? 0)%Z then P else
  let q := P / 2 ^ d in
  let rest := P mod 2 ^ d in
  let half := 2 ^ (d - 1) in
  let q := if (half <? rest)%Z || ((rest =? half)%Z && Z.odd q) then q + 1 else q in
  q * 2 ^ d.

(** [length * Math.random()] for the draw [m / 2^k]: the exact product
    is [length * m / 2^k], and the double that the multiplication returns
    is its numerator rounded, over the same power of two. *)
Definition timesRandom (n : Z) (r : Z * Z) : Z * Z := (roundDouble (n * fst r), snd r).

(** [x << 0] for the double [x = a / 2^k] that is not negative: the
    integer part, read as a signed 32-bit integer. *)
Definition toInt32 (x : Z * Z) : Z :=
  let z := (fst x / 2 ^ snd x) mod 2 ^ 32 in
  if (2 ^ 31 <=? z)%Z then z - 2 ^ 32 else z.

(** [keys[keys.length * Math.random() << 0]] where [keys] are the keys
    of an array, its indices as strings: [None] is [undefined]. *)
Definition randomKey {A} (dictionary : list A) : M (option nat) :=
  r ← mathRandom E;
  let n := Z.of_nat (length dictionary) in
  let i := toInt32 (timesRandom n r) in
  mret (if bool_decide (0 <= i < n)%Z then Some (Z.to_nat i) else None).

(** A key of an array as [Object.keys] gives it: the index in decimal. *)
Definition keyOf (i : nat) : value := VStr (pretty i).

Definition goAheadAndShowTheAd
    (windowId notificationTitle notificationText notificationUrl uuid notificationId : value)
    : M unit :=
  emit (NativeNotificationCreate windowId notificationTitle notificationText
          notificationUrl uuid (js_or notificationId (VStr (ADS E)))).

(** [category.split('-')] *)
Fixpoint split_on (sep : ascii) (x : string) : list string :=
  match x with
  | EmptyString => [""]
  | String c rest =>
      if Ascii.eqb c sep then "" :: split_on sep rest
      else match split_on sep rest with
           | [] => [String c ""]
           | y :: ys => String c y :: ys
           end
  end.

(** What [bundle.categories[name]] finds: the ads of a category that the
    catalog holds, or a property that the catalog, a plain object, inherits. *)
Inductive bucket : Type :=
  | Ads (ads : list ad)
  | InheritedProperty.

Definition lookupCategory (categories : catalog) (name : string) : option bucket :=
  match categories !! name with
  | Some ads => Some (Ads ads)
  | None => if inherited name then Some InheritedProperty else None
  end.

(** The [for (let level in hierarchy)] loop of [checkReadyAdServe]: the
    pair is [winnerOverTime] and [result] as the loop leaves them. *)
Fixpoint hierarchicalFallback (categories : catalog) (hierarchy : list string)
    (levels : list nat) (winnerOverTime : value) (result : option bucket)
    : value * option bucket :=
  match levels with
  | [] => (winnerOverTime, result)
  | level :: levels =>
      let winnerOverTime :=
        String.concat "-" (take (length hierarchy - level) hierarchy) in
      let result := lookupCategory categories winnerOverTime in
      if bool_decide (is_Some result) then (VStr winnerOverTime, result)
      else hierarchicalFallback categories hierarchy levels (VStr winnerOverTime) result
  end.

(** The [for] loop that unmarks every ad of the matched list. *)
Fixpoint unmarkAll (s : state) (matched : list ad) : result state :=
  match matched with
  | [] => Ok s
  | x :: rest =>
      let unsee := VNum 0 in
      s ← userModelState.recordAdUUIDSeen E s (uuid x) unsee;
      unmarkAll s rest
  end.

Definition isSeen (seen : gmap string value) (x : ad) : bool :=
  truthy (default VUndef (seen !! uuid x)).

(** Lines 506 to 522 of [checkReadyAdServe]: the state and the pool
    [adsNotSeen] that the draw is made from. *)
Definition roundRobin (s : state) (category : string) (result : list ad)
    : M (state * list ad) :=
  let seen := userModelState.getAdUUIDSeen s in
  let adsSeen := filter (fun x => isSeen seen x = true) result in
  let adsNotSeen := filter (fun x => negb (isSeen seen x) = true) result in
  let allSeen := (length adsNotSeen <=? 0)%nat in
  if allSeen then
    _ ← onUserModelLog "Ad round-robin"
          (obj [("category", VStr category);
                ("adsSeen", VList (ad_to_value <$> adsSeen));
                ("adsNotSeen", VList (ad_to_value <$> adsNotSeen))]);
    s ← liftR (unmarkAll s result);
    mret (s, adsSeen)
  else mret (s, adsNotSeen).

Definition notServed (reason : list (string * value)) : M unit :=
  onUserModelLog "Ad not served" (obj reason).

(** [underscore.findWhere(surveys, { status: 'available' })] as an index. *)
Fixpoint findAvailable (surveys : list value) : option (nat * gmap string value) :=
  match surveys with
  | [] => None
  | x :: rest =>
      match x with
      | VMap m =>
          if bool_decide (m !! "status" = Some (VStr "available")) then Some (0%nat, m)
          else prod_map S id <$> findAvailable rest
      | _ => prod_map S id <$> findAvailable rest
      end
  end.

(** [catNames[indexOfMax]] *)
Definition nameAt (catNames : value) (indexOfMax : option nat) : result value :=
  match catNames with
  | VUndef | VNull => Throw (TypeError "Cannot read property of undefined")
  | VList l => Ok (default VUndef (indexOfMax ≫= (fun i => l !! i)))
  | VStr x =>
      Ok (match indexOfMax ≫= (fun i => String.get i x) with
          | Some c => VStr (String c "")
          | None => VUndef
          end)
  | VMap _ => Throw (Unmodelled "category names that are not an array")
  | VBool _ | VNum _ => Ok VUndef
  end.

(** Lines 506 to 551 of [checkReadyAdServe]: from the matched list to
    the notification. *)
Definition serveAd (s : state) (windowId : value) (category : string)
    (hierarchy : list string) (winnerOverTime : value) (result : list ad) : M state :=
  '(s, adsNotSeen) ← roundRobin s category result;
  arbitraryKey ← randomKey adsNotSeen;
  let shownKey := from_option keyOf VUndef arbitraryKey in
  match arbitraryKey ≫= (fun i => adsNotSeen !! i) with
  | None =>
      _ ← notServed [("reason", VStr "no ad for winnerOverTime");
                     ("category", VStr category);
                     ("winnerOverTime", winnerOverTime);
                     ("arbitraryKey", shownKey)];
      mret s
  | Some payload =>
      let notificationText := notificationText payload in
      let notificationUrl := notificationURL payload in
      let advertiser := advertiser payload in
      if negb (truthy notificationText) || negb (truthy notificationUrl)
         || negb (truthy advertiser) then
        _ ← notServed [("reason", VStr "incomplete ad information");
                       ("category", VStr category);
                       ("winnerOverTime", winnerOverTime);
                       ("arbitraryKey", shownKey);
                       ("notificationUrl", notificationUrl);
                       ("notificationText", notificationText);
                       ("advertiser", advertiser)];
        mret s
      else
      let id := VStr (uuid payload) in
      _ ← goAheadAndShowTheAd windowId advertiser notificationText
            notificationUrl id VUndef;
      _ ← onUserModelLog (AD_SHOWN E)
            (obj [("category", VStr category);
                  ("winnerOverTime", winnerOverTime);
                  ("arbitraryKey", shownKey);
                  ("notificationUrl", notificationUrl);
                  ("notificationText", notificationText);
                  ("advertiser", advertiser);
                  ("uuid", id);
                  ("hierarchy", VList (VStr <$> hierarchy))]);
      userModelState.appendAdShownToAdHistory E s
  end.

(** Lines 492 to 551 of [checkReadyAdServe]: from the winning category
    to the notification.  A property that the catalog inherits is truthy
    and ends the loop; it is a function, or the prototype, and has no
    [filter]. *)
Definition selectAd (s : state) (windowId : value) (categories : catalog)
    (category : string) : M state :=
  let hierarchy := split_on "-"%char category in
  let '(winnerOverTime, result) :=
    hierarchicalFallback categories hierarchy (seq 0 (length hierarchy)) VUndef None in
  match result with
  | None =>
      _ ← notServed [("reason", VStr "no ads for category"); ("category", VStr category)];
      mret s
  | Some InheritedProperty => throw (TypeError "result.filter is not a function")
  | Some (Ads result) => serveAd s windowId category hierarchy winnerOverTime result
  end.

(** Lines 444 to 491 of [checkReadyAdServe], then [selectAd]. *)
Definition checkReadyAdServe (s : state) (windowId : value) : M state :=
  gate ← noop s;
  if (gate : bool) then mret s else
  w ← getWorld;
  if negb (truthy (foregroundP w)) then
    _ ← notServed [("reason", VStr "not in foreground")];
    mret s
  else
  allowed ← userModelState.allowedToShowAdBasedOnHistory E s;
  if negb allowed then
    _ ← notServed [("reason", VStr "not allowed based on history")];
    mret s
  else
  surveys ← match userModelState.getUserSurveyQueue s with
            | VList l => mret l
            | VMap _ => throw (Unmodelled "survey queue that is a keyed collection")
            | _ => throw (TypeError "toJS is not a function")
            end;
  match findAvailable surveys with
  | Some (i, survey) =>
      let survey := <[ "status" := VStr "display" ]> survey in
      now ← getTime E;
      let survey := <[ "status_at" := VStr (toISOString E now) ]> survey in
      let surveys := <[ i := VMap survey ]> surveys in
      s ← liftR (userModelState.setUserSurveyQueue E s (VList surveys));
      id ← generateAdUUIDString;
      _ ← goAheadAndShowTheAd windowId (default VUndef (survey !! "title"))
            (default VUndef (survey !! "description")) (default VUndef (survey !! "url"))
            (VStr id) (VStr (SURVEYS E));
      _ ← onUserModelLog (SURVEY_SHOWN E) (VMap survey);
      mret s
  | None =>
  match sampleAdFeed w with
  | None =>
      _ ← notServed [("reason", VStr "no ad catalog")];
      mret s
  | Some categories =>
  catNames ← liftR (prop (priorData w) "names");
  history ← liftR (userModelState.getPageScoreHistory s true);
  let scores := deriveCategoryScores E history in
  let indexOfMax := vectorIndexOfMax E scores in
  category ← liftR (nameAt catNames indexOfMax);
  if negb (truthy category) then
    _ ← notServed [("reason", VStr "no category at offset indexOfMax");
                   ("indexOfMax", from_option (fun i => VNum (Z.of_nat i)) VUndef indexOfMax)];
    mret s
  else
  match category with
  | VStr category => selectAd s windowId categories category
  | _ => throw (TypeError "category.split is not a function")
  end
  end
  end.

(** ** Reporting *)

Definition collectActivity (s : state) : M state :=
  gate ← noop s;
  if (gate : bool) then mret s else
  let path := "/v1/reports/" +:+ ToString E (userModelState.getAdUUID s) in
  let queue := userModelState.getReportingEventQueue s in
  mark ← liftR (lastOf queue);
  if negb (truthy mark) then
    _ ← emit (OnUserModelUploadLogs VNull oneDay);
    mret s
  else
  match queue, mark with
  | VList events, VMap mark =>
      let stamp := default VUndef (mark !! "stamp") in
      '(s, mark, events) ←
        (if negb (truthy (default VUndef (mark !! "uuid"))) then
           u ← newUuid E;
           let mark := <[ "uuid" := VStr u ]> mark in
           let events := <[ pred (length events) := VMap mark ]> events in
           s ← liftR (userModelState.setReportingEventQueue E s (VList events));
           mret (s, mark, events)
         else mret (s, mark, events));
      now ← getTime E;
      _ ← emit (Roundtrip "PUT" path
                  (obj [("braveVersion", appVersion E);
                        ("platform", platform E);
                        ("reportId", default VUndef (mark !! "uuid"));
                        ("reportStamp", VStr (toISOString E now));
                        ("events", VList events)])
                  (CollectActivityCallback stamp path));
      mret s
  | _, VList _ => throw (Unmodelled "queue entry that is a list")
  | _, _ => throw (TypeError "Cannot create property 'uuid'")
  end.

(** The callback [(err, response, result) => ...] of the upload. *)
Definition runCollectActivityCallback (stamp : value) (path : string)
    (err response : value) : M unit :=
  stamp ←
    (if truthy err then
       _ ← onUserModelLog "Event upload failed"
             (obj [("method", VStr "PUT"); ("server", server E); ("path", VStr path);
                   ("reason", VStr (ToString E err))]);
       statusCode ← liftR (prop response "statusCode");
       mret (if negb (strict_eq statusCode (VNum 400)) then VNull else stamp)
     else mret stamp);
  emit (OnUserModelUploadLogs stamp (if truthy err then oneHour else oneDay)).

Fixpoint filterStamp (stamp : value) (events : list value) : result (list value) :=
  match events with
  | [] => Ok []
  | entry :: rest =>
      x ← get entry "stamp";
      rest ← filterStamp stamp rest;
      Ok (if js_gt E x stamp then entry :: rest else rest)
  end.

Definition uploadLogs (s : state) (stamp : value) (retryIn : Z) : M state :=
  gate ← noop s;
  if (gate : bool) then mret s else
  let events := userModelState.getReportingEventQueue s in
  let path := "/v1/surveys/reporter/" +:+ ToString E (userModelState.getAdUUID s)
              +:+ "?product=ads-test" in
  s ← (if truthy stamp then
         match events with
         | VList events =>
             data ← liftR (filterStamp stamp events);
             s ← liftR (userModelState.setReportingEventQueue E s (VList data));
             _ ← onUserModelLog "Events uploaded"
                   (obj [("previous", VNum (Z.of_nat (size s)));
                         ("current", VNum (Z.of_nat (length data)))]);
             mret s
         | VMap _ => throw (Unmodelled "queue that is a keyed collection")
         | _ => throw (TypeError "events.filter is not a function")
         end
       else mret s);
  w ← getWorld;
  _ ← match collectActivityId w with
      | Some _ =>
          id ← setTimeout (Some retryIn);
          set_collectActivityId (Some id)
      | None => mret tt
      end;
  _ ← emit (Roundtrip "GET" path VUndef (UploadLogsCallback path));
  mret s.

End userModel.
End userModel.

(** * A concrete instance of the collaborators

    Used to run the engine on examples. *)

Definition sampleToString (v : value) : string :=
  match v with
  | VUndef => "undefined"
  | VNull => "null"
  | VBool b => if b then "true" else "false"
  | VNum n => pretty n
  | VStr x => x
  | VList _ => "List"
  | VMap _ => "Map"
  end.

(** ToNumber on the strings of the examples: a run of decimal digits, with
    or without a sign, is that integer and the empty string is 0.  Any
    other string is taken for NaN here, which leaves out the numerals with
    a fraction, an exponent, a radix prefix or blanks around them. *)
Fixpoint decimalDigits (x : string) (acc : Z) : option Z :=
  match x with
  | EmptyString => Some acc
  | String c rest =>
      let d := Z.of_nat (nat_of_ascii c) - 48 in
      if bool_decide (0 <= d <= 9) then decimalDigits rest (10 * acc + d) else None
  end.

Definition decimalNumeral (x : string) : option Z :=
  match x with
  | EmptyString => Some 0
  | String c rest =>
      if Ascii.eqb c "-"%char then
        (if String.eqb rest "" then None else Z.opp <$> decimalDigits rest 0)
      else if Ascii.eqb c "+"%char then
        (if String.eqb rest "" then None else decimalDigits rest 0)
      else decimalDigits x 0
  end.

Definition sampleEnv : Env := {|
  ADS_ENABLED := "ads.enabled";
  ADS_LOCALE := "ads.locale";
  ADS_PER_DAY := "ads.per-day";
  ADS_PER_HOUR := "ads.per-hour";
  ADS_OPERATING_MODE := "ads.operating-mode";
  ADS_PLACE := "ads.place";
  AD_SHOWN := "ad-shown";
  NOTIFICATION_RESULT := "notification-result";
  NOTIFICATION_CLICK := "notification-click";
  NOTIFICATION_TIMEOUT := "notification-timeout";
  ADS := "ads";
  SURVEYS := "surveys";
  SURVEY_SHOWN := "survey-shown";
  getSetting := fun k =>
    if String.eqb k "ads.per-hour" then VNum 2
    else if String.eqb k "ads.per-day" then VNum 3
    else VUndef;
  isURL := fun _ => true;
  getHostname := fun url => url;
  deriveCategoryScores := fun _ => [1 # 1]%Q;
  vectorIndexOfMax := fun _ => Some 0%nat;
  initOnlineELPH := VList [VStr "init"];
  updateOnlineELPH := fun letter mdl => VList [letter; mdl];
  alphabetizer := fun tvar _ _ _ _ _ rec => VStr (tvar +:+ rec);
  ToString := sampleToString;
  StringToNumber := decimalNumeral;
  toISOString := fun ms => pretty ms;
  dateGetTime := fun _ => None;
  clock := fun n => 1000000000 + 1000 * Z.of_nat n;
  random := fun _ => (0, 1);
  uuidv4 := fun n => "uuid-" +:+ pretty n;
  testingP := false;
  appVersion := VStr "0.0.0";
  platform := VStr "linux";
  server := VStr "https://collector-staging.brave.com/"
|}.

(** Classifier data loaded, profile in the foreground, no timer armed. *)
Definition sampleWorld (feed : option catalog) : World := {|
  initP := true;
  foregroundP := VBool true;
  matrixData := VMap ∅;
  priorData := obj [("names", VList [VStr "sports-rugby-worldcup"])];
  sampleAdFeed := feed;
  lastSingleClassification := VUndef;
  collectActivityId := None;
  ticks := 0;
  draws := 0;
  idents := 0;
  timers := 0;
  trace := []
|}.


(** Ads switched on or off, and a behavioural sub-record. *)
Definition sampleState (enabled : bool) (userModel : list (string * value)) : state :=
  {[ "settings" := obj [("ads.enabled", VBool enabled)];
     "userModel" := obj userModel ]}.

(** * The remaining functions of app/common/state/userModelState.js *)

Module userModelStateRest.
Section userModelStateRest.
Context (E : Env).

Definition setUrlActive (s : state) (url : value) : result state :=
  if negb (truthy url) || negb (isURL E url)
     || negb (truthy (userModelState.getAdEnabledValue E s)) then Ok s else
  s ← userModelState.validateState (VMap s);
  setIn ["userModel"; "url"] url s.

Definition setUrlClass (s : state) (url pageClass : value) : M state :=
  if negb (truthy url) || negb (truthy pageClass) || negb (isURL E url)
     || negb (truthy (userModelState.getAdEnabledValue E s)) then mret s else
  s ← liftR (userModelState.validateState (VMap s));
  now ← getTime E;
  s ← liftR (setIn ["userModel"; "updated"] (VNum now) s);
  s ← liftR (setIn ["userModel"; "url"] url s);
  liftR (setIn ["userModel"; "pageClass"] pageClass s).

(** [Immutable.fromJS(result)] keeps the three keys whatever they hold and
    is an object, hence truthy. *)
Definition getLastServedAd (s : state) : result value :=
  s ← userModelState.validateState (VMap s);
  Ok (obj [("lastAdTime", getIn ["userModel"; "lastAdTime"] s);
           ("lastAdServed", getIn ["userModel"; "adServed"] s);
           ("lastAdClass", getIn ["userModel"; "adClass"] s)]).

Definition setUserModelError (s : state) (error caller : value) : result state :=
  if negb (truthy (userModelState.getAdEnabledValue E s)) then Ok s else
  s ← userModelState.validateState (VMap s);
  setIn ["userModel"; "error"] (obj [("caller", caller); ("error", error)]) s.

(** The SSID is the key of the place; one that is truthy and not a string
    is left out of the model. *)
Definition setAdPlace (s : state) (place : value) : result state :=
  if negb (truthy (userModelState.getAdEnabledValue E s)) then Ok s else
  let ssid := userModelState.getSSID s in
  if truthy ssid then
    match ssid with
    | VStr id => setIn ["userModel"; "places"; id] place s
    | _ => Throw (Unmodelled "SSID that is not a string")
    end
  else Ok s.

Definition getModel (s : state) : result value :=
  s ← userModelState.validateState (VMap s);
  Ok (js_or (default VUndef (s !! "userModel")) (VMap ∅)).

Definition removeHistorySite (s : state) (action : value) : M state :=
  historyKey ← liftR (get action "historyKey");
  s ← liftR (userModelState.validateState (VMap s));
  actionType ← liftR (get action "actionType");
  _ ← emit (OnUserModelLog "FIXME" (obj [("action", actionType); ("historyKey", historyKey)]));
  mret s.

End userModelStateRest.
End userModelStateRest.

(** * The remaining functions of the engine *)

(** Collaborators of these functions that the ones above do not use. *)
Record Host : Type := {
  (* bat-usermodel: raises on a locale it does not know *)
  setLocaleSync : value -> result value;
  (* ex.toString() and ex.stack *)
  exnToString : exn -> value;
  exnStack : exn -> value;
  (* js/data/searchProviders: the [search] template of each provider *)
  searchProviders : list string;
  (* common/urlParse: urlParse(url).href *)
  urlParseHref : value -> value
}.

Definition set_foregroundP (focusP : value) : M unit := fun w =>
  Ok (tt, {| initP := initP w; foregroundP := focusP;
             matrixData := matrixData w; priorData := priorData w;
             sampleAdFeed := sampleAdFeed w;
             lastSingleClassification := lastSingleClassification w;
             collectActivityId := collectActivityId w;
             ticks := ticks w; draws := draws w; idents := idents w;
             timers := timers w; trace := trace w |}).

Module userModelRest.
Section userModelRest.
Context (E : Env) (H : Host).

Definition appFocused (s : state) (focusP : value) : M state :=
  _ ← set_foregroundP focusP;
  mret s.

Definition tabUpdate (s : state) (action : value) : M state :=
  userModelState.setLastUserActivity E s.

Definition removeHistorySite (s : state) (action : value) : M state :=
  liftR (userModelState.removeAllHistory s).

Definition saveCachedInfo (s : state) : M state := mret s.

Definition recordUnIdle (s : state) : M state :=
  userModelState.setLastUserIdleStopTime E s.

(** [prefix.indexOf('{')]: [None] is -1. *)
Fixpoint indexOf (c : ascii) (x : string) : option nat :=
  match x with
  | EmptyString => None
  | String d rest => if Ascii.eqb d c then Some 0%nat else S <$> indexOf c rest
  end.

(** The [for (let provider of searchProviders)] loop of [testSearchState]:
    [Some] is the state returned from inside the loop. *)
Fixpoint searchLoop (s : state) (url href : value) (providers : list string)
    : M (option state) :=
  match providers with
  | [] => mret None
  | prefix :: providers =>
      match indexOf "{"%char prefix with
      | Some (S x) =>
          match href with
          | VStr h =>
              if String.prefix (String.substring 0 (S x) prefix) h
              then s ← userModelState.flagSearchState E s url (VNum 1); mret (Some s)
              else searchLoop s url href providers
          | VList _ => throw (Unmodelled "href that is a list")
          | _ => throw (TypeError "href.indexOf is not a function")
          end
      | _ => searchLoop s url href providers
      end
  end.

Definition testSearchState (s : state) (url : value) : M state :=
  gate ← userModel.noop E s;
  if (gate : bool) then mret s else
  let href := urlParseHref H url in
  lastSearchState ← liftR (userModelState.getSearchState (VMap s));
  found ← searchLoop s url href (searchProviders H);
  match found with
  | Some s => mret s
  | None =>
      if truthy lastSearchState then userModelState.unFlagSearchState E s url
      else mret s
  end.

Definition changeLocale (s : state) (locale : value) : M state :=
  gate ← userModel.noop E s;
  if (gate : bool) then mret s else
  match setLocaleSync H locale with
  | Throw ex =>
      _ ← userModel.onUserModelLog "Locale error"
            (obj [("locale", locale); ("reason", exnToString H ex);
                  ("stack", exnStack H ex)]);
      mret s
  | Ok locale => liftR (userModelState.setLocale E s locale)
  end.

(** [surveys.filter(survey => survey.get('status') === 'available')] *)
Fixpoint filterAvailable (surveys : list value) : result (list value) :=
  match surveys with
  | [] => Ok []
  | survey :: rest =>
      status ← get survey "status";
      rest ← filterAvailable rest;
      Ok (if strict_eq status (VStr "available") then survey :: rest else rest)
  end.

(** [queue.some(entry => (survey.id === entry.id) &&
    (entry.get('status') !== 'available'))].  [survey.id] and [entry.id]
    are property reads on Immutable collections, which hold their entries
    behind [get]: both are [undefined] and the comparison is true. *)
Fixpoint someInteracted (queue : list value) : result bool :=
  match queue with
  | [] => Ok false
  | entry :: rest =>
      match entry with
      | VUndef | VNull => Throw (TypeError "Cannot read property 'id' of undefined")
      | _ =>
          status ← get entry "status";
          if negb (strict_eq status (VStr "available")) then Ok true
          else someInteracted rest
      end
  end.

Fixpoint filterNotInteracted (queue : value) (surveys : list value) : result (list value) :=
  match surveys with
  | [] => Ok []
  | survey :: rest =>
      interacted ← match queue with
                   | VList q => someInteracted q
                   | VMap _ => Throw (Unmodelled "survey queue that is a keyed collection")
                   | _ => Throw (TypeError "queue.some is not a function")
                   end;
      rest ← filterNotInteracted queue rest;
      Ok (if (interacted : bool) then rest else survey :: rest)
  end.

Definition downloadSurveys (s : state) (surveys : value) : M state :=
  gate ← userModel.noop E s;
  if (gate : bool) then mret s else
  _ ← userModel.onUserModelLog "Surveys downloaded" surveys;
  match surveys with
  | VList surveys =>
      surveys ← liftR (filterAvailable surveys);
      surveys ← (if testingP E then
                   let queue := userModelState.getUserSurveyQueue s in
                   liftR (filterNotInteracted queue surveys)
                 else mret surveys);
      s ← liftR (userModelState.setUserSurveyQueue E s (VList surveys));
      _ ← userModel.onUserModelLog "Surveys available" (VList surveys);
      mret s
  | VMap _ => throw (Unmodelled "surveys that are a keyed collection")
  | _ => throw (TypeError "surveys.filter is not a function")
  end.

End userModelRest.
End userModelRest.

(** A concrete instance of these collaborators: one locale is known, and
    the search providers are two templates. *)
Definition sampleHost : Host := {|
  setLocaleSync := fun locale =>
    if strict_eq locale (VStr "en") then Ok (VStr "en")
    else Throw (TypeError "unknown locale");
  exnToString := fun _ => VStr "Error";
  exnStack := fun _ => VUndef;
  searchProviders := ["https://search.example/?q={searchTerms}";
                      "{searchTerms}.example"];
  urlParseHref := fun url => url
|}.

(** * Vocabulary of the properties *)

(** Following the specification's words: the number of timestamps [t] of the
    history with [now - t < windowSeconds]. *)
Definition recentCount (now : Z) (history : list Z) (windowSeconds : Z) : Z :=
  Z.of_nat (length (filter (fun t => now - t < windowSeconds) history)).

(** The list stored under a key; anything else there counts as empty, as
    in [appendToRingBufferUnderKey]. *)
Definition historyUnder (key : list string) (s : state) : list value :=
  match getIn key s with VList l => l | _ => [] end.

(** The last [n] elements of a list, in order. *)
Definition lastN {A} (n : nat) (l : list A) : list A := drop (length l - n) l.

(** Pushing a sequence of items, one call each. *)
Definition pushAll (E : Env) (s : state) (key : list string) (items : list value)
    (maxRows : nat) : result state :=
  foldl (fun acc item =>
           s ← acc; userModelState.appendToRingBufferUnderKey E s key item maxRows)
        (Ok s) items.

(** The classifier data is loaded and ads are on: [noop] lets the call
    through. *)
Definition gateOpen (E : Env) (s : state) (w : World) : Prop :=
  truthy (matrixData w) = true
  /\ truthy (priorData w) = true
  /\ truthy (userModelState.getAdEnabledValue E s) = true.

(** The category path cut down to its first [k] segments. *)
Definition prefixName (hierarchy : list string) (k : nat) : string :=
  String.concat "-" (take k hierarchy).

(** Everything [checkReadyAdServe] checks before it looks a category up:
    the gate, the foreground flag, the rate limiter (which leaves the world
    [w1]), no survey waiting, a catalog, and a winning category name. *)
Definition reachesSelection (E : Env) (s : state) (w : World)
    (categories : catalog) (category : string) (w1 : World) : Prop :=
  gateOpen E s w
  /\ truthy (foregroundP w) = true
  /\ userModelState.allowedToShowAdBasedOnHistory E s w = Ok (true, w1)
  /\ (exists surveys, userModelState.getUserSurveyQueue s = VList surveys
                      /\ userModel.findAvailable surveys = None)
  /\ sampleAdFeed w = Some categories
  /\ (exists catNames history,
         prop (priorData w) "names" = Ok catNames
         /\ userModelState.getPageScoreHistory s true = Ok history
         /\ userModel.nameAt catNames (vectorIndexOfMax E (deriveCategoryScores E history))
            = Ok (VStr category))
  /\ category <> "".

(** The seen-set of the state marks the ad: it holds a truthy value under
    the ad's uuid. *)
Definition seenIn (s : state) (x : ad) : Prop :=
  truthy (default VUndef (userModelState.getAdUUIDSeen s !! uuid x)) = true.

#[global] Instance seenIn_dec (s : state) (x : ad) : Decision (seenIn s x).
Proof. unfold seenIn. apply _. Defined.

(** Following the specification's words: the matched list partitioned
    into the ads that the seen-set marks and those it does not, each in
    the order of the list. *)
Definition adsSeen (s : state) (matched : list ad) : list ad :=
  filter (seenIn s) matched.

Definition adsNotSeen (s : state) (matched : list ad) : list ad :=
  filter (fun x => ~ seenIn s x) matched.

(** The draw is a double in [0, 1): [m / 2^k] with [m] of at most 53
    bits. *)
Definition isDraw (r : Z * Z) : Prop :=
  0 <= fst r < 2 ^ 53 /\ fst r < 2 ^ snd r /\ 0 <= snd r.

(** The [Ad round-robin] event. *)
Definition roundRobinEvent (s : state) (category : string) (matched : list ad) : effect :=
  OnUserModelLog "Ad round-robin"
    (obj [("category", VStr category);
          ("adsSeen", VList (ad_to_value <$> adsSeen s matched));
          ("adsNotSeen", VList (ad_to_value <$> adsNotSeen s matched))]).

(** The catalog resolves the category to the bucket of its prefix of [k]
    segments: it holds that prefix, and it neither holds nor inherits any
    longer one. *)
Definition resolvesTo (categories : catalog) (category : string) (k : nat)
    (matched : list ad) : Prop :=
  let hierarchy := userModel.split_on "-"%char category in
  (1 <= k <= length hierarchy)%nat
  /\ categories !! prefixName hierarchy k = Some matched
  /\ forall k', (k < k' <= length hierarchy)%nat ->
                categories !! prefixName hierarchy k' = None
                /\ inherited (prefixName hierarchy k') = false.

(** The ad has its text, its link and its advertiser. *)
Definition complete (x : ad) : bool :=
  truthy (notificationText x) && truthy (notificationURL x) && truthy (advertiser x).

(** The index that the draw the world holds next picks among [n] entries. *)
Definition drawnIndex (E : Env) (w : World) (n : nat) : Z :=
  userModel.roundDouble (Z.of_nat n * fst (random E (draws w))) / 2 ^ snd (random E (draws w)).

(** The notification of an ad. *)
Definition notificationOf (E : Env) (windowId : value) (x : ad) : effect :=
  NativeNotificationCreate windowId (advertiser x) (notificationText x)
    (notificationURL x) (VStr (uuid x)) (VStr (ADS E)).

(** The event logged with the notification of the ad at index [i] of the
    pool. *)
Definition adShownEvent (E : Env) (category winner : string) (i : nat) (x : ad) : effect :=
  OnUserModelLog (AD_SHOWN E)
    (obj [("category", VStr category);
          ("winnerOverTime", VStr winner);
          ("arbitraryKey", VStr (pretty i));
          ("notificationUrl", notificationURL x);
          ("notificationText", notificationText x);
          ("advertiser", advertiser x);
          ("uuid", VStr (uuid x));
          ("hierarchy", VList (VStr <$> userModel.split_on "-"%char category))]).

(** The event logged instead when the ad lacks a text, a link or an
    advertiser. *)
Definition incompleteEvent (category winner : string) (i : nat) (x : ad) : effect :=
  OnUserModelLog "Ad not served"
    (obj [("reason", VStr "incomplete ad information");
          ("category", VStr category);
          ("winnerOverTime", VStr winner);
          ("arbitraryKey", VStr (pretty i));
          ("notificationUrl", notificationURL x);
          ("notificationText", notificationText x);
          ("advertiser", advertiser x)]).

(** What the engine dispatches for the ad it drew. *)
Definition dispatched (E : Env) (windowId : value) (category winner : string)
    (i : nat) (x : ad) : list effect :=
  if complete x then [notificationOf E windowId x; adShownEvent E category winner i x]
  else [incompleteEvent category winner i x].

(** The seen-map after every ad of a list has been unmarked. *)
Definition unmarked (seen : gmap string value) (matched : list ad) : gmap string value :=
  foldl (fun m x => <[ uuid x := VNum 0 ]> m) seen matched.

(** The stamp of a queue entry. *)
Definition stampOf (entry : value) : value :=
  match entry with VMap m => default VUndef (m !! "stamp") | _ => VUndef end.

(** The entry is strictly newer than the watermark. *)
Definition newerThan (E : Env) (watermark : value) (entry : value) : Prop :=
  js_gt E (stampOf entry) watermark = true.

#[global] Instance newerThan_dec (E : Env) (watermark entry : value) :
  Decision (newerThan E watermark entry).
Proof. unfold newerThan. apply _. Defined.

(** What [uploadLogs] dispatches about the timer: a new timeout when a
    handle is held, nothing otherwise. *)
Definition rearmed (w : World) (retryIn : Z) : list effect :=
  match collectActivityId w with
  | Some _ => [SetTimeout (timers w) (Some retryIn)]
  | None => []
  end.

(** Two records are identical except for their stamp. *)
Definition sameExceptStamp (a b : gmap string value) : Prop :=
  delete "stamp" a = delete "stamp" b.

(** A number, a boolean or a string. *)
Definition scalar (x : value) : bool :=
  match x with VBool _ | VNum _ | VStr _ => true | _ => false end.

(** What [Immutable.Map] makes a map of without looking at entries:
    nothing, a keyed collection, or an empty list. *)
Definition keyedOrEmpty (x : value) : bool :=
  match x with VUndef | VNull | VMap _ | VList [] => true | _ => false end.



(** The record under construction when [generateAdReportingEvent] enters
    its [switch]. *)
Definition stampedRecord (E : Env) (eventType : string) (w : World) : gmap string value :=
  <[ "stamp" := VStr (toISOString E (clock E (ticks w))) ]> {[ "type" := VStr eventType ]}.




(** The identifier of a report: the one its last record already carries,
    or else the next identifier drawn. *)
Definition reportIdOf (E : Env) (w : World) (mark : gmap string value) : value :=
  if truthy (default VUndef (mark !! "uuid")) then default VUndef (mark !! "uuid")
  else VStr (uuidv4 E (idents w)).

(** The last record of the queue as an upload attempt leaves it. *)
Definition markedRecord (E : Env) (w : World) (mark : gmap string value)
    : gmap string value :=
  if truthy (default VUndef (mark !! "uuid")) then mark
  else <[ "uuid" := VStr (uuidv4 E (idents w)) ]> mark.

(** The queue as an upload attempt leaves it. *)
Definition markedQueue (E : Env) (w : World) (events : list value)
    (mark : gmap string value) : list value :=
  if truthy (default VUndef (mark !! "uuid")) then events
  else <[ pred (length events) := VMap (markedRecord E w mark) ]> events.

(** The body of the report that [collectActivity] uploads. *)
Definition reportPayload (E : Env) (reportId : value) (now : Z) (events : list value)
    : value :=
  obj [("braveVersion", appVersion E); ("platform", platform E);
       ("reportId", reportId); ("reportStamp", VStr (toISOString E now));
       ("events", VList events)].

(** Where [collectActivity] uploads to. *)
Definition reportPath (E : Env) (s : state) : string :=
  "/v1/reports/" +:+ ToString E (userModelState.getAdUUID s).

(** A survey that is waiting to be shown. *)
Definition available (survey : value) : Prop :=
  match survey with
  | VMap m => m !! "status" = Some (VStr "available")
  | _ => False
  end.

#[global] Instance available_dec (survey : value) : Decision (available survey).
Proof. destruct survey; simpl; apply _. Defined.

(** The sample collaborators with the process in testing mode. *)
Definition testingEnv : Env := {|
  ADS_ENABLED := ADS_ENABLED sampleEnv;
  ADS_LOCALE := ADS_LOCALE sampleEnv;
  ADS_PER_DAY := ADS_PER_DAY sampleEnv;
  ADS_PER_HOUR := ADS_PER_HOUR sampleEnv;
  ADS_OPERATING_MODE := ADS_OPERATING_MODE sampleEnv;
  ADS_PLACE := ADS_PLACE sampleEnv;
  AD_SHOWN := AD_SHOWN sampleEnv;
  NOTIFICATION_RESULT := NOTIFICATION_RESULT sampleEnv;
  NOTIFICATION_CLICK := NOTIFICATION_CLICK sampleEnv;
  NOTIFICATION_TIMEOUT := NOTIFICATION_TIMEOUT sampleEnv;
  ADS := ADS sampleEnv;
  SURVEYS := SURVEYS sampleEnv;
  SURVEY_SHOWN := SURVEY_SHOWN sampleEnv;
  getSetting := getSetting sampleEnv;
  isURL := isURL sampleEnv;
  getHostname := getHostname sampleEnv;
  deriveCategoryScores := deriveCategoryScores sampleEnv;
  vectorIndexOfMax := vectorIndexOfMax sampleEnv;
  initOnlineELPH := initOnlineELPH sampleEnv;
  updateOnlineELPH := updateOnlineELPH sampleEnv;
  alphabetizer := alphabetizer sampleEnv;
  ToString := ToString sampleEnv;
  StringToNumber := StringToNumber sampleEnv;
  toISOString := toISOString sampleEnv;
  dateGetTime := dateGetTime sampleEnv;
  clock := clock sampleEnv;
  random := random sampleEnv;
  uuidv4 := uuidv4 sampleEnv;
  testingP := true;
  appVersion := appVersion sampleEnv;
  platform := platform sampleEnv;
  server := server sampleEnv
|}.

(** A search template matches an address when the text before its first
    placeholder is not empty and the address starts with it. *)
Definition searchTemplateMatches (template href : string) : Prop :=
  exists p rest,
    template = p +:+ String "{"%char rest
    /\ p <> ""
    /\ userModelRest.indexOf "{"%char p = None
    /\ String.prefix p href = true.


(** The collaborators of [sampleEnv] with a draw just below 3/11: the
    double 1228254443828317 / 2^52. *)
Definition roundingEnv : Env := {|
  ADS_ENABLED := ADS_ENABLED sampleEnv;
  ADS_LOCALE := ADS_LOCALE sampleEnv;
  ADS_PER_DAY := ADS_PER_DAY sampleEnv;
  ADS_PER_HOUR := ADS_PER_HOUR sampleEnv;
  ADS_OPERATING_MODE := ADS_OPERATING_MODE sampleEnv;
  ADS_PLACE := ADS_PLACE sampleEnv;
  AD_SHOWN := AD_SHOWN sampleEnv;
  NOTIFICATION_RESULT := NOTIFICATION_RESULT sampleEnv;
  NOTIFICATION_CLICK := NOTIFICATION_CLICK sampleEnv;
  NOTIFICATION_TIMEOUT := NOTIFICATION_TIMEOUT sampleEnv;
  ADS := ADS sampleEnv;
  SURVEYS := SURVEYS sampleEnv;
  SURVEY_SHOWN := SURVEY_SHOWN sampleEnv;
  getSetting := getSetting sampleEnv;
  isURL := isURL sampleEnv;
  getHostname := getHostname sampleEnv;
  deriveCategoryScores := deriveCategoryScores sampleEnv;
  vectorIndexOfMax := vectorIndexOfMax sampleEnv;
  initOnlineELPH := initOnlineELPH sampleEnv;
  updateOnlineELPH := updateOnlineELPH sampleEnv;
  alphabetizer := alphabetizer sampleEnv;
  ToString := ToString sampleEnv;
  StringToNumber := StringToNumber sampleEnv;
  toISOString := toISOString sampleEnv;
  dateGetTime := dateGetTime sampleEnv;
  clock := clock sampleEnv;
  random := fun _ => (1228254443828317, 52);
  uuidv4 := uuidv4 sampleEnv;
  testingP := testingP sampleEnv;
  appVersion := appVersion sampleEnv;
  platform := platform sampleEnv;
  server := server sampleEnv
|}.

(** * Properties *)

(** ** Running the monad *)

Lemma liftR_Ok {A} (a : A) (w : World) : liftR (Ok a) w = Ok (a, w).
Proof. reflexivity. Qed.



Lemma result_bind_Ok_inv {A B} (r : result A) (f : A -> result B) (b : B) :
  r ≫= f = Ok b -> exists a, r = Ok a /\ f a = Ok b.
Proof. destruct r as [a|e]; simpl; [|discriminate]. intros H. exists a. auto. Qed.

(** ** Paths into the state *)

Lemma getIn_userModel (s : state) (um : gmap string value) (k : string) :
  s !! "userModel" = Some (VMap um) ->
  getIn ["userModel"; k] s = default VUndef (um !! k).
Proof.
  intros H. unfold getIn. simpl. rewrite H. destruct (um !! k); reflexivity.
Qed.

Lemma setIn_userModel (s : state) (um : gmap string value) (k : string) (v : value) :
  s !! "userModel" = Some (VMap um) ->
  setIn ["userModel"; k] v s = Ok (<[ "userModel" := VMap (<[ k := v ]> um) ]> s).
Proof. intros H. unfold setIn. simpl. rewrite H. reflexivity. Qed.

Lemma validateState_Ok (s : state) (um : gmap string value) :
  s !! "userModel" = Some (VMap um) -> userModelState.validateState (VMap s) = Ok s.
Proof. intros H. unfold userModelState.validateState. rewrite H. reflexivity. Qed.

Lemma validateState_inv (v : value) (s : state) :
  userModelState.validateState v = Ok s ->
  v = VMap s /\ exists um, s !! "userModel" = Some (VMap um).
Proof.
  unfold userModelState.validateState. destruct v; try discriminate.
  destruct (m !! "userModel") as [[]|] eqn:Hum; try discriminate.
  intros H. inversion H; subst. eauto.
Qed.

Lemma getAdEnabledValue_insert_userModel (E : Env) (s : state) (v : value) :
  userModelState.getAdEnabledValue E (<[ "userModel" := v ]> s)
  = userModelState.getAdEnabledValue E s.
Proof.
  unfold userModelState.getAdEnabledValue, getIn. simpl.
  rewrite lookup_insert_ne by discriminate. reflexivity.
Qed.

(** ** Rate limiter *)

Lemma loop_counts (E : Env) (now window : Z) (history : list Z) (count : Z) :
  fold_left (fun count timeOfAd =>
               if userModelState.insideWindow E now window timeOfAd
               then count + 1 else count)
            (VNum <$> history) count
  = count + recentCount now history window.
Proof.
  unfold recentCount. revert count.
  induction history as [|t history IH]; intros count; simpl.
  - lia.
  - rewrite IH. unfold userModelState.insideWindow at 1. simpl.
    rewrite filter_cons. case_bool_decide; case_decide; try contradiction; simpl; lia.
Qed.

Lemma historyRespectsRollingTimeConstraint_spec
    (E : Env) (history : list Z) (window cap : Z) (w : World) :
  userModelState.historyRespectsRollingTimeConstraint E
    (VList (VNum <$> history)) window (VNum cap) w
  = Ok (bool_decide (recentCount ((clock E (ticks w) + 500) `div` 1000) history window <= cap),
        tick w).
Proof.
  unfold userModelState.historyRespectsRollingTimeConstraint,
    userModelState.unixTimeNowSeconds, getTime.
  unfold mbind, M_bind, mret, M_ret.
  rewrite loop_counts. f_equal. f_equal.
  rewrite Z.add_0_l. unfold toNumber.
  case_bool_decide; destruct (Z.ltb_spec cap
    (recentCount ((clock E (ticks w) + 500) `div` 1000) history window)); (reflexivity || lia).
Qed.

(** C1. The eligibility check answers true exactly when the number of
    shown-ad timestamps strictly inside the last hour is at most the hourly
    cap and the number strictly inside the last day is at most the daily
    cap; each window is counted against its own reading of the clock.  With
    exactly the cap inside a window (and the other cap respected) the answer
    is true, with one more it is false. *)
Theorem allowedToShowAdBasedOnHistory_caps
    (E : Env) (s : state) (history : list Z) (hourCap dayCap : Z) (w : World) :
  js_or (getIn ["userModel"; "adsShownHistory"] s) (VList []) = VList (VNum <$> history) ->
  getSetting E (ADS_PER_HOUR E) = VNum hourCap ->
  getSetting E (ADS_PER_DAY E) = VNum dayCap ->
  let nowH := (clock E (ticks w) + 500) `div` 1000 in
  let nowD := (clock E (S (ticks w)) + 500) `div` 1000 in
  let hourCount := recentCount nowH history 3600 in
  let dayCount := recentCount nowD history 86400 in
  exists allowed,
    userModelState.allowedToShowAdBasedOnHistory E s w = Ok (allowed, tick (tick w))
    /\ (allowed = true <-> hourCount <= hourCap /\ dayCount <= dayCap)
    /\ (hourCount = hourCap -> dayCount <= dayCap -> allowed = true)
    /\ (hourCount = hourCap + 1 -> allowed = false)
    /\ (dayCount = dayCap -> hourCount <= hourCap -> allowed = true)
    /\ (dayCount = dayCap + 1 -> allowed = false).
Proof.
  intros Hhist Hhour Hday nowH nowD hourCount dayCount.
  exists (bool_decide (hourCount <= hourCap) && bool_decide (dayCount <= dayCap)).
  split.
  - unfold userModelState.allowedToShowAdBasedOnHistory.
    rewrite Hhist, Hhour, Hday.
    unfold mbind at 1, M_bind.
    change (60 * 60) with 3600. change (24 * 3600) with 86400.
    rewrite historyRespectsRollingTimeConstraint_spec.
    unfold mbind at 1, M_bind.
    rewrite historyRespectsRollingTimeConstraint_spec.
    change (ticks (tick w)) with (S (ticks w)).
    fold nowH nowD. fold hourCount dayCount.
    destruct (bool_decide (hourCount <= hourCap)), (bool_decide (dayCount <= dayCap));
      reflexivity.
  - rewrite andb_true_iff, andb_false_iff, !bool_decide_eq_true, !bool_decide_eq_false.
    repeat split; intros; try tauto; lia.
Qed.

Lemma allowedToShowAdBasedOnHistory_caps_witness :
  let s := sampleState true [("adsShownHistory", VList [VNum 999990; VNum 999995])] in
  let w := sampleWorld None in
  exists allowed,
    userModelState.allowedToShowAdBasedOnHistory sampleEnv s w = Ok (allowed, tick (tick w))
    /\ allowed = true.
Proof.
  intros s w.
  destruct (allowedToShowAdBasedOnHistory_caps sampleEnv s [999990; 999995] 2 3 w)
    as (allowed & Hrun & _ & Hcap & _); [reflexivity | reflexivity | reflexivity |].
  exists allowed. split; [exact Hrun |].
  apply Hcap; vm_compute; [reflexivity | discriminate].
Defined.

(** An impression exactly 3600 seconds old is outside the hourly window:
    with a cap of 2 the check passes with two newer impressions next to it,
    and fails once that impression is one second younger. *)
Example window_boundary_is_strict :
  userModelState.allowedToShowAdBasedOnHistory sampleEnv
    (sampleState true [("adsShownHistory", VList [VNum 996400; VNum 999000; VNum 999500])])
    (sampleWorld None)
  = Ok (true, tick (tick (sampleWorld None)))
  /\ userModelState.allowedToShowAdBasedOnHistory sampleEnv
       (sampleState true [("adsShownHistory", VList [VNum 996401; VNum 999000; VNum 999500])])
       (sampleWorld None)
     = Ok (false, tick (tick (sampleWorld None))).
Proof. split; vm_compute; reflexivity. Qed.

(** ** Ring buffer *)

Lemma lastN_length {A} (n : nat) (l : list A) : length (lastN n l) = min n (length l).
Proof. unfold lastN. rewrite length_drop. lia. Qed.

Lemma lastN_app {A} (n : nat) (l l' : list A) :
  lastN n (lastN n l ++ l') = lastN n (l ++ l').
Proof.
  unfold lastN.
  rewrite <- (drop_app_le l l' (length l - n)) by lia.
  rewrite drop_drop. f_equal.
  rewrite length_drop, !length_app. lia.
Qed.

Lemma lastN_app_ge {A} (n : nat) (l l' : list A) :
  (n <= length l')%nat -> lastN n (l ++ l') = lastN n l'.
Proof.
  intros Hn. unfold lastN. rewrite length_app.
  replace (length l + length l' - n)%nat with (length l + (length l' - n))%nat by lia.
  apply drop_app_add.
Qed.

Lemma historyUnder_insert (s : state) (um : gmap string value) (k : string) (l : list value) :
  historyUnder ["userModel"; k] (<[ "userModel" := VMap (<[ k := VList l ]> um) ]> s) = l.
Proof.
  unfold historyUnder.
  rewrite (getIn_userModel _ (<[ k := VList l ]> um)) by apply lookup_insert_eq.
  rewrite lookup_insert_eq. reflexivity.
Qed.

Lemma appendToRingBufferUnderKey_spec
    (E : Env) (s : state) (um : gmap string value) (k : string) (item : value) (maxRows : nat) :
  truthy (userModelState.getAdEnabledValue E s) = true ->
  s !! "userModel" = Some (VMap um) ->
  userModelState.appendToRingBufferUnderKey E s ["userModel"; k] item maxRows
  = Ok (<[ "userModel" :=
             VMap (<[ k := VList (lastN maxRows (historyUnder ["userModel"; k] s ++ [item])) ]> um) ]> s).
Proof.
  intros Hen Hum. unfold userModelState.appendToRingBufferUnderKey.
  rewrite Hen. simpl negb. cbv iota.
  rewrite (validateState_Ok s um Hum). simpl mbind.
  fold (historyUnder ["userModel"; k] s).
  set (h := historyUnder ["userModel"; k] s ++ [item]).
  rewrite Hum. simpl.
  do 4 f_equal. unfold lastN.
  destruct (Nat.ltb_spec maxRows (length h)); [reflexivity |].
  replace (length h - maxRows)%nat with 0%nat by lia. reflexivity.
Qed.

Lemma appendToRingBufferUnderKey_keeps
    (E : Env) (s : state) (um : gmap string value) (v : value) :
  truthy (userModelState.getAdEnabledValue E s) = true ->
  truthy (userModelState.getAdEnabledValue E (<[ "userModel" := v ]> s)) = true.
Proof. intros H. rewrite getAdEnabledValue_insert_userModel. exact H. Qed.

Lemma pushAll_snoc (E : Env) (s : state) (key : list string) (items : list value)
    (item : value) (maxRows : nat) :
  pushAll E s key (items ++ [item]) maxRows
  = pushAll E s key items maxRows
      ≫= (fun s => userModelState.appendToRingBufferUnderKey E s key item maxRows).
Proof. unfold pushAll. rewrite foldl_app. reflexivity. Qed.

Lemma pushAll_spec
    (E : Env) (items : list value) (s : state) (um : gmap string value) (k : string)
    (maxRows : nat) :
  truthy (userModelState.getAdEnabledValue E s) = true ->
  s !! "userModel" = Some (VMap um) ->
  items <> [] ->
  exists s' um', pushAll E s ["userModel"; k] items maxRows = Ok s'
    /\ truthy (userModelState.getAdEnabledValue E s') = true
    /\ s' !! "userModel" = Some (VMap um')
    /\ historyUnder ["userModel"; k] s'
       = lastN maxRows (historyUnder ["userModel"; k] s ++ items).
Proof.
  intros Hen Hum. induction items as [|item items IH] using rev_ind; [congruence |].
  intros _. rewrite pushAll_snoc.
  destruct (decide (items = [])) as [->|Hne].
  - simpl. rewrite (appendToRingBufferUnderKey_spec E s um) by assumption.
    eexists _, _. split; [reflexivity |].
    split; [by apply appendToRingBufferUnderKey_keeps |].
    split; [apply lookup_insert_eq |]. apply historyUnder_insert.
  - destruct (IH Hne) as (s1 & um1 & -> & Hen1 & Hum1 & Hh1). simpl.
    rewrite (appendToRingBufferUnderKey_spec E s1 um1) by assumption.
    eexists _, _. split; [reflexivity |].
    split; [by apply appendToRingBufferUnderKey_keeps |].
    split; [apply lookup_insert_eq |].
    rewrite historyUnder_insert, Hh1, lastN_app, app_assoc. reflexivity.
Qed.

Lemma appendToRingBufferUnderKey_bound
    (E : Env) (s s' : state) (k : string) (item : value) (maxRows : nat) :
  userModelState.appendToRingBufferUnderKey E s ["userModel"; k] item maxRows = Ok s' ->
  (length (historyUnder ["userModel"; k] s) <= maxRows)%nat ->
  (length (historyUnder ["userModel"; k] s') <= maxRows)%nat.
Proof.
  intros Hrun Hlen.
  destruct (truthy (userModelState.getAdEnabledValue E s)) eqn:Hen.
  - destruct (s !! "userModel") as [[| | | | | |um]|] eqn:Hum;
      try (unfold userModelState.appendToRingBufferUnderKey,
             userModelState.validateState in Hrun;
           rewrite Hen, Hum in Hrun; discriminate Hrun).
    rewrite (appendToRingBufferUnderKey_spec E s um) in Hrun by assumption.
    injection Hrun as <-. rewrite historyUnder_insert, lastN_length. lia.
  - unfold userModelState.appendToRingBufferUnderKey in Hrun. rewrite Hen in Hrun.
    injection Hrun as <-. exact Hlen.
Qed.

(** C2. With ads enabled, one push appends the item and, when the size then
    exceeds the capacity, drops exactly [size - capacity] elements from the
    front; pushing a non-empty sequence of items leaves the last [capacity]
    elements of the starting history followed by the items, in order, and
    once at least [capacity] items were pushed, exactly the last [capacity]
    of them.  Hence the page-score history holds at most 5 entries and the
    ads-shown history at most 99 after a push, and a push, with ads on or
    off, never takes a history that is within the capacity beyond it. *)
Theorem ring_buffer_keeps_last
    (E : Env) (s : state) (um : gmap string value) (k : string) (capacity : nat) :
  truthy (userModelState.getAdEnabledValue E s) = true ->
  s !! "userModel" = Some (VMap um) ->
  let key := ["userModel"; k] in
  let start := historyUnder key s in
  (forall item, exists s',
      userModelState.appendToRingBufferUnderKey E s key item capacity = Ok s'
      /\ historyUnder key s'
         = drop (length (start ++ [item]) - capacity) (start ++ [item])
      /\ (length (historyUnder key s') <= capacity)%nat)
  /\ (forall items, items <> [] -> exists s',
      pushAll E s key items capacity = Ok s'
      /\ historyUnder key s' = lastN capacity (start ++ items)
      /\ ((capacity <= length items)%nat ->
          historyUnder key s' = lastN capacity items
          /\ length (historyUnder key s') = capacity))
  /\ (forall pageScore, exists s',
      userModelState.appendPageScoreToHistoryAndRotate E s pageScore = Ok s'
      /\ (length (historyUnder ["userModel"; "pageScoreHistory"] s') <= 5)%nat)
  /\ (forall w, exists s',
      userModelState.appendAdShownToAdHistory E s w = Ok (s', tick w)
      /\ (length (historyUnder ["userModel"; "adsShownHistory"] s') <= 99)%nat)
  /\ (forall (s0 s' : state) (item : value),
      userModelState.appendToRingBufferUnderKey E s0 key item capacity = Ok s' ->
      (length (historyUnder key s0) <= capacity)%nat ->
      (length (historyUnder key s') <= capacity)%nat).
Proof.
  intros Hen Hum key start. subst key start.
  assert (Hone : forall k' item maxRows, exists s',
    userModelState.appendToRingBufferUnderKey E s ["userModel"; k'] item maxRows = Ok s'
    /\ historyUnder ["userModel"; k'] s'
       = lastN maxRows (historyUnder ["userModel"; k'] s ++ [item])
    /\ (length (historyUnder ["userModel"; k'] s') <= maxRows)%nat).
  { intros k' item maxRows.
    rewrite (appendToRingBufferUnderKey_spec E s um) by assumption.
    eexists. split; [reflexivity |]. rewrite historyUnder_insert.
    split; [reflexivity |]. rewrite lastN_length. lia. }
  split; [| split; [| split; [| split]]].
  5: { intros s0 s' item. apply appendToRingBufferUnderKey_bound. }
  - intros item. apply Hone.
  - intros items Hne.
    destruct (pushAll_spec E items s um k capacity Hen Hum Hne)
      as (s' & um' & Hrun & _ & _ & Hh).
    exists s'. split; [exact Hrun |]. split; [exact Hh |].
    intros Hlen. rewrite Hh, lastN_app_ge by exact Hlen.
    split; [reflexivity |]. rewrite lastN_length. lia.
  - intros pageScore. unfold userModelState.appendPageScoreToHistoryAndRotate.
    destruct (Hone "pageScoreHistory" (VList pageScore)
                userModelState.maxRowsInPageScoreHistory) as (s' & Hrun & _ & Hlen).
    exists s'. split; [exact Hrun | exact Hlen].
  - intros w. unfold userModelState.appendAdShownToAdHistory,
      userModelState.unixTimeNowSeconds, getTime.
    unfold mbind, M_bind, mret, M_ret.
    destruct (Hone "adsShownHistory" (VNum ((clock E (ticks w) + 500) `div` 1000))
                userModelState.maxRowsInAdsShownHistory) as (s' & Hrun & _ & Hlen).
    exists s'. rewrite Hrun. split; [reflexivity | exact Hlen].
Qed.

Lemma ring_buffer_keeps_last_witness :
  let s := sampleState true [("adsShownHistory", VList [VNum 1; VNum 2; VNum 3])] in
  exists s',
    pushAll sampleEnv s ["userModel"; "adsShownHistory"] [VNum 4; VNum 5; VNum 6] 2 = Ok s'
    /\ historyUnder ["userModel"; "adsShownHistory"] s' = [VNum 5; VNum 6].
Proof.
  intros s.
  destruct (ring_buffer_keeps_last sampleEnv s
              (list_to_map [("adsShownHistory", VList [VNum 1; VNum 2; VNum 3])])
              "adsShownHistory" 2)
    as (_ & Hmany & _); [reflexivity | reflexivity |].
  destruct (Hmany [VNum 4; VNum 5; VNum 6]) as (s' & Hrun & _ & Hlast); [discriminate |].
  exists s'. split; [exact Hrun |].
  apply Hlast. simpl. lia.
Defined.

(** ** The enabled gate *)

(** C6. While ads are off, every mutating operation of the behavioural
    state returns the state it was given; erasing all history is the one
    exception and replaces the [userModel] sub-record by an empty one
    whatever the gate says. *)
Theorem disabled_operations_leave_state (E : Env) :
  (forall s : state,
      truthy (userModelState.getAdEnabledValue E s) = false ->
      (forall key v, userModelState.setUserModelValue E s key v = Ok s)
      /\ (forall key item maxRows,
             userModelState.appendToRingBufferUnderKey E s key item maxRows = Ok s)
      /\ (forall pageScore,
             userModelState.appendPageScoreToHistoryAndRotate E s pageScore = Ok s)
      /\ (forall w, userModelState.appendAdShownToAdHistory E s w = Ok (s, tick w))
      /\ (forall id v, userModelState.recordAdUUIDSeen E s id v = Ok s)
      /\ (forall url score w, userModelState.flagSearchState E s url score w = Ok (s, w))
      /\ (forall url w, userModelState.unFlagSearchState E s url w = Ok (s, w))
      /\ (forall url w, userModelState.flagShoppingState E s url w = Ok (s, w))
      /\ userModelState.unFlagShoppingState E s = Ok s
      /\ (forall url w, userModelState.flagUserBuyingSomething E s url w = Ok (s, w))
      /\ (forall locale, userModelState.setLocale E s locale = Ok s)
      /\ (forall v, userModelState.setSSID E s v = Ok s)
      /\ (forall id, userModelState.setAdUUID E s id = Ok s)
      /\ (forall model, userModelState.setUserModelTimingMdl E s model = Ok s)
      /\ (forall queue, userModelState.setUserSurveyQueue E s queue = Ok s)
      /\ (forall queue, userModelState.setReportingEventQueue E s queue = Ok s)
      /\ (forall w, userModelState.setLastUserActivity E s w = Ok (s, w))
      /\ (forall w, userModelState.setLastUserIdleStopTime E s w = Ok (s, w))
      /\ (forall adServed adClass w,
             userModelState.setServedAd E s adServed adClass w = Ok (s, w)))
  /\ (forall (s : state) (um : gmap string value),
         s !! "userModel" = Some (VMap um) ->
         userModelState.removeAllHistory s = Ok (<[ "userModel" := VMap ∅ ]> s)).
Proof.
  split.
  - intros s Hoff.
    repeat split; intros;
      try (unfold userModelState.appendPageScoreToHistoryAndRotate);
      try (unfold userModelState.appendAdShownToAdHistory,
             userModelState.unixTimeNowSeconds, getTime, mbind, M_bind, mret, M_ret);
      unfold userModelState.setUserModelValue, userModelState.appendToRingBufferUnderKey,
        userModelState.recordAdUUIDSeen, userModelState.flagSearchState,
        userModelState.unFlagSearchState, userModelState.flagShoppingState,
        userModelState.unFlagShoppingState, userModelState.flagUserBuyingSomething,
        userModelState.setLocale, userModelState.setSSID, userModelState.setAdUUID,
        userModelState.setUserModelTimingMdl, userModelState.setUserSurveyQueue,
        userModelState.setReportingEventQueue, userModelState.setLastUserActivity,
        userModelState.setLastUserIdleStopTime, userModelState.setServedAd;
      rewrite Hoff; simpl negb; rewrite ?orb_true_r; reflexivity.
  - intros s um Hum. unfold userModelState.removeAllHistory.
    rewrite (validateState_Ok s um Hum). reflexivity.
Qed.

Lemma disabled_operations_leave_state_witness :
  let off := sampleState false [("adUUID", VStr "id")] in
  userModelState.setAdUUID sampleEnv off (VStr "other") = Ok off
  /\ userModelState.removeAllHistory off = Ok (sampleState false []).
Proof.
  intros off.
  destruct (disabled_operations_leave_state sampleEnv) as [Hgate Herase].
  split.
  - apply (Hgate off); reflexivity.
  - rewrite (Herase off (list_to_map [("adUUID", VStr "id")])) by reflexivity.
    reflexivity.
Defined.

(** ** The gate of the engine *)

Lemma noop_gateOpen (E : Env) (s : state) (w : World) :
  gateOpen E s w -> userModel.noop E s w = Ok (false, w).
Proof.
  intros (Hm & Hp & He). unfold userModel.noop, getWorld, mbind, M_bind, mret, M_ret.
  rewrite Hm, Hp, He. reflexivity.
Qed.


Lemma strict_eq_false (a b : value) : a <> b -> strict_eq a b = false.
Proof.
  intros Hne. unfold strict_eq.
  destruct a, b; try reflexivity; apply bool_decide_eq_false; exact Hne.
Qed.

Lemma gateOpen_enabled (E : Env) (s : state) (w : World) :
  gateOpen E s w -> truthy (userModelState.getAdEnabledValue E s) = true.
Proof. intros (_ & _ & H). exact H. Qed.

(** ** Shopping flag *)

(** C10. Away from the shopping host, [testShoppingData] clears the
    shopping flag exactly when the search-activity flag is truthy: the guard
    reads [getSearchState].  With search inactive the state is returned as
    it was, so a set shopping flag stays set. *)
Theorem testShoppingData_guard_is_search_flag
    (E : Env) (s : state) (um : gmap string value) (url : value) (w : World) :
  gateOpen E s w ->
  s !! "userModel" = Some (VMap um) ->
  getHostname E url <> VStr "amazon.com" ->
  let search := default VUndef (um !! "searchActivity") in
  (truthy search = true ->
     userModel.testShoppingData E s url w
     = Ok (<[ "userModel" := VMap (<[ "shopActivity" := VBool false ]> um) ]> s, w)
     /\ userModel.testShoppingData E s url w = liftR (userModelState.unFlagShoppingState E s) w)
  /\ (truthy search = false ->
        userModel.testShoppingData E s url w = Ok (s, w)
        /\ userModelState.getShoppingState (VMap s) = Ok (default VUndef (um !! "shopActivity"))).
Proof.
  intros Hgate Hum Hhost search.
  assert (Hrun : userModel.testShoppingData E s url w
                 = if truthy search then liftR (userModelState.unFlagShoppingState E s) w
                   else Ok (s, w)).
  { unfold userModel.testShoppingData.
    unfold mbind at 1, M_bind at 1. rewrite (noop_gateOpen E s w Hgate).
    unfold userModelState.getSearchState.
    rewrite (validateState_Ok s um Hum). simpl mbind.
    rewrite (getIn_userModel s um) by exact Hum. fold search.
    unfold mbind, M_bind. rewrite liftR_Ok.
    rewrite (strict_eq_false _ _ Hhost). simpl negb. rewrite andb_true_l.
    destruct (truthy search); reflexivity. }
  assert (Hun : userModelState.unFlagShoppingState E s
                = Ok (<[ "userModel" := VMap (<[ "shopActivity" := VBool false ]> um) ]> s)).
  { unfold userModelState.unFlagShoppingState.
    destruct Hgate as (_ & _ & ->). simpl negb. cbv iota.
    rewrite (validateState_Ok s um Hum). simpl mbind.
    apply setIn_userModel. exact Hum. }
  split; intros Hs; rewrite Hrun, Hs.
  - rewrite Hun. split; reflexivity.
  - split; [reflexivity |].
    unfold userModelState.getShoppingState.
    rewrite (validateState_Ok s um Hum). simpl mbind.
    rewrite (getIn_userModel s um) by exact Hum. reflexivity.
Qed.

Lemma testShoppingData_guard_is_search_flag_witness :
  let s := sampleState true [("shopActivity", VBool true)] in
  let w := sampleWorld None in
  userModel.testShoppingData sampleEnv s (VStr "news.example") w = Ok (s, w)
  /\ userModelState.getShoppingState (VMap s) = Ok (VBool true).
Proof.
  intros s w.
  destruct (testShoppingData_guard_is_search_flag sampleEnv s
              (list_to_map [("shopActivity", VBool true)]) (VStr "news.example") w)
    as [_ Hoff].
  - repeat split; reflexivity.
  - reflexivity.
  - discriminate.
  - apply Hoff. reflexivity.
Defined.

(** ** Timing model *)

Lemma getSearchState_undefined :
  userModelState.getSearchState VUndef = Throw (AssertionError "state must be an Immutable.Map").
Proof. reflexivity. Qed.





(** ** Identity *)











(** ** The random draw *)

Lemma roundDouble_bounds (n m k : Z) :
  0 < n -> 0 <= m < 2 ^ 53 -> m < 2 ^ k -> 0 <= k ->
  0 <= userModel.roundDouble (n * m) < n * 2 ^ k.
Proof.
  intros Hn Hm Hlt Hk.
  assert (Hpow : 0 < 2 ^ k) by (apply Z.pow_pos_nonneg; lia).
  set (P := n * m).
  assert (HP : 0 <= P <= n * 2 ^ k - n) by (unfold P; nia).
  unfold userModel.roundDouble. fold P.
  set (d := Z.log2 P - 52).
  destruct (Z.leb_spec d 0) as [Hd | Hd]; [lia |].
  assert (HPpos : 0 < P).
  { destruct (Z.eq_dec P 0) as [H0 | H0]; [| lia].
    unfold d in Hd. rewrite H0 in Hd. simpl in Hd. lia. }
  assert (Hd2 : 0 < 2 ^ d) by (apply Z.pow_pos_nonneg; lia).
  assert (Hhalf : 2 ^ d = 2 * 2 ^ (d - 1)).
  { replace d with (Z.succ (d - 1)) at 1 by lia. apply Z.pow_succ_r. lia. }
  assert (Hh : 0 < 2 ^ (d - 1)) by (apply Z.pow_pos_nonneg; lia).
  pose proof (Z.div_mod P (2 ^ d) ltac:(lia)) as Hdm.
  pose proof (Z.mod_pos_bound P (2 ^ d) Hd2) as Hrest.
  assert (Hq : 0 <= P / 2 ^ d) by (apply Z.div_pos; lia).
  assert (Hsmall : 2 ^ (d - 1) < n).
  { pose proof (Z.log2_spec P HPpos) as [Hlo _].
    assert (Hsplit : 2 ^ Z.log2 P = 2 ^ (d - 1) * 2 ^ 53).
    { rewrite <- Z.pow_add_r by lia. f_equal. unfold d. lia. }
    assert (HP53 : P < n * 2 ^ 53) by (unfold P; nia).
    nia. }
  destruct ((2 ^ (d - 1) <? P mod 2 ^ d)%Z
            || (P mod 2 ^ d =? 2 ^ (d - 1))%Z && Z.odd (P / 2 ^ d)) eqn:Hup.
  - assert (Hge : 2 ^ (d - 1) <= P mod 2 ^ d).
    { apply orb_true_iff in Hup as [Hup | Hup].
      - apply Z.ltb_lt in Hup. lia.
      - apply andb_true_iff in Hup as [Hup _]. apply Z.eqb_eq in Hup. lia. }
    nia.
  - nia.
Qed.

Lemma roundDouble_exact (P : Z) : 0 <= P < 2 ^ 53 -> userModel.roundDouble P = P.
Proof.
  intros HP. unfold userModel.roundDouble.
  destruct (Z.leb_spec (Z.log2 P - 52) 0) as [Hd | Hd]; [reflexivity |].
  exfalso.
  destruct (Z.eq_dec P 0) as [-> | H0]; [simpl in Hd; lia |].
  assert (Hlog : Z.log2 P < 53) by (apply Z.log2_lt_pow2; lia).
  lia.
Qed.

Lemma toInt32_index (a k n : Z) :
  0 <= a < n * 2 ^ k -> 0 <= k -> n < 2 ^ 31 ->
  userModel.toInt32 (a, k) = a / 2 ^ k /\ 0 <= a / 2 ^ k < n.
Proof.
  intros Ha Hk Hn.
  assert (Hpow : 0 < 2 ^ k) by (apply Z.pow_pos_nonneg; lia).
  assert (Hi : 0 <= a / 2 ^ k < n).
  { split; [apply Z.div_pos; lia | apply Z.div_lt_upper_bound; lia]. }
  split; [| exact Hi].
  unfold userModel.toInt32. cbn [fst snd].
  rewrite Z.mod_small by lia.
  destruct (Z.leb_spec (2 ^ 31) (a / 2 ^ k)); lia.
Qed.

(** One call of [randomKey] on an array of fewer than 2^31 entries. *)
Lemma randomKey_run (E : Env) {A} (dictionary : list A) (w : World) (m k : Z) :
  random E (draws w) = (m, k) ->
  isDraw (m, k) ->
  Z.of_nat (length dictionary) < 2 ^ 31 ->
  exists r,
    userModel.randomKey E dictionary w = Ok (r, draw w)
    /\ (dictionary = [] -> r = None)
    /\ (dictionary <> [] ->
        exists i, r = Some i
                  /\ (i < length dictionary)%nat
                  /\ Z.of_nat i
                     = userModel.roundDouble (Z.of_nat (length dictionary) * m) / 2 ^ k).
Proof.
  intros Hdraw (Hm & Hlt & Hk) Hlen. cbn [fst snd] in Hm, Hlt, Hk.
  unfold userModel.randomKey, mathRandom, mbind, M_bind, mret, M_ret.
  rewrite Hdraw. unfold userModel.timesRandom. cbn [fst snd].
  set (n := Z.of_nat (length dictionary)) in *.
  destruct dictionary as [|x rest] eqn:Hd.
  - eexists. split; [reflexivity |]. split; [| intros Hne; contradiction].
    intros _. simpl in n. subst n. case_bool_decide; [lia | reflexivity].
  - assert (Hn : 0 < n) by (subst n; simpl; lia).
    pose proof (roundDouble_bounds n m k Hn Hm Hlt Hk) as Hr.
    destruct (toInt32_index _ k n Hr Hk Hlen) as [Hidx Hin].
    rewrite Hidx. rewrite bool_decide_eq_true_2 by exact Hin.
    eexists. split; [reflexivity |]. split; [discriminate |].
    intros _. eexists. split; [reflexivity |].
    split; [change (length (x :: rest)) with (S (length rest)) in *; lia | lia].
Qed.

(** ** Serving from a bucket *)

Lemma isSeen_seenIn (s : state) (x : ad) :
  userModel.isSeen (userModelState.getAdUUIDSeen s) x = true <-> seenIn s x.
Proof. reflexivity. Qed.

Lemma source_adsSeen (s : state) (matched : list ad) :
  filter (fun x => userModel.isSeen (userModelState.getAdUUIDSeen s) x = true) matched
  = adsSeen s matched.
Proof. reflexivity. Qed.

Lemma source_adsNotSeen (s : state) (matched : list ad) :
  filter (fun x => negb (userModel.isSeen (userModelState.getAdUUIDSeen s) x) = true) matched
  = adsNotSeen s matched.
Proof.
  unfold adsNotSeen. apply list_filter_iff. intros x.
  unfold seenIn, userModel.isSeen.
  destruct (truthy (default VUndef (userModelState.getAdUUIDSeen s !! uuid x)));
    simpl; split; congruence.
Qed.

Lemma adsNotSeen_nil_adsSeen (s : state) (matched : list ad) :
  adsNotSeen s matched = [] -> adsSeen s matched = matched.
Proof.
  unfold adsNotSeen, adsSeen. induction matched as [|x matched IH]; [reflexivity |].
  rewrite !filter_cons.
  destruct (decide (seenIn s x)) as [Hx | Hx];
    destruct (decide (~ seenIn s x)) as [Hnx | Hnx]; try tauto; try discriminate.
  intros Hnil. f_equal. exact (IH Hnil).
Qed.

Lemma adsNotSeen_length (s : state) (matched : list ad) :
  (length (adsNotSeen s matched) <= length matched)%nat.
Proof. apply length_filter. Qed.

Lemma unmarked_keeps (matched : list ad) (seen : gmap string value) (u : string) :
  seen !! u = Some (VNum 0) -> unmarked seen matched !! u = Some (VNum 0).
Proof.
  revert seen. induction matched as [|x matched IH]; intros seen H; [exact H |].
  simpl. apply IH. destruct (decide (uuid x = u)) as [->|Hne].
  - apply lookup_insert_eq.
  - rewrite lookup_insert_ne by exact Hne. exact H.
Qed.

Lemma unmarked_lookup (matched : list ad) (seen : gmap string value) (x : ad) :
  x ∈ matched -> unmarked seen matched !! uuid x = Some (VNum 0).
Proof.
  revert seen. induction matched as [|y matched IH]; intros seen Hin.
  - inversion Hin.
  - simpl. apply elem_of_cons in Hin as [->|Hin].
    + apply unmarked_keeps, lookup_insert_eq.
    + apply IH. exact Hin.
Qed.

Lemma unmarked_other (matched : list ad) (seen : gmap string value) (u : string) :
  (forall x, x ∈ matched -> uuid x <> u) -> unmarked seen matched !! u = seen !! u.
Proof.
  revert seen. induction matched as [|y matched IH]; intros seen Hother; [reflexivity |].
  simpl. rewrite IH by (intros x Hx; apply Hother; right; exact Hx).
  apply lookup_insert_ne. apply Hother. left.
Qed.

Lemma recordAdUUIDSeen_spec
    (E : Env) (s : state) (um seen : gmap string value) (u : string) (v : value) :
  truthy (userModelState.getAdEnabledValue E s) = true ->
  s !! "userModel" = Some (VMap um) ->
  um !! "adsUUIDSeen" = Some (VMap seen) ->
  userModelState.recordAdUUIDSeen E s u v
  = Ok (<[ "userModel" :=
             VMap (<[ "adsUUIDSeen" :=
                        VMap (<[ u := match v with VUndef => VNum 1 | _ => v end ]> seen) ]> um) ]> s).
Proof.
  intros Hen Hum Hseen. unfold userModelState.recordAdUUIDSeen.
  rewrite Hen. change (negb true) with false. cbv iota.
  rewrite (getIn_userModel s um) by exact Hum. rewrite Hseen. simpl.
  apply setIn_userModel. exact Hum.
Qed.

Lemma unmarkAll_spec
    (E : Env) (matched : list ad) (s : state) (um seen : gmap string value) :
  truthy (userModelState.getAdEnabledValue E s) = true ->
  s !! "userModel" = Some (VMap um) ->
  um !! "adsUUIDSeen" = Some (VMap seen) ->
  userModel.unmarkAll E s matched
  = Ok (<[ "userModel" := VMap (<[ "adsUUIDSeen" := VMap (unmarked seen matched) ]> um) ]> s).
Proof.
  revert s um seen. induction matched as [|x matched IH]; intros s um seen Hen Hum Hseen.
  - simpl. f_equal. rewrite (insert_id um) by exact Hseen.
    rewrite insert_id by exact Hum. reflexivity.
  - simpl. rewrite (recordAdUUIDSeen_spec E s um seen) by assumption. simpl.
    rewrite (IH _ (<[ "adsUUIDSeen" := VMap (<[ uuid x := VNum 0 ]> seen) ]> um)
               (<[ uuid x := VNum 0 ]> seen)).
    + rewrite insert_insert_eq. rewrite (insert_insert_eq um). reflexivity.
    + rewrite getAdEnabledValue_insert_userModel. exact Hen.
    + apply lookup_insert_eq.
    + apply lookup_insert_eq.
Qed.

Lemma getAdUUIDSeen_lookup_inv (s : state) (u : string) (v : value) :
  userModelState.getAdUUIDSeen s !! u = Some v ->
  exists um, s !! "userModel" = Some (VMap um)
             /\ um !! "adsUUIDSeen" = Some (VMap (userModelState.getAdUUIDSeen s)).
Proof.
  unfold userModelState.getAdUUIDSeen, getIn. simpl.
  destruct (s !! "userModel") as [[| | | | | |um]|] eqn:Hum; simpl;
    try (rewrite lookup_empty; discriminate).
  destruct (um !! "adsUUIDSeen") as [[| |b|n|x|l|seen]|] eqn:Hseen; simpl;
    try (rewrite lookup_empty; discriminate).
  - destruct b; simpl; rewrite lookup_empty; discriminate.
  - unfold js_or. simpl. destruct (negb (n =? 0)%Z); rewrite lookup_empty; discriminate.
  - unfold js_or. simpl. destruct (negb (String.eqb x "")); rewrite lookup_empty; discriminate.
  - intros _. exists um. split; [reflexivity |]. rewrite Hseen. reflexivity.
Qed.

Lemma getAdUUIDSeen_insert (s : state) (um seen : gmap string value) :
  userModelState.getAdUUIDSeen
    (<[ "userModel" := VMap (<[ "adsUUIDSeen" := VMap seen ]> um) ]> s) = seen.
Proof.
  unfold userModelState.getAdUUIDSeen.
  rewrite (getIn_userModel _ (<[ "adsUUIDSeen" := VMap seen ]> um)) by apply lookup_insert_eq.
  rewrite lookup_insert_eq. reflexivity.
Qed.

(** While some ad of the bucket is not seen, the pool is the unseen part
    and nothing happens. *)
Lemma roundRobin_fresh
    (E : Env) (s : state) (category : string) (matched : list ad) (w : World) :
  adsNotSeen s matched <> [] ->
  userModel.roundRobin E s category matched w = Ok ((s, adsNotSeen s matched), w).
Proof.
  intros Hne. unfold userModel.roundRobin.
  rewrite source_adsSeen, source_adsNotSeen.
  destruct (adsNotSeen s matched); [contradiction | reflexivity].
Qed.

(** When every ad of a bucket that is not empty is seen, the event is
    logged, every ad is unmarked and the bucket is the pool. *)
Lemma roundRobin_reset
    (E : Env) (s : state) (category : string) (matched : list ad) (w : World) :
  truthy (userModelState.getAdEnabledValue E s) = true ->
  adsNotSeen s matched = [] ->
  matched <> [] ->
  exists um s' w',
    userModel.roundRobin E s category matched w = Ok ((s', matched), w')
    /\ s !! "userModel" = Some (VMap um)
    /\ s' = <[ "userModel" :=
                 VMap (<[ "adsUUIDSeen" :=
                            VMap (unmarked (userModelState.getAdUUIDSeen s) matched) ]> um) ]> s
    /\ emit (roundRobinEvent s category matched) w = Ok (tt, w').
Proof.
  intros Hen Hnil Hne.
  destruct matched as [|x0 rest] eqn:Hmatched; [contradiction |]. rewrite <- Hmatched in *.
  assert (Hx0 : x0 ∈ matched) by (rewrite Hmatched; left).
  assert (Hseen0 : seenIn s x0).
  { destruct (decide (seenIn s x0)) as [Hs | Hs]; [exact Hs |].
    assert (Hin : x0 ∈ adsNotSeen s matched) by (apply list_elem_of_filter; auto).
    rewrite Hnil in Hin. inversion Hin. }
  unfold seenIn in Hseen0.
  destruct (userModelState.getAdUUIDSeen s !! uuid x0) as [v|] eqn:Hlook; [| discriminate].
  destruct (getAdUUIDSeen_lookup_inv s _ _ Hlook) as (um & Hum & Hmap).
  exists um. eexists. eexists. split; [| split; [exact Hum | split; reflexivity]].
  unfold userModel.roundRobin.
  rewrite source_adsSeen, source_adsNotSeen.
  rewrite Hnil, (adsNotSeen_nil_adsSeen s matched Hnil).
  change (length [] <=? 0)%nat with true. cbv iota.
  unfold userModel.onUserModelLog, mbind, M_bind. unfold roundRobinEvent.
  rewrite Hnil, (adsNotSeen_nil_adsSeen s matched Hnil).
  unfold emit at 1. cbv beta iota.
  rewrite (unmarkAll_spec E matched s um _ Hen Hum Hmap).
  rewrite liftR_Ok. reflexivity.
Qed.

(** From the pool to the notification: the ad at the index that the draw
    picks is shown, or found incomplete. *)
Lemma serveAd_outcome
    (E : Env) (s0 s : state) (um : gmap string value) (windowId : value)
    (category winner : string) (matched pool : list ad) (w w0 : World) :
  userModel.roundRobin E s0 category matched w = Ok ((s, pool), w0) ->
  truthy (userModelState.getAdEnabledValue E s) = true ->
  s !! "userModel" = Some (VMap um) ->
  isDraw (random E (draws w0)) ->
  pool <> [] ->
  Z.of_nat (length pool) < 2 ^ 31 ->
  exists (i : nat) (payload : ad),
    pool !! i = Some payload
    /\ Z.of_nat i = drawnIndex E w0 (length pool)
    /\ exists s' w',
         userModel.serveAd E s0 windowId category (userModel.split_on "-"%char category)
           (VStr winner) matched w = Ok (s', w')
         /\ trace w' = trace w0 ++ dispatched E windowId category winner i payload
         /\ userModelState.getAdUUIDSeen s' = userModelState.getAdUUIDSeen s
         /\ (complete payload = false -> s' = s)
         /\ (complete payload = true ->
             historyUnder ["userModel"; "adsShownHistory"] s'
             = lastN userModelState.maxRowsInAdsShownHistory
                 (historyUnder ["userModel"; "adsShownHistory"] s
                    ++ [VNum ((clock E (ticks w0) + 500) `div` 1000)])).
Proof.
  intros Hrr Hen Hum Hdraw Hpool Hlen.
  destruct (random E (draws w0)) as [m k] eqn:Hr.
  destruct (randomKey_run E pool w0 m k Hr Hdraw Hlen) as (r & Hkey & _ & Hsome).
  destruct (Hsome Hpool) as (i & -> & Hi & Hidx).
  destruct (lookup_lt_is_Some_2 pool i Hi) as [payload Hpayload].
  exists i, payload. split; [exact Hpayload |].
  split; [unfold drawnIndex; rewrite Hr; exact Hidx |].
  unfold userModel.serveAd.
  unfold mbind at 1, M_bind at 1. rewrite Hrr. cbv beta iota.
  unfold mbind at 1, M_bind at 1. rewrite Hkey. cbv beta iota zeta.
  cbn [mbind option_bind from_option]. rewrite Hpayload. cbv beta iota.
  unfold dispatched, complete.
  destruct (truthy (notificationText payload)) eqn:Htext;
    [destruct (truthy (notificationURL payload)) eqn:Hurl;
       [destruct (truthy (advertiser payload)) eqn:Hadv |] |];
    cbn [negb orb andb].
  - unfold userModel.goAheadAndShowTheAd, userModel.onUserModelLog, emit.
    unfold mbind at 1, M_bind at 1. cbv beta iota.
    unfold mbind at 1, M_bind at 1. cbv beta iota.
    unfold userModelState.appendAdShownToAdHistory, userModelState.unixTimeNowSeconds,
      getTime, mbind, M_bind, mret, M_ret. cbv beta iota. cbn [ticks].
    rewrite (appendToRingBufferUnderKey_spec E s um) by assumption.
    rewrite liftR_Ok.
    eexists _, _. split; [reflexivity |].
    split; [cbn [trace]; rewrite <- app_assoc; reflexivity |].
    split; [| split; [discriminate |]].
    + unfold userModelState.getAdUUIDSeen.
      rewrite (getIn_userModel _ (<[ "adsShownHistory" := _ ]> um)) by apply lookup_insert_eq.
      rewrite (getIn_userModel s um) by exact Hum.
      rewrite lookup_insert_ne by discriminate. reflexivity.
    + intros _. apply historyUnder_insert.
  - eexists _, _. split; [reflexivity |].
    split; [reflexivity |]. split; [reflexivity |]. split; [reflexivity | discriminate].
  - eexists _, _. split; [reflexivity |].
    split; [reflexivity |]. split; [reflexivity |]. split; [reflexivity | discriminate].
  - eexists _, _. split; [reflexivity |].
    split; [reflexivity |]. split; [reflexivity |]. split; [reflexivity | discriminate].
Qed.

(** ** Hierarchical fallback *)

Lemma split_on_nonempty (sep : ascii) (x : string) : userModel.split_on sep x <> [].
Proof.
  destruct x as [|c rest]; simpl; [discriminate |].
  destruct (Ascii.eqb c sep); [discriminate |].
  destruct (userModel.split_on sep rest); discriminate.
Qed.


Lemma hierarchicalFallback_seq
    (categories : catalog) (hierarchy : list string) (m a : nat)
    (winner0 : value) (result0 : option userModel.bucket) :
  let n := length hierarchy in
  let out := userModel.hierarchicalFallback categories hierarchy (seq a m) winner0 result0 in
  (exists level found,
      (a <= level < a + m)%nat
      /\ out = (VStr (prefixName hierarchy (n - level)), Some found)
      /\ userModel.lookupCategory categories (prefixName hierarchy (n - level)) = Some found
      /\ forall l, (a <= l < level)%nat ->
                   userModel.lookupCategory categories (prefixName hierarchy (n - l)) = None)
  \/ ((forall l, (a <= l < a + m)%nat ->
                 userModel.lookupCategory categories (prefixName hierarchy (n - l)) = None)
      /\ (m = 0%nat -> out = (winner0, result0))
      /\ ((0 < m)%nat -> out.2 = None)).
Proof.
  intros n. revert a winner0 result0.
  induction m as [|m IH]; intros a winner0 result0; simpl.
  - right. split; [intros; lia |]. split; [reflexivity | lia].
  - fold n. fold (prefixName hierarchy (n - a)).
    destruct (userModel.lookupCategory categories (prefixName hierarchy (n - a)))
      as [found|] eqn:Hlook.
    + left. exists a, found. rewrite bool_decide_eq_true_2 by eauto.
      repeat split; try lia; try assumption.
    + rewrite bool_decide_eq_false_2 by (intros [? ?]; discriminate).
      destruct (IH (S a) (VStr (prefixName hierarchy (n - a))) None)
        as [(level & found & Hlv & Hout & Hfound & Hnone) | (Hnone & Hzero & Hpos)].
      * left. exists level, found. repeat split; try lia; try assumption.
        intros l Hl. destruct (decide (l = a)) as [->|]; [exact Hlook |].
        apply Hnone. lia.
      * right. split; [| split; [lia |]].
        -- intros l Hl. destruct (decide (l = a)) as [->|]; [exact Hlook |].
           apply Hnone. lia.
        -- intros _. destruct m; [rewrite Hzero by reflexivity; reflexivity |].
           apply Hpos. lia.
Qed.

Lemma checkReadyAdServe_selection
    (E : Env) (s : state) (windowId : value) (w : World)
    (categories : catalog) (category : string) (w1 : World) :
  reachesSelection E s w categories category w1 ->
  userModel.checkReadyAdServe E s windowId w
  = userModel.selectAd E s windowId categories category w1.
Proof.
  intros (Hgate & Hfg & Hallowed & (surveys & Hq & Hnone) & Hfeed
          & (catNames & history & Hnames & Hhist & Hname) & Hne).
  unfold userModel.checkReadyAdServe.
  unfold mbind at 1, M_bind at 1. rewrite (noop_gateOpen E s w Hgate). cbv iota.
  unfold mbind at 1, M_bind at 1. unfold getWorld at 1. cbv beta iota.
  rewrite Hfg. change (negb true) with false. cbv iota.
  unfold mbind at 1, M_bind at 1. rewrite Hallowed. cbv beta iota. change (negb true) with false. cbv iota.
  rewrite Hq. unfold mbind at 1, M_bind at 1. unfold mret at 1, M_ret at 1.
  cbv beta iota. rewrite Hnone, Hfeed, Hnames.
  unfold mbind at 1, M_bind at 1. rewrite liftR_Ok. cbv beta iota.
  rewrite Hhist.
  unfold mbind at 1, M_bind at 1. rewrite liftR_Ok. cbv beta iota zeta.
  rewrite Hname.
  unfold mbind at 1, M_bind at 1. rewrite liftR_Ok. cbv beta iota.
  assert (Htruthy : truthy (VStr category) = true).
  { simpl. destruct (String.eqb_spec category ""); [contradiction | reflexivity]. }
  rewrite Htruthy. reflexivity.
Qed.

Lemma hierarchicalFallback_prefixes (categories : catalog) (hierarchy : list string) :
  let n := length hierarchy in
  let out := userModel.hierarchicalFallback categories hierarchy (seq 0 n) VUndef None in
  (0 < n)%nat ->
  (exists k found,
      (1 <= k <= n)%nat
      /\ out = (VStr (prefixName hierarchy k), Some found)
      /\ userModel.lookupCategory categories (prefixName hierarchy k) = Some found
      /\ forall k', (k < k' <= n)%nat ->
                    userModel.lookupCategory categories (prefixName hierarchy k') = None)
  \/ (out.2 = None
      /\ forall k, (1 <= k <= n)%nat ->
                   userModel.lookupCategory categories (prefixName hierarchy k) = None).
Proof.
  intros n out Hn.
  destruct (hierarchicalFallback_seq categories hierarchy n 0 VUndef None)
    as [(level & found & Hlv & Hout & Hfound & Hnone) | (Hnone & _ & Hpos)].
  - left. exists (n - level)%nat, found. fold n in Hout, Hfound, Hnone.
    repeat split; try lia; try assumption.
    intros k' Hk'. replace k' with (n - (n - k'))%nat by lia. apply Hnone. lia.
  - right. fold n in Hnone. split; [apply Hpos; exact Hn |].
    intros k Hk. replace k with (n - (n - k))%nat by lia. apply Hnone. lia.
Qed.

Lemma lookupCategory_None (categories : catalog) (name : string) :
  userModel.lookupCategory categories name = None
  <-> categories !! name = None /\ inherited name = false.
Proof.
  unfold userModel.lookupCategory.
  destruct (categories !! name); [split; [discriminate | intros [? _]; discriminate] |].
  destruct (inherited name); split; try discriminate; auto.
  intros [_ ?]; discriminate.
Qed.

Lemma split_on_length (category : string) :
  (0 < length (userModel.split_on "-"%char category))%nat.
Proof.
  pose proof (split_on_nonempty "-"%char category).
  destruct (userModel.split_on "-"%char category); [contradiction | simpl; lia].
Qed.

(** The loop stops at the longest prefix that [bundle.categories] gives a
    value for. *)
Lemma hierarchicalFallback_longest
    (categories : catalog) (category : string) (k : nat) (found : userModel.bucket) :
  let hierarchy := userModel.split_on "-"%char category in
  (1 <= k <= length hierarchy)%nat ->
  userModel.lookupCategory categories (prefixName hierarchy k) = Some found ->
  (forall k', (k < k' <= length hierarchy)%nat ->
              categories !! prefixName hierarchy k' = None
              /\ inherited (prefixName hierarchy k') = false) ->
  userModel.hierarchicalFallback categories hierarchy (seq 0 (length hierarchy)) VUndef None
  = (VStr (prefixName hierarchy k), Some found).
Proof.
  intros hierarchy Hk Hfound Hlonger.
  destruct (hierarchicalFallback_prefixes categories hierarchy (split_on_length category))
    as [(k0 & found0 & Hk0 & Hout & Hfound0 & Hnone0) | (_ & Hnone)].
  - destruct (Nat.lt_trichotomy k k0) as [Hlt | [-> | Hgt]].
    + destruct (Hlonger k0 ltac:(lia)) as [Hc Hi].
      rewrite (proj2 (lookupCategory_None _ _) (conj Hc Hi)) in Hfound0. discriminate.
    + rewrite Hout. congruence.
    + rewrite Hnone0 in Hfound by lia. discriminate.
  - rewrite Hnone in Hfound by exact Hk. discriminate.
Qed.

Lemma checkReadyAdServe_resolved
    (E : Env) (s : state) (windowId : value) (w w1 : World)
    (categories : catalog) (category : string) (k : nat) (matched : list ad) :
  reachesSelection E s w categories category w1 ->
  resolvesTo categories category k matched ->
  userModel.checkReadyAdServe E s windowId w
  = userModel.serveAd E s windowId category (userModel.split_on "-"%char category)
      (VStr (prefixName (userModel.split_on "-"%char category) k)) matched w1.
Proof.
  intros Hreach (Hk & Hheld & Hlonger).
  rewrite (checkReadyAdServe_selection E s windowId w categories category w1 Hreach).
  unfold userModel.selectAd.
  rewrite (hierarchicalFallback_longest categories category k (userModel.Ads matched) Hk);
    [reflexivity | | exact Hlonger].
  unfold userModel.lookupCategory. rewrite Hheld. reflexivity.
Qed.

(** What the call does once the catalog has resolved the category to a
    bucket that is not empty. *)
Lemma checkReadyAdServe_serves
    (E : Env) (s : state) (um : gmap string value) (windowId : value) (w w1 : World)
    (categories : catalog) (category : string) (k : nat) (matched : list ad) :
  reachesSelection E s w categories category w1 ->
  resolvesTo categories category k matched ->
  s !! "userModel" = Some (VMap um) ->
  isDraw (random E (draws w1)) ->
  Z.of_nat (length matched) < 2 ^ 31 ->
  let winner := prefixName (userModel.split_on "-"%char category) k in
  (adsNotSeen s matched <> [] ->
   exists (i : nat) (payload : ad) (s' : state) (w' : World),
     adsNotSeen s matched !! i = Some payload
     /\ Z.of_nat i = drawnIndex E w1 (length (adsNotSeen s matched))
     /\ userModel.checkReadyAdServe E s windowId w = Ok (s', w')
     /\ trace w' = trace w1 ++ dispatched E windowId category winner i payload
     /\ userModelState.getAdUUIDSeen s' = userModelState.getAdUUIDSeen s
     /\ (complete payload = false -> s' = s)
     /\ (complete payload = true ->
         historyUnder ["userModel"; "adsShownHistory"] s'
         = lastN userModelState.maxRowsInAdsShownHistory
             (historyUnder ["userModel"; "adsShownHistory"] s
                ++ [VNum ((clock E (ticks w1) + 500) `div` 1000)])))
  /\ (adsNotSeen s matched = [] -> matched <> [] ->
      exists (i : nat) (payload : ad) (s' : state) (w' : World),
        matched !! i = Some payload
        /\ Z.of_nat i = drawnIndex E w1 (length matched)
        /\ userModel.checkReadyAdServe E s windowId w = Ok (s', w')
        /\ trace w'
           = trace w1 ++ roundRobinEvent s category matched
                         :: dispatched E windowId category winner i payload
        /\ userModelState.getAdUUIDSeen s'
           = unmarked (userModelState.getAdUUIDSeen s) matched).
Proof.
  intros Hreach Hres Hum Hdraw Hlen winner.
  pose proof Hreach as (Hgate & _).
  pose proof (gateOpen_enabled E s w Hgate) as Hen.
  rewrite (checkReadyAdServe_resolved E s windowId w w1 categories category k matched
             Hreach Hres).
  fold winner. split.
  - intros Hfresh.
    destruct (serveAd_outcome E s s um windowId category winner matched
                (adsNotSeen s matched) w1 w1)
      as (i & payload & Hat & Hidx & s' & w' & Hrun & Htrace & Hseen & Hinc & Hfull);
      try assumption.
    + apply roundRobin_fresh. exact Hfresh.
    + pose proof (adsNotSeen_length s matched). lia.
    + exists i, payload, s', w'. repeat split; assumption.
  - intros Hnil Hne.
    destruct (roundRobin_reset E s category matched w1 Hen Hnil Hne)
      as (um0 & s0 & w0 & Hrr & Hum0 & Hs0 & Hemit).
    assert (Hw0 : draws w0 = draws w1 /\ ticks w0 = ticks w1
                  /\ trace w0 = trace w1 ++ [roundRobinEvent s category matched]).
    { unfold emit in Hemit. injection Hemit as <-. repeat split; reflexivity. }
    destruct Hw0 as (Hdraws & Hticks & Htrace0).
    destruct (serveAd_outcome E s s0
                (<[ "adsUUIDSeen" := VMap (unmarked (userModelState.getAdUUIDSeen s) matched) ]> um0)
                windowId category winner matched matched w1 w0 Hrr)
      as (i & payload & Hat & Hidx & s' & w' & Hrun & Htrace & Hseen & _);
      try assumption.
    + rewrite Hs0, getAdEnabledValue_insert_userModel. exact Hen.
    + rewrite Hs0. apply lookup_insert_eq.
    + rewrite Hdraws. exact Hdraw.
    + exists i, payload, s', w'.
      split; [exact Hat |].
      split; [rewrite Hidx; unfold drawnIndex; rewrite Hdraws; reflexivity |].
      split; [exact Hrun |].
      split; [rewrite Htrace, Htrace0, <- app_assoc; reflexivity |].
      rewrite Hseen, Hs0. apply getAdUUIDSeen_insert.
Qed.




(** ** Round-robin *)

Lemma randomKey_nil (E : Env) {A} (w : World) :
  userModel.randomKey E (@nil A) w = Ok (None, draw w).
Proof.
  unfold userModel.randomKey, mathRandom, mbind, M_bind, mret, M_ret.
  unfold userModel.timesRandom, userModel.toInt32. cbn [length fst snd].
  change (Z.of_nat 0) with 0. rewrite Z.mul_0_l.
  change (userModel.roundDouble 0) with 0. rewrite Zdiv_0_l, Zmod_0_l.
  reflexivity.
Qed.

Lemma filter_all {A} (P : A -> Prop) `{forall x, Decision (P x)} (l : list A) :
  (forall x, x ∈ l -> P x) -> filter P l = l.
Proof.
  induction l as [|x l IH]; intros Hall; [reflexivity |].
  rewrite filter_cons_True by (apply Hall; left).
  f_equal. apply IH. intros y Hy. apply Hall. right. exact Hy.
Qed.

Lemma serveAd_empty
    (E : Env) (s : state) (windowId : value) (category : string) (hierarchy : list string)
    (winner : value) (w : World) :
  exists w',
    userModel.serveAd E s windowId category hierarchy winner [] w = Ok (s, w')
    /\ trace w'
       = trace w ++ [roundRobinEvent s category [];
                     OnUserModelLog "Ad not served"
                       (obj [("reason", VStr "no ad for winnerOverTime");
                             ("category", VStr category);
                             ("winnerOverTime", winner);
                             ("arbitraryKey", VUndef)])].
Proof.
  unfold userModel.serveAd, userModel.roundRobin, userModel.notServed,
    userModel.onUserModelLog, emit, liftR, mbind, M_bind, mret, M_ret.
  cbn [filter list_filter length Nat.leb userModel.unmarkAll].
  rewrite randomKey_nil. cbn [from_option option_bind mbind].
  eexists. split; [reflexivity |].
  cbn [trace draw]. rewrite <- app_assoc. reflexivity.
Qed.

(** C5. The ads of the bucket that the category resolves to are split
    into those the seen-set marks and those it does not.  While some ad is
    not marked, the ad that is served is one of the unmarked ads, the one
    at the index the draw picks among them; no round-robin event is logged
    and the seen-set stays as it is.  When every ad of a bucket that is not
    empty is marked, a round-robin event is logged, every ad of the bucket
    is marked with 0, no other mark changes, and the ad is drawn from the
    whole bucket.  When the bucket is empty the call does not loop: it logs
    the round-robin and not-served events and returns the state it was
    given. *)
Theorem round_robin_with_reset
    (E : Env) (s : state) (windowId : value) (w w1 : World)
    (categories : catalog) (category : string) (k : nat) (matched : list ad) :
  reachesSelection E s w categories category w1 ->
  resolvesTo categories category k matched ->
  let winner := prefixName (userModel.split_on "-"%char category) k in
  (forall um : gmap string value,
      s !! "userModel" = Some (VMap um) ->
      isDraw (random E (draws w1)) ->
      Z.of_nat (length matched) < 2 ^ 31 ->
      adsNotSeen s matched <> [] ->
      exists (i : nat) (payload : ad) (s' : state) (w' : World),
        adsNotSeen s matched !! i = Some payload
        /\ Z.of_nat i = drawnIndex E w1 (length (adsNotSeen s matched))
        /\ payload ∈ matched
        /\ ~ seenIn s payload
        /\ userModel.checkReadyAdServe E s windowId w = Ok (s', w')
        /\ trace w' = trace w1 ++ dispatched E windowId category winner i payload
        /\ userModelState.getAdUUIDSeen s' = userModelState.getAdUUIDSeen s)
  /\ (forall um : gmap string value,
         s !! "userModel" = Some (VMap um) ->
         isDraw (random E (draws w1)) ->
         Z.of_nat (length matched) < 2 ^ 31 ->
         adsNotSeen s matched = [] ->
         matched <> [] ->
         exists (i : nat) (payload : ad) (s' : state) (w' : World),
           matched !! i = Some payload
           /\ Z.of_nat i = drawnIndex E w1 (length matched)
           /\ userModel.checkReadyAdServe E s windowId w = Ok (s', w')
           /\ trace w'
              = trace w1 ++ roundRobinEvent s category matched
                            :: dispatched E windowId category winner i payload
           /\ (forall x, x ∈ matched ->
                         userModelState.getAdUUIDSeen s' !! uuid x = Some (VNum 0))
           /\ (forall u, (forall x, x ∈ matched -> uuid x <> u) ->
                         userModelState.getAdUUIDSeen s' !! u
                         = userModelState.getAdUUIDSeen s !! u)
           /\ adsNotSeen s' matched = matched)
  /\ (matched = [] ->
      exists w2,
        userModel.checkReadyAdServe E s windowId w = Ok (s, w2)
        /\ trace w2
           = trace w1 ++ [roundRobinEvent s category [];
                          OnUserModelLog "Ad not served"
                            (obj [("reason", VStr "no ad for winnerOverTime");
                                  ("category", VStr category);
                                  ("winnerOverTime", VStr winner);
                                  ("arbitraryKey", VUndef)])]).
Proof.
  intros Hreach Hres winner. split; [| split].
  - intros um Hum Hdraw Hlen Hfresh.
    destruct (checkReadyAdServe_serves E s um windowId w w1 categories category k matched
                Hreach Hres Hum Hdraw Hlen) as [Hserve _].
    destruct (Hserve Hfresh)
      as (i & payload & s' & w' & Hat & Hidx & Hrun & Htrace & Hseen & _).
    assert (Hin : payload ∈ adsNotSeen s matched)
      by (eapply list_elem_of_lookup_2; exact Hat).
    apply list_elem_of_filter in Hin as [Hunseen Hin].
    exists i, payload, s', w'. repeat split; assumption.
  - intros um Hum Hdraw Hlen Hnil Hne.
    destruct (checkReadyAdServe_serves E s um windowId w w1 categories category k matched
                Hreach Hres Hum Hdraw Hlen) as [_ Hserve].
    destruct (Hserve Hnil Hne) as (i & payload & s' & w' & Hat & Hidx & Hrun & Htrace & Hseen).
    exists i, payload, s', w'.
    split; [exact Hat |]. split; [exact Hidx |]. split; [exact Hrun |].
    split; [exact Htrace |].
    assert (Hzero : forall x, x ∈ matched ->
              userModelState.getAdUUIDSeen s' !! uuid x = Some (VNum 0)).
    { intros x Hx. rewrite Hseen. apply unmarked_lookup. exact Hx. }
    split; [exact Hzero |].
    split; [intros u Hu; rewrite Hseen; apply unmarked_other; exact Hu |].
    unfold adsNotSeen. apply filter_all. intros x Hx.
    unfold seenIn. rewrite (Hzero x Hx). simpl. discriminate.
  - intros ->.
    rewrite (checkReadyAdServe_resolved E s windowId w w1 categories category k []
               Hreach Hres).
    apply serveAd_empty.
Qed.

Lemma round_robin_with_reset_witness :
  let a := {| uuid := "a"; notificationText := VStr "text";
              notificationURL := VStr "https://a.example"; advertiser := VStr "A" |} in
  let s := sampleState true [("adsUUIDSeen", obj [("a", VNum 1)])] in
  let w := sampleWorld (Some {[ "sports" := [a] ]}) in
  exists (i : nat) (s' : state) (w' : World),
    userModel.checkReadyAdServe sampleEnv s VNull w = Ok (s', w')
    /\ trace w' = [roundRobinEvent s "sports-rugby-worldcup" [a];
                   notificationOf sampleEnv VNull a;
                   adShownEvent sampleEnv "sports-rugby-worldcup" "sports" i a]
    /\ userModelState.getAdUUIDSeen s' !! "a" = Some (VNum 0).
Proof.
  intros a s w.
  destruct (round_robin_with_reset sampleEnv s VNull w (tick (tick w))
              {[ "sports" := [a] ]} "sports-rugby-worldcup" 1%nat [a]) as (_ & Hreset & _).
  - repeat split; try reflexivity.
    + exists []. split; reflexivity.
    + exists (VList [VStr "sports-rugby-worldcup"]), (VList []). repeat split; reflexivity.
    + discriminate.
  - split; [simpl; lia |]. split; [reflexivity |].
    intros k' Hk'. simpl in Hk'.
    destruct k' as [|[|[|[|k']]]]; try lia; split; reflexivity.
  - destruct (Hreset (list_to_map [("adsUUIDSeen", obj [("a", VNum 1)])]))
      as (i & payload & s' & w' & Hat & _ & Hrun & Htrace & Hzero & _).
    + reflexivity.
    + vm_compute. repeat split; discriminate.
    + reflexivity.
    + reflexivity.
    + discriminate.
    + assert (Hin : payload ∈ [a]) by (eapply list_elem_of_lookup_2; exact Hat).
      apply list_elem_of_singleton in Hin. subst payload.
      exists i, s', w'. split; [exact Hrun |]. split; [exact Htrace |].
      apply (Hzero a). left.
Defined.

(** ** Upload and pruning *)

Lemma filterStamp_spec (E : Env) (stamp : value) (events : list value) :
  Forall (fun e => isMap e = true) events ->
  userModel.filterStamp E stamp events = Ok (filter (newerThan E stamp) events).
Proof.
  induction 1 as [|entry events Hentry _ IH]; [reflexivity |].
  simpl. destruct entry; try discriminate Hentry. simpl. rewrite IH. simpl.
  rewrite filter_cons. case_decide as Hd; unfold newerThan in Hd; simpl in Hd.
  - rewrite Hd. reflexivity.
  - destruct (js_gt E (default VUndef (m !! "stamp")) stamp); [congruence | reflexivity].
Qed.

(** The comparison converts: a numeral is greater than a smaller number,
    a string that is no numeral is NaN and greater than nothing, and two
    strings are compared as strings. *)
Example js_gt_converts :
  js_gt sampleEnv (VStr "7") (VNum 5) = true
  /\ js_gt sampleEnv (VStr "seven") (VNum 5) = false
  /\ js_gt sampleEnv (VStr "10") (VStr "9") = false
  /\ js_gt sampleEnv (VNum 10) (VStr "9") = true
  /\ js_gt sampleEnv VUndef VNull = false.
Proof. repeat split; reflexivity. Qed.

Lemma queue_nonempty_inv (s : state) (events : list value) :
  userModelState.getReportingEventQueue s = VList events ->
  events <> [] ->
  exists um, s !! "userModel" = Some (VMap um)
             /\ um !! "reportingEventQueue" = Some (VList events).
Proof.
  unfold userModelState.getReportingEventQueue, getIn. simpl.
  destruct (s !! "userModel") as [[| | | | | |um]|] eqn:Hum; simpl;
    try (intros [= <-]; congruence).
  destruct (um !! "reportingEventQueue") as [[| |b|n|x|l|m]|] eqn:Hq; simpl;
    try (intros [= <-]; congruence).
  - destruct b; simpl; [discriminate | intros [= <-]; congruence].
  - unfold js_or. simpl. destruct (negb (n =? 0)%Z); [discriminate | intros [= <-]; congruence].
  - unfold js_or. simpl.
    destruct (negb (String.eqb x "")); [discriminate | intros [= <-]; congruence].
  - intros [= ->] _. exists um. split; [reflexivity | exact Hq].
Qed.

Lemma getReportingEventQueue_insert (s : state) (um : gmap string value) (q : list value) :
  userModelState.getReportingEventQueue
    (<[ "userModel" := VMap (<[ "reportingEventQueue" := VList q ]> um) ]> s) = VList q.
Proof.
  unfold userModelState.getReportingEventQueue.
  rewrite (getIn_userModel _ (<[ "reportingEventQueue" := VList q ]> um))
    by apply lookup_insert_eq.
  rewrite lookup_insert_eq. reflexivity.
Qed.

Lemma setReportingEventQueue_spec
    (E : Env) (s : state) (um : gmap string value) (q : value) :
  truthy (userModelState.getAdEnabledValue E s) = true ->
  s !! "userModel" = Some (VMap um) ->
  userModelState.setReportingEventQueue E s q
  = Ok (<[ "userModel" := VMap (<[ "reportingEventQueue" := q ]> um) ]> s).
Proof.
  intros Hen Hum. unfold userModelState.setReportingEventQueue.
  rewrite Hen. change (negb true) with false. cbv iota.
  apply setIn_userModel. exact Hum.
Qed.

Lemma last_stamps (events : list value) (mark : gmap string value) (u : value) :
  last events = Some (VMap mark) ->
  stampOf <$> <[ pred (length events) := VMap (<[ "uuid" := u ]> mark) ]> events
  = stampOf <$> events.
Proof.
  intros Hlast. rewrite list_fmap_insert. apply list_insert_id.
  rewrite list_lookup_fmap, <- last_lookup, Hlast. simpl.
  rewrite lookup_insert_ne by discriminate. reflexivity.
Qed.

Lemma truthy_last (events : list value) (mark : gmap string value) :
  last events = Some (VMap mark) ->
  userModel.lastOf (VList events) = Ok (VMap mark).
Proof. intros H. simpl. rewrite H. reflexivity. Qed.

Lemma collectActivity_uploads
    (E : Env) (s : state) (w : World) (events : list value)
    (mark : gmap string value) :
  gateOpen E s w ->
  userModelState.getReportingEventQueue s = VList events ->
  last events = Some (VMap mark) ->
  exists s1 w1 path payload events1,
    userModel.collectActivity E s w = Ok (s1, w1)
    /\ trace w1 = trace w ++ [Roundtrip "PUT" path payload
                                (CollectActivityCallback (default VUndef (mark !! "stamp")) path)]
    /\ userModelState.getReportingEventQueue s1 = VList events1
    /\ stampOf <$> events1 = stampOf <$> events
    /\ collectActivityId w1 = collectActivityId w
    /\ gateOpen E s1 w1.
Proof.
  intros Hgate Hq Hlast.
  assert (Hne : events <> []) by (intros ->; discriminate).
  destruct (queue_nonempty_inv s events Hq Hne) as (um & Hum & Hstored).
  pose proof (gateOpen_enabled E s w Hgate) as Hen.
  unfold userModel.collectActivity.
  unfold mbind at 1, M_bind at 1. rewrite (noop_gateOpen E s w Hgate). cbv iota.
  rewrite Hq, (truthy_last events mark Hlast).
  unfold mbind at 1, M_bind at 1. rewrite liftR_Ok. cbv beta iota.
  change (negb (truthy (VMap mark))) with false. cbv iota.
  destruct (truthy (default VUndef (mark !! "uuid"))) eqn:Hid.
  - change (negb true) with false. cbv iota.
    eexists s, _, _, _, events.
    split; [reflexivity |]. split; [reflexivity |]. split; [exact Hq |].
    split; [reflexivity |]. split; [reflexivity |]. exact Hgate.
  - change (negb false) with true. cbv iota.
    unfold newUuid, mbind, M_bind. cbv beta iota.
    rewrite (setReportingEventQueue_spec E s um) by assumption.
    rewrite liftR_Ok. cbv beta iota.
    eexists _, _, _, _, _.
    split; [reflexivity |]. split; [reflexivity |].
    split; [apply getReportingEventQueue_insert |].
    split; [apply last_stamps; exact Hlast |]. split; [reflexivity |].
    destruct Hgate as (Hm & Hp & _). repeat split; try assumption.
    rewrite getAdEnabledValue_insert_userModel. exact Hen.
Qed.

Lemma uploadLogs_prunes
    (E : Env) (s : state) (um : gmap string value) (w : World)
    (events : list value) (stamp : value) (retryIn : Z) :
  gateOpen E s w ->
  s !! "userModel" = Some (VMap um) ->
  userModelState.getReportingEventQueue s = VList events ->
  Forall (fun e => isMap e = true) events ->
  truthy stamp = true ->
  exists s' w' uploaded path,
    userModel.uploadLogs E s stamp retryIn w = Ok (s', w')
    /\ userModelState.getReportingEventQueue s' = VList (filter (newerThan E stamp) events)
    /\ trace w' = trace w ++ [OnUserModelLog "Events uploaded" uploaded]
                    ++ rearmed w retryIn
                    ++ [Roundtrip "GET" path VUndef (UploadLogsCallback path)]
    /\ (is_Some (collectActivityId w) -> collectActivityId w' = Some (timers w)).
Proof.
  intros Hgate Hum Hq Hrec Hstamp.
  pose proof (gateOpen_enabled E s w Hgate) as Hen.
  unfold userModel.uploadLogs, rearmed.
  unfold mbind at 1, M_bind at 1. rewrite (noop_gateOpen E s w Hgate). cbv iota.
  rewrite Hstamp, Hq.
  unfold mbind at 1, M_bind at 1. unfold mbind at 1, M_bind at 1.
  rewrite (filterStamp_spec E stamp events Hrec), liftR_Ok. cbv beta iota.
  unfold mbind at 1, M_bind at 1.
  rewrite (setReportingEventQueue_spec E s um) by assumption.
  rewrite liftR_Ok. cbv beta iota.
  unfold userModel.onUserModelLog, emit, getWorld, setTimeout, set_collectActivityId,
    mbind, M_bind, mret, M_ret. cbv beta iota. simpl collectActivityId.
  destruct (collectActivityId w) as [id|]; simpl;
    eexists _, _, _, _; (split; [reflexivity |]);
    (split; [apply getReportingEventQueue_insert |]);
    (split; [rewrite <- ?app_assoc; reflexivity |]).
  - intros _. reflexivity.
  - intros [? [=]].
Qed.

Lemma uploadLogs_keeps
    (E : Env) (s : state) (w : World) (stamp : value) (retryIn : Z) :
  gateOpen E s w ->
  truthy stamp = false ->
  exists w' path,
    userModel.uploadLogs E s stamp retryIn w = Ok (s, w')
    /\ trace w' = trace w ++ rearmed w retryIn
                    ++ [Roundtrip "GET" path VUndef (UploadLogsCallback path)]
    /\ (is_Some (collectActivityId w) -> collectActivityId w' = Some (timers w)).
Proof.
  intros Hgate Hstamp.
  unfold userModel.uploadLogs, rearmed.
  unfold mbind at 1, M_bind at 1. rewrite (noop_gateOpen E s w Hgate). cbv iota.
  rewrite Hstamp.
  unfold userModel.onUserModelLog, emit, getWorld, setTimeout, set_collectActivityId,
    mbind, M_bind, mret, M_ret. cbv beta iota.
  destruct (collectActivityId w) as [id|]; simpl;
    eexists _, _; (split; [reflexivity |]);
    (split; [rewrite <- ?app_assoc; reflexivity |]).
  - intros _. reflexivity.
  - intros [? [=]].
Qed.

Lemma runCollectActivityCallback_success
    (E : Env) (stamp : value) (path : string) (err response : value) (w : World) :
  truthy err = false ->
  exists w', userModel.runCollectActivityCallback E stamp path err response w = Ok (tt, w')
    /\ trace w' = trace w ++ [OnUserModelUploadLogs stamp (userModel.oneDay E)]
    /\ collectActivityId w' = collectActivityId w.
Proof.
  intros Herr. unfold userModel.runCollectActivityCallback. rewrite Herr.
  eexists. split; [reflexivity |]. split; reflexivity.
Qed.

Lemma runCollectActivityCallback_failure
    (E : Env) (stamp : value) (path : string) (err response code : value) (w : World) :
  truthy err = true ->
  prop response "statusCode" = Ok code ->
  exists w' failure,
    userModel.runCollectActivityCallback E stamp path err response w = Ok (tt, w')
    /\ trace w' = trace w ++ [OnUserModelLog "Event upload failed" failure;
                              OnUserModelUploadLogs
                                (if strict_eq code (VNum 400) then stamp else VNull)
                                (userModel.oneHour E)]
    /\ collectActivityId w' = collectActivityId w.
Proof.
  intros Herr Hcode. unfold userModel.runCollectActivityCallback. rewrite Herr.
  unfold userModel.onUserModelLog, emit, mbind, M_bind, mret, M_ret. cbv beta iota.
  rewrite Hcode, liftR_Ok. cbv beta iota.
  eexists _, _. split; [reflexivity |]. split; [| reflexivity].
  simpl. rewrite <- app_assoc. simpl.
  destruct (strict_eq code (VNum 400)); reflexivity.
Qed.

(** C8. The upload carries the stamp of the last queued record as its
    watermark.  When the round trip succeeds the callback asks for
    [uploadLogs] with that watermark and the day interval; when it fails it
    asks for the hour interval, with the watermark kept if the response
    status is 400 and cleared otherwise.  [uploadLogs] given a watermark
    prunes the queue to exactly the entries whose stamp is strictly greater
    than it; given none it leaves the state as it was.  In both cases it
    re-arms the timer, when one is held, with the interval it was given. *)
Theorem upload_outcome_schedules_and_prunes (E : Env) :
  (forall (s : state) (w : World) (events : list value) (mark : gmap string value),
      gateOpen E s w ->
      userModelState.getReportingEventQueue s = VList events ->
      last events = Some (VMap mark) ->
      exists s1 w1 path payload events1,
        userModel.collectActivity E s w = Ok (s1, w1)
        /\ trace w1
           = trace w ++ [Roundtrip "PUT" path payload
                           (CollectActivityCallback (default VUndef (mark !! "stamp")) path)]
        /\ userModelState.getReportingEventQueue s1 = VList events1
        /\ stampOf <$> events1 = stampOf <$> events
        /\ collectActivityId w1 = collectActivityId w
        /\ gateOpen E s1 w1)
  /\ (forall (stamp : value) (path : string) (err response : value) (w : World),
         truthy err = false ->
         exists w',
           userModel.runCollectActivityCallback E stamp path err response w = Ok (tt, w')
           /\ trace w' = trace w ++ [OnUserModelUploadLogs stamp (userModel.oneDay E)])
  /\ (forall (stamp : value) (path : string) (err response code : value) (w : World),
         truthy err = true ->
         prop response "statusCode" = Ok code ->
         exists w' failure,
           userModel.runCollectActivityCallback E stamp path err response w = Ok (tt, w')
           /\ (code <> VNum 400 ->
               trace w' = trace w ++ [OnUserModelLog "Event upload failed" failure;
                                      OnUserModelUploadLogs VNull (userModel.oneHour E)])
           /\ (code = VNum 400 ->
               trace w' = trace w ++ [OnUserModelLog "Event upload failed" failure;
                                      OnUserModelUploadLogs stamp (userModel.oneHour E)]))
  /\ (forall (s : state) (um : gmap string value) (w : World) (events : list value)
             (stamp : value) (retryIn : Z),
         gateOpen E s w ->
         s !! "userModel" = Some (VMap um) ->
         userModelState.getReportingEventQueue s = VList events ->
         Forall (fun e => isMap e = true) events ->
         truthy stamp = true ->
         exists s' w' uploaded path,
           userModel.uploadLogs E s stamp retryIn w = Ok (s', w')
           /\ userModelState.getReportingEventQueue s'
              = VList (filter (newerThan E stamp) events)
           /\ trace w' = trace w ++ [OnUserModelLog "Events uploaded" uploaded]
                           ++ rearmed w retryIn
                           ++ [Roundtrip "GET" path VUndef (UploadLogsCallback path)]
           /\ (is_Some (collectActivityId w) -> collectActivityId w' = Some (timers w)))
  /\ (forall (s : state) (w : World) (retryIn : Z),
         gateOpen E s w ->
         exists w' path,
           userModel.uploadLogs E s VNull retryIn w = Ok (s, w')
           /\ trace w' = trace w ++ rearmed w retryIn
                           ++ [Roundtrip "GET" path VUndef (UploadLogsCallback path)]
           /\ (is_Some (collectActivityId w) -> collectActivityId w' = Some (timers w))).
Proof.
  split; [| split; [| split; [| split]]].
  - apply collectActivity_uploads.
  - intros stamp path err response w Herr.
    destruct (runCollectActivityCallback_success E stamp path err response w Herr)
      as (w' & Hrun & Htrace & _).
    exists w'. split; assumption.
  - intros stamp path err response code w Herr Hcode.
    destruct (runCollectActivityCallback_failure E stamp path err response code w Herr Hcode)
      as (w' & failure & Hrun & Htrace & _).
    exists w', failure. split; [exact Hrun |]. split.
    + intros Hne. rewrite Htrace, (strict_eq_false _ _ Hne). reflexivity.
    + intros ->. rewrite Htrace. reflexivity.
  - apply uploadLogs_prunes.
  - intros s w retryIn Hgate. apply uploadLogs_keeps; [exact Hgate | reflexivity].
Qed.

Lemma upload_outcome_schedules_and_prunes_witness :
  let older := obj [("type", VStr "focus"); ("stamp", VStr "2018-05-23T10:00:00.000Z")] in
  let mark := obj [("type", VStr "blur"); ("stamp", VStr "2018-05-23T11:00:00.000Z")] in
  let newer := obj [("type", VStr "focus"); ("stamp", VStr "2018-05-23T12:00:00.000Z")] in
  let s := sampleState true [("reportingEventQueue", VList [older; mark; newer])] in
  let w := sampleWorld None in
  exists s' w',
    userModel.uploadLogs sampleEnv s (VStr "2018-05-23T11:00:00.000Z") 86400000 w = Ok (s', w')
    /\ userModelState.getReportingEventQueue s' = VList [newer].
Proof.
  intros older mark newer s w.
  destruct (upload_outcome_schedules_and_prunes sampleEnv) as (_ & _ & _ & Hprune & _).
  destruct (Hprune s (list_to_map [("reportingEventQueue", VList [older; mark; newer])]) w
              [older; mark; newer] (VStr "2018-05-23T11:00:00.000Z") 86400000)
    as (s' & w' & _ & _ & Hrun & Hq & _).
  - repeat split; reflexivity.
  - reflexivity.
  - reflexivity.
  - repeat constructor.
  - reflexivity.
  - exists s', w'. split; [exact Hrun |]. rewrite Hq. reflexivity.
Defined.

(** ** Deduplication of the reporting queue *)

Lemma isEqual_stamp (last map : gmap string value) (stamp : value) :
  map !! "stamp" = Some stamp ->
  isEqual (<[ "stamp" := stamp ]> last) map = true
  <-> plainRecord map = true /\ sameExceptStamp last map.
Proof.
  intros Hstamp. unfold isEqual, sameExceptStamp.
  rewrite andb_true_iff, bool_decide_eq_true. split.
  - intros [Hplain Heq]. split; [exact Hplain |].
    rewrite <- Heq, delete_insert_eq. reflexivity.
  - intros [Hplain Heq]. split; [exact Hplain |].
    rewrite <- (insert_delete_eq last), Heq, insert_delete_eq.
    apply insert_id. exact Hstamp.
Qed.

Lemma isEqual_not_plain (last map : gmap string value) :
  plainRecord map = false -> isEqual last map = false.
Proof. intros H. unfold isEqual. rewrite H. reflexivity. Qed.


Lemma setIn_frame (a b c : string) (v : value) (s s' : state) :
  setIn [a; b] v s = Ok s' ->
  (c <> b -> getIn [a; c] s' = getIn [a; c] s)
  /\ (forall a' path, a' <> a -> getIn (a' :: path) s' = getIn (a' :: path) s)
  /\ exists um, s' !! a = Some (VMap um).
Proof.
  unfold setIn, getIn. simpl.
  destruct (s !! a) as [[| | | | | |m]|] eqn:Ha; simpl; intros [= <-]; repeat split;
    try (intros Hne; rewrite lookup_insert_eq, ?Ha; simpl;
         rewrite ?lookup_insert_ne, ?lookup_singleton_ne by congruence; reflexivity);
    try (intros a' path Hne; rewrite lookup_insert_ne by congruence; reflexivity);
    rewrite lookup_insert_eq; eauto.
Qed.

Lemma recordAdUUIDSeen_frame (E : Env) (s s' : state) (u : string) (v : value) :
  userModelState.recordAdUUIDSeen E s u v = Ok s' ->
  userModelState.getReportingEventQueue s' = userModelState.getReportingEventQueue s
  /\ userModelState.getAdEnabledValue E s' = userModelState.getAdEnabledValue E s.
Proof.
  unfold userModelState.recordAdUUIDSeen.
  destruct (negb (truthy (userModelState.getAdEnabledValue E s))); [intros [= <-]; auto |].
  destruct (js_or _ _); try discriminate.
  intros Hset. destruct (setIn_frame _ _ "reportingEventQueue" _ _ _ Hset) as (Hq & Hother & _).
  split.
  - unfold userModelState.getReportingEventQueue. rewrite Hq by discriminate. reflexivity.
  - unfold userModelState.getAdEnabledValue. apply Hother. discriminate.
Qed.

Lemma eventFields_inv
    (E : Env) (s s2 : state) (ty : string) (action : value)
    (map0 map : gmap string value) (w w2 : World) :
  userModel.eventFields E s ty action map0 w = Ok (inr (s2, map), w2) ->
  w2 = w
  /\ map !! "stamp" = map0 !! "stamp"
  /\ (s2 = s \/ exists u, userModelState.recordAdUUIDSeen E s u (VNum 1) = Ok s2).
Proof.
  unfold userModel.eventFields, getWorld, liftR, throw, mbind, M_bind, mret, M_ret.
  intros H.
  repeat case_match; simplify_eq;
    (split; [reflexivity |]);
    (split; [rewrite ?lookup_insert_ne by discriminate; reflexivity |]);
    eauto.
Qed.


(** Past the gate, the call is the [switch] followed by the comparison
    with the last record of the queue. *)
Lemma generateAdReportingEvent_run
    (E : Env) (s : state) (ty : string) (action : value) (w : World) :
  gateOpen E s w ->
  userModel.generateAdReportingEvent E s ty action w
  = match userModel.eventFields E s ty action (stampedRecord E ty w) (tick w) with
    | Ok (inl s1, w2) => Ok (s1, w2)
    | Ok (inr (s2, map), w2) =>
        match userModel.lastOf (userModelState.getReportingEventQueue s2) with
        | Ok last =>
            match last with
            | VMap l =>
                if isEqual (<[ "stamp" := VStr (toISOString E (clock E (ticks w))) ]> l) map
                then Ok (s2, w2)
                else (_ ← userModel.onUserModelLog "Event logged" (VMap map);
                      liftR (userModelState.appendToReportingEventQueue E s2 (VMap map))) w2
            | VList _ =>
                (_ ← userModel.onUserModelLog "Event logged" (VMap map);
                 liftR (userModelState.appendToReportingEventQueue E s2 (VMap map))) w2
            | _ =>
                if truthy last
                then Throw (TypeError "last.toJS is not a function")
                else (_ ← userModel.onUserModelLog "Event logged" (VMap map);
                      liftR (userModelState.appendToReportingEventQueue E s2 (VMap map))) w2
            end
        | Throw e => Throw e
        end
    | Throw e => Throw e
    end.
Proof.
  intros Hgate. unfold userModel.generateAdReportingEvent.
  unfold mbind at 1, M_bind at 1. rewrite (noop_gateOpen E s w Hgate). cbv iota.
  unfold mbind at 1, M_bind at 1. unfold getTime at 1. cbv beta iota.
  fold (stampedRecord E ty w).
  unfold mbind at 1, M_bind at 1.
  destruct (userModel.eventFields E s ty action (stampedRecord E ty w) (tick w))
    as [[[s1|[s2 map]] w2]|e]; try reflexivity.
  unfold mbind at 1, M_bind at 1.
  destruct (userModel.lastOf (userModelState.getReportingEventQueue s2)) as [last|e];
    [| reflexivity].
  rewrite liftR_Ok. cbv beta iota.
  destruct last as [| |b|n|x|l|l]; try reflexivity.
  - destruct b; reflexivity.
  - simpl truthy. destruct (negb (n =? 0)%Z); reflexivity.
  - simpl truthy. destruct (negb (String.eqb x "")); reflexivity.
  - simpl truthy. cbv iota. unfold mbind at 1, M_bind at 1. unfold mret at 1, M_ret at 1.
    cbv beta iota.
    destruct (isEqual (<[ "stamp" := VStr (toISOString E (clock E (ticks w))) ]> l) map);
      reflexivity.
Qed.

Lemma appendToReportingEventQueue_spec
    (E : Env) (s : state) (um : gmap string value) (q : list value)
    (event : gmap string value) :
  truthy (userModelState.getAdEnabledValue E s) = true ->
  s !! "userModel" = Some (VMap um) ->
  userModelState.getReportingEventQueue s = VList q ->
  userModelState.appendToReportingEventQueue E s (VMap event)
  = Ok (<[ "userModel" :=
             VMap (<[ "reportingEventQueue" := VList (q ++ [VMap event]) ]> um) ]> s).
Proof.
  intros Hen Hum Hq. unfold userModelState.appendToReportingEventQueue.
  rewrite Hq. simpl. apply setReportingEventQueue_spec; assumption.
Qed.


Lemma eventFields_bookkeeping
    (E : Env) (s s2 : state) (ty : string) (action : value) (w w2 : World)
    (map : gmap string value) :
  userModel.eventFields E s ty action (stampedRecord E ty w) (tick w)
  = Ok (inr (s2, map), w2) ->
  w2 = tick w
  /\ map !! "stamp" = Some (VStr (toISOString E (clock E (ticks w))))
  /\ userModelState.getReportingEventQueue s2 = userModelState.getReportingEventQueue s
  /\ userModelState.getAdEnabledValue E s2 = userModelState.getAdEnabledValue E s
  /\ (s2 = s \/ exists u, userModelState.recordAdUUIDSeen E s u (VNum 1) = Ok s2).
Proof.
  intros Hfields.
  destruct (eventFields_inv _ _ _ _ _ _ _ _ _ Hfields) as (-> & Hstamp & Hstate).
  split; [reflexivity |]. split.
  { rewrite Hstamp. unfold stampedRecord. apply lookup_insert_eq. }
  destruct Hstate as [-> | [u Hu]].
  - repeat split; auto.
  - destruct (recordAdUUIDSeen_frame E s s2 u (VNum 1) Hu) as [Hq Hen].
    repeat split; eauto.
Qed.

Lemma generateAdReportingEvent_appends
    (E : Env) (s s2 : state) (ty : string) (action : value) (w : World)
    (map um : gmap string value) (q : list value) :
  gateOpen E s w ->
  userModel.eventFields E s ty action (stampedRecord E ty w) (tick w)
  = Ok (inr (s2, map), tick w) ->
  userModelState.getReportingEventQueue s2 = VList q ->
  truthy (userModelState.getAdEnabledValue E s2) = true ->
  s2 !! "userModel" = Some (VMap um) ->
  (forall l, last q = Some (VMap l) ->
             plainRecord map = false \/ ~ sameExceptStamp l map) ->
  (forall x, last q = Some x -> isMap x = true) ->
  map !! "stamp" = Some (VStr (toISOString E (clock E (ticks w)))) ->
  exists s3 w3,
    userModel.generateAdReportingEvent E s ty action w = Ok (s3, w3)
    /\ userModelState.getReportingEventQueue s3 = VList (q ++ [VMap map])
    /\ trace w3 = trace w ++ [OnUserModelLog "Event logged" (VMap map)].
Proof.
  intros Hgate Hfields Hq Hen Hum Hdiff Hrec Hstamp.
  rewrite (generateAdReportingEvent_run E s ty action w Hgate), Hfields, Hq.
  assert (Happend :
    (_ ← userModel.onUserModelLog "Event logged" (VMap map);
     liftR (userModelState.appendToReportingEventQueue E s2 (VMap map))) (tick w)
    = Ok (<[ "userModel" :=
               VMap (<[ "reportingEventQueue" := VList (q ++ [VMap map]) ]> um) ]> s2,
          {| initP := initP w; foregroundP := foregroundP w; matrixData := matrixData w;
             priorData := priorData w; sampleAdFeed := sampleAdFeed w;
             lastSingleClassification := lastSingleClassification w;
             collectActivityId := collectActivityId w; ticks := S (ticks w);
             draws := draws w; idents := idents w; timers := timers w;
             trace := trace w ++ [OnUserModelLog "Event logged" (VMap map)] |})).
  { unfold userModel.onUserModelLog, emit, mbind, M_bind. cbv beta iota.
    rewrite (appendToReportingEventQueue_spec E s2 um q) by assumption.
    reflexivity. }
  simpl userModel.lastOf.
  destruct (last q) as [x|] eqn:Hlast; simpl default.
  - pose proof (Hrec x eq_refl) as Hx. destruct x; try discriminate Hx.
    pose proof (Hdiff m eq_refl) as Hne.
    destruct (isEqual _ _) eqn:Heq.
    + apply (isEqual_stamp m map _ Hstamp) in Heq as [Hplain Hsame].
      destruct Hne as [Hne | Hne]; [congruence | contradiction].
    + rewrite Happend. eexists _, _. split; [reflexivity |].
      split; [apply getReportingEventQueue_insert | reflexivity].
  - simpl truthy. cbv iota. rewrite Happend. eexists _, _. split; [reflexivity |].
    split; [apply getReportingEventQueue_insert | reflexivity].
Qed.








(** Two focus events on the same tab, then one on another tab, starting
    from an empty queue: the queue holds 1, 1 and 2 records. *)
Example focus_twice_then_elsewhere :
  let focus n := obj [("tabId", VNum n)] in
  let queueLength (r : result (state * World)) :=
    match r with
    | Ok (s, _) => Some (length (historyUnder ["userModel"; "reportingEventQueue"] s))
    | Throw _ => None
    end in
  let r1 := userModel.generateAdReportingEvent sampleEnv (sampleState true []) "focus"
              (focus 1) (sampleWorld None) in
  let r2 := '(s, w) ← r1; userModel.generateAdReportingEvent sampleEnv s "focus" (focus 1) w in
  let r3 := '(s, w) ← r2; userModel.generateAdReportingEvent sampleEnv s "focus" (focus 2) w in
  (queueLength r1, queueLength r2, queueLength r3) = (Some 1%nat, Some 1%nat, Some 2%nat).
Proof. vm_compute. reflexivity. Qed.

(** The same ad shown twice: the record holds the hierarchy of the
    category as an Immutable list, the comparison with the last record
    fails, and the queue holds 1 and then 2 records. *)
Example ad_shown_twice :
  let shown := obj [("eventName", VStr "ad-shown");
                    ("data", obj [("hierarchy", VList [VStr "sports"; VStr "rugby"]);
                                  ("notificationUrl", VStr "https://a.example");
                                  ("uuid", VStr "ad-1")])] in
  let queueLength (r : result (state * World)) :=
    match r with
    | Ok (s, _) => Some (length (historyUnder ["userModel"; "reportingEventQueue"] s))
    | Throw _ => None
    end in
  let r1 := userModel.generateAdReportingEvent sampleEnv (sampleState true []) "notify"
              shown (sampleWorld None) in
  let r2 := '(s, w) ← r1; userModel.generateAdReportingEvent sampleEnv s "notify" shown w in
  (queueLength r1, queueLength r2) = (Some 1%nat, Some 2%nat).
Proof. vm_compute. reflexivity. Qed.

(** * Further properties of the behavioural state *)

(** ** Steps of the monad *)

Lemma bind_liftR_Ok {A B} (a : A) (f : A -> M B) (w : World) :
  (liftR (Ok a) ≫= f) w = f a w.
Proof. reflexivity. Qed.

Lemma bind_getTime {B} (E : Env) (f : Z -> M B) (w : World) :
  (getTime E ≫= f) w = f (clock E (ticks w)) (tick w).
Proof. reflexivity. Qed.

Lemma bind_noop_open {B} (E : Env) (s : state) (f : bool -> M B) (w : World) :
  gateOpen E s w -> (userModel.noop E s ≫= f) w = f false w.
Proof.
  intros Hgate. unfold mbind, M_bind. rewrite (noop_gateOpen E s w Hgate). reflexivity.
Qed.

Lemma bind_emit {B} (e : effect) (f : unit -> M B) (w : World) :
  (emit e ≫= f) w
  = f tt {| initP := initP w; foregroundP := foregroundP w;
            matrixData := matrixData w; priorData := priorData w;
            sampleAdFeed := sampleAdFeed w;
            lastSingleClassification := lastSingleClassification w;
            collectActivityId := collectActivityId w;
            ticks := ticks w; draws := draws w; idents := idents w;
            timers := timers w; trace := trace w ++ [e] |}.
Proof. reflexivity. Qed.

(** ** Generic values *)

Lemma validated (s : state) (um : gmap string value) (k : string) (v : value) :
  s !! "userModel" = Some (VMap um) ->
  (s ← userModelState.validateState (VMap s); setIn ["userModel"; k] v s)
  = Ok (<[ "userModel" := VMap (<[ k := v ]> um) ]> s).
Proof.
  intros Hum. rewrite (validateState_Ok s um Hum). simpl mbind.
  apply setIn_userModel. exact Hum.
Qed.

(** X1. With ads on, a value stored under a non-empty key of the
    behavioural sub-record is read back under that key, every other key
    reads as before and the enabled flag is untouched; an empty key stores
    nothing. *)
Theorem setUserModelValue_getUserModelValue (E : Env) (s : state) (um : gmap string value) :
  truthy (userModelState.getAdEnabledValue E s) = true ->
  s !! "userModel" = Some (VMap um) ->
  (forall (key : string) (v : value), key <> "" ->
      exists s',
        userModelState.setUserModelValue E s key v = Ok s'
        /\ userModelState.getUserModelValue s' key = Ok v
        /\ (forall k, k <> key ->
              userModelState.getUserModelValue s' k = userModelState.getUserModelValue s k)
        /\ userModelState.getAdEnabledValue E s' = userModelState.getAdEnabledValue E s)
  /\ (forall v, userModelState.setUserModelValue E s "" v = Ok s).
Proof.
  intros Hen Hum. split.
  - intros key v Hkey.
    exists (<[ "userModel" := VMap (<[ key := v ]> um) ]> s).
    assert (Hum' : (<[ "userModel" := VMap (<[ key := v ]> um) ]> s) !! "userModel"
                   = Some (VMap (<[ key := v ]> um))) by apply lookup_insert_eq.
    split; [| split; [| split]].
    + unfold userModelState.setUserModelValue. rewrite Hen. simpl truthy.
      destruct (String.eqb_spec key ""); [contradiction |]. cbn [negb orb].
      apply validated. exact Hum.
    + unfold userModelState.getUserModelValue.
      rewrite (validateState_Ok _ _ Hum'). simpl mbind.
      rewrite (getIn_userModel _ _ key Hum'), lookup_insert_eq. reflexivity.
    + intros k Hk. unfold userModelState.getUserModelValue.
      rewrite (validateState_Ok _ _ Hum'), (validateState_Ok _ _ Hum). simpl mbind.
      rewrite (getIn_userModel _ _ k Hum'), (getIn_userModel _ _ k Hum).
      rewrite lookup_insert_ne by congruence. reflexivity.
    + apply getAdEnabledValue_insert_userModel.
  - intros v. reflexivity.
Qed.

Lemma setUserModelValue_getUserModelValue_witness :
  exists s',
    userModelState.setUserModelValue sampleEnv (sampleState true []) "configured" (VBool true)
    = Ok s'
    /\ userModelState.getUserModelValue s' "configured" = Ok (VBool true).
Proof.
  destruct (setUserModelValue_getUserModelValue sampleEnv (sampleState true []) ∅)
    as [Hset _]; [reflexivity | reflexivity |].
  destruct (Hset "configured" (VBool true)) as (s' & Hrun & Hget & _); [discriminate |].
  exists s'. split; assumption.
Defined.

(** ** Seen-set *)

(** X2. With ads on, marking a uuid rewrites the seen-set to the old one
    with that uuid bound to the given value, or to 1 when the value is
    left out or undefined, whether the set was there before or not; the
    call does not validate the state and creates the behavioural
    sub-record when it is missing. *)
Theorem recordAdUUIDSeen_getAdUUIDSeen (E : Env) (s : state) (u : string) (v : value) :
  truthy (userModelState.getAdEnabledValue E s) = true ->
  (s !! "userModel" = None
   \/ exists um, s !! "userModel" = Some (VMap um)
                 /\ (um !! "adsUUIDSeen" = None
                     \/ exists seen, um !! "adsUUIDSeen" = Some (VMap seen))) ->
  exists s',
    userModelState.recordAdUUIDSeen E s u v = Ok s'
    /\ userModelState.getAdUUIDSeen s'
       = <[ u := match v with VUndef => VNum 1 | _ => v end ]>
           (userModelState.getAdUUIDSeen s)
    /\ userModelState.getReportingEventQueue s' = userModelState.getReportingEventQueue s
    /\ userModelState.getAdEnabledValue E s' = userModelState.getAdEnabledValue E s.
Proof.
  intros Hen Hshape.
  assert (Hrun : exists s', userModelState.recordAdUUIDSeen E s u v = Ok s'
            /\ userModelState.getAdUUIDSeen s'
               = <[ u := match v with VUndef => VNum 1 | _ => v end ]>
                   (userModelState.getAdUUIDSeen s)).
  { unfold userModelState.recordAdUUIDSeen, userModelState.getAdUUIDSeen.
    rewrite Hen. change (negb true) with false. cbv iota.
    unfold getIn, setIn. simpl.
    destruct Hshape as [Hnone | (um & Hum & [Hnone | (seen & Hseen)])].
    - rewrite Hnone. simpl. eexists. split; [reflexivity |].
      rewrite lookup_insert_eq. simpl. rewrite lookup_singleton_eq. reflexivity.
    - rewrite Hum. simpl. rewrite Hnone. simpl. rewrite ?Hum, ?Hnone. simpl.
      eexists. split; [reflexivity |].
      rewrite lookup_insert_eq. simpl. rewrite lookup_insert_eq. reflexivity.
    - rewrite Hum. simpl. rewrite Hseen. simpl. rewrite ?Hum, ?Hseen. simpl.
      eexists. split; [reflexivity |].
      rewrite lookup_insert_eq. simpl. rewrite lookup_insert_eq. reflexivity. }
  destruct Hrun as (s' & Hrun & Hseen). exists s'.
  destruct (recordAdUUIDSeen_frame E s s' u v Hrun) as [Hq Hen'].
  repeat split; assumption.
Qed.

Lemma recordAdUUIDSeen_getAdUUIDSeen_witness :
  exists s',
    userModelState.recordAdUUIDSeen sampleEnv {[ "settings" := obj [("ads.enabled", VBool true)] ]}
      "ad-1" VUndef = Ok s'
    /\ userModelState.getAdUUIDSeen s' !! "ad-1" = Some (VNum 1).
Proof.
  destruct (recordAdUUIDSeen_getAdUUIDSeen sampleEnv
              {[ "settings" := obj [("ads.enabled", VBool true)] ]} "ad-1" VUndef)
    as (s' & Hrun & Hseen & _); [reflexivity | left; reflexivity |].
  exists s'. split; [exact Hrun |]. rewrite Hseen. apply lookup_insert_eq.
Defined.

(** ** The search flag *)

Lemma strict_eq_refl_str (x : string) : strict_eq (VStr x) (VStr x) = true.
Proof. unfold strict_eq. apply bool_decide_eq_true. reflexivity. Qed.

Lemma truthy_str (x : string) : x <> "" -> truthy (VStr x) = true.
Proof. intros Hx. simpl. destruct (String.eqb_spec x ""); [contradiction | reflexivity]. Qed.

(** X3. With ads on, flagging a search at a URL sets the search flag and
    remembers the URL.  Un-flagging at that same URL changes nothing: the
    user is still searching.  Un-flagging at another URL clears the flag but
    keeps the remembered URL. *)
Theorem search_flag_lifecycle
    (E : Env) (s : state) (um : gmap string value) (u u' : string) (score : value)
    (w w1 : World) :
  truthy (userModelState.getAdEnabledValue E s) = true ->
  s !! "userModel" = Some (VMap um) ->
  u <> "" -> isURL E (VStr u) = true ->
  u' <> "" -> isURL E (VStr u') = true -> u' <> u ->
  exists s1,
    userModelState.flagSearchState E s (VStr u) score w = Ok (s1, tick w)
    /\ userModelState.getSearchState (VMap s1) = Ok (VBool true)
    /\ getIn ["userModel"; "searchUrl"] s1 = VStr u
    /\ getIn ["userModel"; "lastSearchTime"] s1 = VNum (clock E (ticks w))
    /\ userModelState.unFlagSearchState E s1 (VStr u) w1 = Ok (s1, w1)
    /\ exists s2,
         userModelState.unFlagSearchState E s1 (VStr u') w1 = Ok (s2, tick w1)
         /\ userModelState.getSearchState (VMap s2) = Ok (VBool false)
         /\ getIn ["userModel"; "searchUrl"] s2 = VStr u.
Proof.
  intros Hen Hum Hu Hurl Hu' Hurl' Hne.
  set (um1 := <[ "lastSearchTime" := VNum (clock E (ticks w)) ]>
                (<[ "score" := score ]>
                   (<[ "searchUrl" := VStr u ]> (<[ "searchActivity" := VBool true ]> um)))).
  set (s1 := <[ "userModel" := VMap um1 ]> s).
  assert (Hum1 : s1 !! "userModel" = Some (VMap um1)) by apply lookup_insert_eq.
  assert (Hen1 : truthy (userModelState.getAdEnabledValue E s1) = true).
  { unfold s1. rewrite getAdEnabledValue_insert_userModel. exact Hen. }
  assert (Hurl1 : getIn ["userModel"; "searchUrl"] s1 = VStr u).
  { rewrite (getIn_userModel s1 um1) by exact Hum1. unfold um1.
    rewrite !lookup_insert_ne by discriminate. rewrite lookup_insert_eq. reflexivity. }
  exists s1. split; [| split; [| split; [exact Hurl1 | split; [| split]]]].
  - unfold userModelState.flagSearchState.
    rewrite (truthy_str u Hu), Hurl, Hen. cbn [negb orb].
    rewrite (validateState_Ok s um Hum), bind_liftR_Ok. cbv beta.
    rewrite (setIn_userModel s um) by exact Hum. rewrite bind_liftR_Ok. cbv beta.
    rewrite (setIn_userModel _ (<[ "searchActivity" := VBool true ]> um))
      by apply lookup_insert_eq.
    rewrite bind_liftR_Ok. cbv beta. rewrite insert_insert_eq.
    rewrite (setIn_userModel _ (<[ "searchUrl" := VStr u ]>
                                  (<[ "searchActivity" := VBool true ]> um)))
      by apply lookup_insert_eq.
    rewrite bind_liftR_Ok. cbv beta. rewrite insert_insert_eq.
    rewrite bind_getTime.
    rewrite (setIn_userModel _ (<[ "score" := score ]>
                                  (<[ "searchUrl" := VStr u ]>
                                     (<[ "searchActivity" := VBool true ]> um))))
      by apply lookup_insert_eq.
    rewrite liftR_Ok, insert_insert_eq. reflexivity.
  - unfold userModelState.getSearchState.
    rewrite (validateState_Ok s1 um1 Hum1). simpl mbind.
    rewrite (getIn_userModel s1 um1) by exact Hum1. unfold um1.
    rewrite !lookup_insert_ne by discriminate. rewrite lookup_insert_eq. reflexivity.
  - rewrite (getIn_userModel s1 um1) by exact Hum1. unfold um1.
    rewrite lookup_insert_eq. reflexivity.
  - unfold userModelState.unFlagSearchState.
    rewrite (truthy_str u Hu), Hurl, Hen1. cbn [negb orb].
    rewrite (validateState_Ok s1 um1 Hum1), bind_liftR_Ok. cbv beta.
    rewrite Hurl1, strict_eq_refl_str. reflexivity.
  - set (um2 := <[ "lastSearchTime" := VNum (clock E (ticks w1)) ]>
                  (<[ "searchActivity" := VBool false ]> um1)).
    exists (<[ "userModel" := VMap um2 ]> s1).
    assert (Hum2 : (<[ "userModel" := VMap um2 ]> s1) !! "userModel" = Some (VMap um2))
      by apply lookup_insert_eq.
    split; [| split].
    + unfold userModelState.unFlagSearchState.
      rewrite (truthy_str u' Hu'), Hurl', Hen1. cbn [negb orb].
      rewrite (validateState_Ok s1 um1 Hum1), bind_liftR_Ok. cbv beta.
      rewrite Hurl1. rewrite strict_eq_false by congruence.
      rewrite (setIn_userModel s1 um1) by exact Hum1. rewrite bind_liftR_Ok. cbv beta.
      rewrite bind_getTime.
      rewrite (setIn_userModel _ (<[ "searchActivity" := VBool false ]> um1))
        by apply lookup_insert_eq.
      rewrite liftR_Ok, insert_insert_eq. reflexivity.
    + unfold userModelState.getSearchState.
      rewrite (validateState_Ok _ um2 Hum2). simpl mbind.
      rewrite (getIn_userModel _ um2) by exact Hum2. unfold um2.
      rewrite lookup_insert_ne by discriminate. rewrite lookup_insert_eq. reflexivity.
    + rewrite (getIn_userModel _ um2) by exact Hum2. unfold um2, um1.
      rewrite !lookup_insert_ne by discriminate. rewrite lookup_insert_eq. reflexivity.
Qed.

Lemma search_flag_lifecycle_witness :
  let s := sampleState true [] in
  let w := sampleWorld None in
  exists s1 s2,
    userModelState.flagSearchState sampleEnv s (VStr "https://a.example/?q=x") (VNum 1) w
    = Ok (s1, tick w)
    /\ userModelState.unFlagSearchState sampleEnv s1 (VStr "https://b.example/") (tick w)
       = Ok (s2, tick (tick w))
    /\ userModelState.getSearchState (VMap s2) = Ok (VBool false).
Proof.
  intros s w.
  destruct (search_flag_lifecycle sampleEnv s ∅ "https://a.example/?q=x"
              "https://b.example/" (VNum 1) w (tick w))
    as (s1 & Hflag & _ & _ & _ & _ & s2 & Hun & Hoff & _);
    try reflexivity; try discriminate.
  exists s1, s2. repeat split; assumption.
Defined.

(** ** Network and place *)

Lemma getAdPlace_truthy (s : state) : truthy (userModelState.getAdPlace s) = true.
Proof.
  unfold userModelState.getAdPlace, js_or.
  destruct (truthy (js_and _ _)) eqn:Hfound; [exact Hfound | reflexivity].
Qed.

Lemma getAdPlace_frame (s s' : state) :
  s' !! "userModel" = s !! "userModel" ->
  userModelState.getAdPlace s' = userModelState.getAdPlace s.
Proof.
  intros Hum. unfold userModelState.getAdPlace, userModelState.getSSID, getIn. simpl.
  rewrite Hum. reflexivity.
Qed.

Lemma enabled_settings (E : Env) (s : state) :
  truthy (userModelState.getAdEnabledValue E s) = true ->
  exists st, s !! "settings" = Some (VMap st).
Proof.
  unfold userModelState.getAdEnabledValue, getIn. simpl.
  destruct (s !! "settings") as [[| | | | | |st]|]; simpl; try discriminate. eauto.
Qed.

(** X4. With ads on, [setSSID] stores the SSID it is given, or ['unknown']
    for an empty one.  When that is the SSID already stored nothing else
    changes; when it differs, the place setting is overwritten with the
    place recorded for the new SSID, which is never empty. *)
Theorem setSSID_updates_place
    (E : Env) (s : state) (um : gmap string value) (ssid : string) :
  truthy (userModelState.getAdEnabledValue E s) = true ->
  s !! "userModel" = Some (VMap um) ->
  let stored := VStr (if String.eqb ssid "" then "unknown" else ssid) in
  exists s',
    userModelState.setSSID E s (VStr ssid) = Ok s'
    /\ userModelState.getSSID s' = stored
    /\ (userModelState.getSSID s = stored ->
        s' = <[ "userModel" := VMap (<[ "currentSSID" := stored ]> um) ]> s)
    /\ (userModelState.getSSID s <> stored ->
        getIn ["settings"; ADS_PLACE E] s' = userModelState.getAdPlace s')
    /\ truthy (userModelState.getAdPlace s') = true.
Proof.
  intros Hen Hum stored.
  destruct (enabled_settings E s Hen) as [st Hst].
  set (s1 := <[ "userModel" := VMap (<[ "currentSSID" := stored ]> um) ]> s).
  assert (Hstored : truthy stored = true).
  { unfold stored. destruct (String.eqb_spec ssid ""); [reflexivity |].
    apply truthy_str. assumption. }
  assert (Hv : (if negb (truthy (VStr ssid)) then VStr "unknown" else VStr ssid) = stored).
  { unfold stored. simpl. destruct (String.eqb ssid ""); reflexivity. }
  assert (Hssid1 : forall s2, s2 !! "userModel" = s1 !! "userModel" ->
            userModelState.getSSID s2 = stored).
  { intros s2 H2. unfold userModelState.getSSID, getIn. simpl. rewrite H2. unfold s1.
    rewrite lookup_insert_eq. simpl. rewrite lookup_insert_eq. simpl.
    unfold js_or. rewrite Hstored. reflexivity. }
  assert (Hrun : userModelState.setSSID E s (VStr ssid)
                 = if strict_eq (userModelState.getSSID s) stored then Ok s1
                   else Ok (<[ "settings" :=
                                 VMap (<[ ADS_PLACE E := userModelState.getAdPlace s1 ]> st) ]> s1)).
  { unfold userModelState.setSSID. rewrite Hen. cbn [negb]. rewrite Hv.
    rewrite (setIn_userModel s um) by exact Hum. simpl mbind. fold s1.
    destruct (strict_eq (userModelState.getSSID s) stored); cbn [negb]; [reflexivity |].
    unfold js_or at 1. rewrite getAdPlace_truthy.
    assert (Hst1 : s1 !! "settings" = Some (VMap st))
      by (unfold s1; rewrite lookup_insert_ne by discriminate; exact Hst).
    unfold setIn. simpl. rewrite Hst1. reflexivity. }
  destruct (decide (userModelState.getSSID s = stored)) as [Heq|Hne].
  - exists s1. rewrite Hrun, Heq. unfold stored at 1 2. rewrite strict_eq_refl_str.
    split; [reflexivity |]. split; [apply Hssid1; reflexivity |].
    split; [reflexivity |]. split; [contradiction | apply getAdPlace_truthy].
  - eexists. rewrite Hrun, (strict_eq_false _ _ Hne).
    split; [reflexivity |].
    assert (Hsame : (<[ "settings" :=
                        VMap (<[ ADS_PLACE E := userModelState.getAdPlace s1 ]> st) ]> s1)
                      !! "userModel" = s1 !! "userModel")
      by (apply lookup_insert_ne; discriminate).
    split; [apply Hssid1; exact Hsame |].
    split; [contradiction |]. split; [| apply getAdPlace_truthy].
    intros _. rewrite (getAdPlace_frame s1 _ Hsame).
    unfold getIn. simpl. rewrite lookup_insert_eq. simpl.
    rewrite lookup_insert_eq. reflexivity.
Qed.

Lemma setSSID_updates_place_witness :
  let s := sampleState true [("places", obj [("home-wifi", VStr "HOME")])] in
  exists s',
    userModelState.setSSID sampleEnv s (VStr "home-wifi") = Ok s'
    /\ userModelState.getSSID s' = VStr "home-wifi"
    /\ getIn ["settings"; "ads.place"] s' = userModelState.getAdPlace s'.
Proof.
  intros s.
  destruct (setSSID_updates_place sampleEnv s
              (list_to_map [("places", obj [("home-wifi", VStr "HOME")])]) "home-wifi")
    as (s' & Hrun & Hssid & _ & Hchanged & _); [reflexivity | reflexivity |].
  exists s'. split; [exact Hrun |]. split; [exact Hssid |].
  apply Hchanged. discriminate.
Defined.

(** X5. With ads on and a network known, a place recorded with
    [setAdPlace] is what [getAdPlace] answers, or ['UNDISCLOSED'] for an
    empty place; the places of other networks are untouched.  With no
    network known [setAdPlace] records nothing and the place is
    ['UNDISCLOSED']. *)
Theorem setAdPlace_getAdPlace (E : Env) (s : state) (place : value) :
  truthy (userModelState.getAdEnabledValue E s) = true ->
  (forall (um : gmap string value) (id : string),
      s !! "userModel" = Some (VMap um) ->
      um !! "currentSSID" = Some (VStr id) -> id <> "" ->
      (um !! "places" = None \/ exists pl, um !! "places" = Some (VMap pl)) ->
      exists s',
        userModelStateRest.setAdPlace E s place = Ok s'
        /\ userModelState.getAdPlace s' = js_or place (VStr "UNDISCLOSED")
        /\ userModelState.getSSID s' = VStr id
        /\ forall id', id' <> id ->
             getIn ["userModel"; "places"; id'] s' = getIn ["userModel"; "places"; id'] s)
  /\ (userModelState.getSSID s = VNull ->
      userModelStateRest.setAdPlace E s place = Ok s
      /\ userModelState.getAdPlace s = VStr "UNDISCLOSED").
Proof.
  intros Hen. split.
  - intros um id Hum Hssid Hid Hplaces.
    assert (Hget : userModelState.getSSID s = VStr id).
    { unfold userModelState.getSSID. rewrite (getIn_userModel s um) by exact Hum.
      rewrite Hssid. simpl default. unfold js_or. rewrite (truthy_str id Hid). reflexivity. }
    assert (Hshape : exists pl', 
              userModelStateRest.setAdPlace E s place
              = Ok (<[ "userModel" := VMap (<[ "places" := VMap (<[ id := place ]> pl') ]> um) ]> s)
              /\ forall id', id' <> id ->
                   default VUndef (pl' !! id') = getIn ["userModel"; "places"; id'] s).
    { unfold userModelStateRest.setAdPlace. rewrite Hen, Hget, (truthy_str id Hid).
      cbn [negb]. unfold setIn, getIn. simpl. rewrite Hum. simpl.
      destruct Hplaces as [Hnone | [pl Hpl]].
      - rewrite Hnone. simpl. exists ∅. rewrite insert_empty. split; [reflexivity |].
        intros id' _. rewrite lookup_empty. reflexivity.
      - rewrite Hpl. simpl. exists pl. split; [reflexivity |].
        intros id' _. destruct (pl !! id'); reflexivity. }
    destruct Hshape as (pl' & Hrun & Hothers).
    eexists. split; [exact Hrun |].
    set (um' := <[ "places" := VMap (<[ id := place ]> pl') ]> um).
    assert (Hum' : (<[ "userModel" := VMap um' ]> s) !! "userModel" = Some (VMap um'))
      by apply lookup_insert_eq.
    assert (Hget' : userModelState.getSSID (<[ "userModel" := VMap um' ]> s) = VStr id).
    { unfold userModelState.getSSID. rewrite (getIn_userModel _ um') by exact Hum'.
      unfold um'. rewrite lookup_insert_ne by discriminate. rewrite Hssid. simpl default.
      unfold js_or. rewrite (truthy_str id Hid). reflexivity. }
    split; [| split; [exact Hget' |]].
    + unfold userModelState.getAdPlace. rewrite Hget'.
      rewrite (getIn_userModel _ um') by exact Hum'.
      assert (Hpl : um' !! "places" = Some (VMap (<[ id := place ]> pl')))
        by apply lookup_insert_eq.
      rewrite Hpl. simpl default. cbv iota. rewrite lookup_insert_eq. simpl default.
      unfold js_and. rewrite (truthy_str id Hid). reflexivity.
    + intros id' Hne. rewrite <- (Hothers id' Hne).
      unfold getIn. simpl. rewrite lookup_insert_eq. simpl. unfold um'.
      rewrite lookup_insert_eq. simpl. rewrite lookup_insert_ne by congruence.
      destruct (pl' !! id'); reflexivity.
  - intros Hnone. split.
    + unfold userModelStateRest.setAdPlace. rewrite Hen, Hnone. reflexivity.
    + unfold userModelState.getAdPlace. rewrite Hnone.
      unfold js_and, js_or. simpl.
      destruct (truthy (getIn ["userModel"; "places"] s)) eqn:Hp; [reflexivity |].
      rewrite Hp. reflexivity.
Qed.

Lemma setAdPlace_getAdPlace_witness :
  let s := sampleState true [("currentSSID", VStr "home-wifi")] in
  exists s',
    userModelStateRest.setAdPlace sampleEnv s (VStr "HOME") = Ok s'
    /\ userModelState.getAdPlace s' = VStr "HOME".
Proof.
  intros s.
  destruct (setAdPlace_getAdPlace sampleEnv s (VStr "HOME")) as [Hset _]; [reflexivity |].
  destruct (Hset (list_to_map [("currentSSID", VStr "home-wifi")]) "home-wifi")
    as (s' & Hrun & Hplace & _); [reflexivity | reflexivity | discriminate | left; reflexivity |].
  exists s'. split; [exact Hrun | exact Hplace].
Defined.

(** ** Served ad and URL setters *)

(** X6. With ads on, what [setServedAd] records is what [getLastServedAd]
    reports: the time of the call, the ad and its class.  An empty ad
    records nothing. *)
Theorem setServedAd_getLastServedAd
    (E : Env) (s : state) (um : gmap string value) (adServed adClass : value) (w : World) :
  truthy (userModelState.getAdEnabledValue E s) = true ->
  s !! "userModel" = Some (VMap um) ->
  (truthy adServed = true ->
     exists s',
       userModelState.setServedAd E s adServed adClass w = Ok (s', tick w)
       /\ userModelStateRest.getLastServedAd s'
          = Ok (obj [("lastAdTime", VNum (clock E (ticks w)));
                     ("lastAdServed", adServed); ("lastAdClass", adClass)]))
  /\ (truthy adServed = false ->
        userModelState.setServedAd E s adServed adClass w = Ok (s, w)).
Proof.
  intros Hen Hum. split; intros Had.
  - set (um' := <[ "adClass" := adClass ]>
                  (<[ "adServed" := adServed ]>
                     (<[ "lastAdTime" := VNum (clock E (ticks w)) ]> um))).
    exists (<[ "userModel" := VMap um' ]> s).
    assert (Hum' : (<[ "userModel" := VMap um' ]> s) !! "userModel" = Some (VMap um'))
      by apply lookup_insert_eq.
    split.
    + unfold userModelState.setServedAd. rewrite Had, Hen. cbn [negb orb].
      rewrite (validateState_Ok s um Hum), bind_liftR_Ok. cbv beta.
      rewrite bind_getTime.
      rewrite (setIn_userModel s um) by exact Hum. rewrite bind_liftR_Ok. cbv beta.
      rewrite (setIn_userModel _ (<[ "lastAdTime" := VNum (clock E (ticks w)) ]> um))
        by apply lookup_insert_eq.
      rewrite bind_liftR_Ok. cbv beta. rewrite insert_insert_eq.
      rewrite (setIn_userModel _ (<[ "adServed" := adServed ]>
                                    (<[ "lastAdTime" := VNum (clock E (ticks w)) ]> um)))
        by apply lookup_insert_eq.
      rewrite liftR_Ok, insert_insert_eq. reflexivity.
    + unfold userModelStateRest.getLastServedAd.
      rewrite (validateState_Ok _ um' Hum'). simpl mbind.
      rewrite !(getIn_userModel _ um') by exact Hum'. unfold um'.
      rewrite lookup_insert_eq.
      rewrite (lookup_insert_ne _ "adClass" "adServed") by discriminate.
      rewrite lookup_insert_eq.
      rewrite !lookup_insert_ne by discriminate. rewrite lookup_insert_eq. reflexivity.
  - unfold userModelState.setServedAd. rewrite Had. reflexivity.
Qed.

Lemma setServedAd_getLastServedAd_witness :
  let s := sampleState true [] in
  let w := sampleWorld None in
  exists s',
    userModelState.setServedAd sampleEnv s (VStr "ad-1") (VStr "sports") w = Ok (s', tick w)
    /\ userModelStateRest.getLastServedAd s'
       = Ok (obj [("lastAdTime", VNum 1000000000);
                  ("lastAdServed", VStr "ad-1"); ("lastAdClass", VStr "sports")]).
Proof.
  intros s w.
  destruct (setServedAd_getLastServedAd sampleEnv s ∅ (VStr "ad-1") (VStr "sports") w)
    as [Hset _]; [reflexivity | reflexivity |].
  apply Hset. reflexivity.
Defined.

(** X7. The setters left out so far are gated as well: while ads are off,
    [setUrlActive], [setUrlClass], [setUserModelError], [setAdPlace] and
    the queue flush return the state they were given, and so do the two
    queue appends when they are given nothing, a keyed collection or an
    empty list.  The appends build the map of their argument before they
    look at the gate: given a number, a boolean or a string they throw a
    type error whether ads are on or off.  And whatever the gate says, the
    URL setters and the search flag ignore an empty URL and one that
    [isURL] rejects. *)
Theorem remaining_setters_gated (E : Env) (s : state) :
  (truthy (userModelState.getAdEnabledValue E s) = false ->
   (forall url, userModelStateRest.setUrlActive E s url = Ok s)
   /\ (forall url pageClass w, userModelStateRest.setUrlClass E s url pageClass w = Ok (s, w))
   /\ (forall error caller, userModelStateRest.setUserModelError E s error caller = Ok s)
   /\ (forall place, userModelStateRest.setAdPlace E s place = Ok s)
   /\ (forall survey, keyedOrEmpty survey = true ->
                      userModelState.appendToUserSurveyQueue E s survey = Ok s)
   /\ (forall event, keyedOrEmpty event = true ->
                     userModelState.appendToReportingEventQueue E s event = Ok s)
   /\ userModelState.flushReportingEventQueue E s = Ok s)
  /\ (forall x, scalar x = true ->
        (exists message,
            userModelState.appendToUserSurveyQueue E s x = Throw (TypeError message))
        /\ (exists message,
               userModelState.appendToReportingEventQueue E s x = Throw (TypeError message)))
  /\ (forall url, truthy url = false \/ isURL E url = false ->
        userModelStateRest.setUrlActive E s url = Ok s
        /\ (forall pageClass w, userModelStateRest.setUrlClass E s url pageClass w = Ok (s, w))
        /\ (forall score w, userModelState.flagSearchState E s url score w = Ok (s, w))
        /\ (forall w, userModelState.unFlagSearchState E s url w = Ok (s, w))).
Proof.
  split; [| split].
  - intros Hoff.
    repeat split; intros;
      unfold userModelStateRest.setUrlActive, userModelStateRest.setUrlClass,
        userModelStateRest.setUserModelError, userModelStateRest.setAdPlace,
        userModelState.appendToUserSurveyQueue, userModelState.appendToReportingEventQueue,
        userModelState.flushReportingEventQueue, userModelState.setUserSurveyQueue,
        userModelState.setReportingEventQueue;
      try match goal with
          | Hk : keyedOrEmpty ?x = true |- _ =>
              destruct x as [| | | | |[|]|]; try discriminate Hk; cbn [immutableMap mbind result_bind]
          end;
      rewrite Hoff; cbn [negb]; rewrite ?orb_true_r; reflexivity.
  - intros x Hx.
    unfold userModelState.appendToUserSurveyQueue, userModelState.appendToReportingEventQueue.
    destruct x as [| |b|n|[|c x]| |]; try discriminate Hx;
      split; eexists; reflexivity.
  - intros url Hbad.
    assert (Hguard : negb (truthy url) || negb (isURL E url) = true).
    { destruct Hbad as [-> | ->]; [reflexivity | apply orb_true_r]. }
    repeat split; intros;
      unfold userModelStateRest.setUrlActive, userModelStateRest.setUrlClass,
        userModelState.flagSearchState, userModelState.unFlagSearchState.
    + rewrite Hguard. reflexivity.
    + destruct Hbad as [Hb | Hb]; rewrite Hb; cbn [negb orb];
        rewrite ?orb_true_r; reflexivity.
    + rewrite Hguard. reflexivity.
    + rewrite Hguard. reflexivity.
Qed.

Lemma remaining_setters_gated_witness :
  userModelStateRest.setUrlActive sampleEnv (sampleState false []) (VStr "https://a.example/")
  = Ok (sampleState false [])
  /\ userModelState.flagSearchState sampleEnv (sampleState true []) (VStr "") (VNum 1)
       (sampleWorld None)
     = Ok (sampleState true [], sampleWorld None).
Proof.
  split.
  - destruct (remaining_setters_gated sampleEnv (sampleState false [])) as [Hoff _].
    apply Hoff. reflexivity.
  - destruct (remaining_setters_gated sampleEnv (sampleState true [])) as (_ & _ & Hbad).
    apply (Hbad (VStr "")). left. reflexivity.
Defined.

(** ** Page, class and error records *)

(** X25. With ads on, [setUrlClass] records the page, its class and the
    time of the call.  A later [setUrlActive] for another page replaces the
    page only: the class and the time that stay behind are those of the
    earlier page.  [setUrlClass] with an empty class records nothing, not
    even the page. *)
Theorem page_class_outlives_page
    (E : Env) (s : state) (um : gmap string value) (url url2 pageClass : value) (w : World) :
  truthy (userModelState.getAdEnabledValue E s) = true ->
  s !! "userModel" = Some (VMap um) ->
  truthy url = true -> isURL E url = true ->
  truthy url2 = true -> isURL E url2 = true ->
  (truthy pageClass = false ->
   userModelStateRest.setUrlClass E s url pageClass w = Ok (s, w))
  /\ (truthy pageClass = true ->
      exists s1 s2,
        userModelStateRest.setUrlClass E s url pageClass w = Ok (s1, tick w)
        /\ userModelState.getUserModelValue s1 "url" = Ok url
        /\ userModelState.getUserModelValue s1 "pageClass" = Ok pageClass
        /\ userModelState.getUserModelValue s1 "updated" = Ok (VNum (clock E (ticks w)))
        /\ userModelStateRest.setUrlActive E s1 url2 = Ok s2
        /\ userModelState.getUserModelValue s2 "url" = Ok url2
        /\ userModelState.getUserModelValue s2 "pageClass" = Ok pageClass
        /\ userModelState.getUserModelValue s2 "updated" = Ok (VNum (clock E (ticks w)))).
Proof.
  intros Hen Hum Hurl Hok Hurl2 Hok2.
  assert (Hget : forall (um' : gmap string value) (s0 : state) k,
            userModelState.getUserModelValue (<[ "userModel" := VMap um' ]> s0) k
            = Ok (default VUndef (um' !! k))).
  { intros um' s0 k. unfold userModelState.getUserModelValue.
    rewrite (validateState_Ok _ um') by apply lookup_insert_eq. simpl mbind.
    rewrite (getIn_userModel _ um') by apply lookup_insert_eq. reflexivity. }
  split.
  - intros Hclass. unfold userModelStateRest.setUrlClass.
    rewrite Hurl, Hclass. reflexivity.
  - intros Hclass.
    set (um1 := <[ "pageClass" := pageClass ]>
                  (<[ "url" := url ]> (<[ "updated" := VNum (clock E (ticks w)) ]> um))).
    set (s1 := <[ "userModel" := VMap um1 ]> s).
    assert (Hum1 : s1 !! "userModel" = Some (VMap um1)) by apply lookup_insert_eq.
    exists s1, (<[ "userModel" := VMap (<[ "url" := url2 ]> um1) ]> s1).
    split; [| split; [| split; [| split; [| split; [| split; [| split]]]]]].
    + unfold userModelStateRest.setUrlClass.
      rewrite Hurl, Hclass, Hok, Hen. cbn [negb orb].
      rewrite (validateState_Ok s um Hum), bind_liftR_Ok. cbv beta.
      rewrite bind_getTime.
      rewrite (setIn_userModel s um) by exact Hum. rewrite bind_liftR_Ok. cbv beta.
      rewrite (setIn_userModel _ (<[ "updated" := VNum (clock E (ticks w)) ]> um))
        by apply lookup_insert_eq.
      rewrite bind_liftR_Ok. cbv beta. rewrite insert_insert_eq.
      rewrite (setIn_userModel _ (<[ "url" := url ]>
                                    (<[ "updated" := VNum (clock E (ticks w)) ]> um)))
        by apply lookup_insert_eq.
      rewrite liftR_Ok, insert_insert_eq. reflexivity.
    + unfold s1. rewrite Hget. unfold um1.
      rewrite lookup_insert_ne by discriminate. rewrite lookup_insert_eq. reflexivity.
    + unfold s1. rewrite Hget. unfold um1. rewrite lookup_insert_eq. reflexivity.
    + unfold s1. rewrite Hget. unfold um1.
      rewrite !lookup_insert_ne by discriminate. rewrite lookup_insert_eq. reflexivity.
    + unfold userModelStateRest.setUrlActive.
      assert (Hen1 : truthy (userModelState.getAdEnabledValue E s1) = true).
      { unfold s1. rewrite getAdEnabledValue_insert_userModel. exact Hen. }
      rewrite Hurl2, Hok2, Hen1. cbn [negb orb].
      apply validated. exact Hum1.
    + rewrite Hget. rewrite lookup_insert_eq. reflexivity.
    + rewrite Hget. unfold um1.
      rewrite lookup_insert_ne by discriminate. rewrite lookup_insert_eq. reflexivity.
    + rewrite Hget. unfold um1.
      rewrite !lookup_insert_ne by discriminate. rewrite lookup_insert_eq. reflexivity.
Qed.

Lemma page_class_outlives_page_witness :
  exists s1 s2,
    userModelStateRest.setUrlClass sampleEnv (sampleState true [])
      (VStr "https://a.example/") (VStr "sports") (sampleWorld None)
    = Ok (s1, tick (sampleWorld None))
    /\ userModelStateRest.setUrlActive sampleEnv s1 (VStr "https://b.example/") = Ok s2
    /\ userModelState.getUserModelValue s2 "url" = Ok (VStr "https://b.example/")
    /\ userModelState.getUserModelValue s2 "pageClass" = Ok (VStr "sports").
Proof.
  destruct (page_class_outlives_page sampleEnv (sampleState true []) ∅
              (VStr "https://a.example/") (VStr "https://b.example/") (VStr "sports")
              (sampleWorld None)) as [_ Hclass]; try reflexivity.
  destruct (Hclass eq_refl) as (s1 & s2 & Hrun & _ & _ & _ & Hactive & Hurl & Hcls & _).
  exists s1, s2. repeat split; assumption.
Defined.

(** X26. With ads on, [setUserModelError] files the error and its caller
    under the [error] key and touches nothing else; [getModel] hands out
    the whole behavioural sub-record, the new entry included, and agrees
    with [getUserModelValue] on every key. *)
Theorem setUserModelError_getModel
    (E : Env) (s : state) (um : gmap string value) (error caller : value) :
  truthy (userModelState.getAdEnabledValue E s) = true ->
  s !! "userModel" = Some (VMap um) ->
  userModelStateRest.getModel s = Ok (VMap um)
  /\ (forall k, userModelState.getUserModelValue s k = Ok (default VUndef (um !! k)))
  /\ exists s',
       userModelStateRest.setUserModelError E s error caller = Ok s'
       /\ userModelStateRest.getModel s'
          = Ok (VMap (<[ "error" := obj [("caller", caller); ("error", error)] ]> um))
       /\ (forall k, k <> "error" ->
             userModelState.getUserModelValue s' k = userModelState.getUserModelValue s k)
       /\ userModelState.getAdEnabledValue E s' = userModelState.getAdEnabledValue E s.
Proof.
  intros Hen Hum.
  assert (Hmodel : forall (s0 : state) (um0 : gmap string value),
            s0 !! "userModel" = Some (VMap um0) ->
            userModelStateRest.getModel s0 = Ok (VMap um0)
            /\ forall k, userModelState.getUserModelValue s0 k
                         = Ok (default VUndef (um0 !! k))).
  { intros s0 um0 H0. split.
    - unfold userModelStateRest.getModel.
      rewrite (validateState_Ok s0 um0 H0). simpl mbind. rewrite H0. reflexivity.
    - intros k. unfold userModelState.getUserModelValue.
      rewrite (validateState_Ok s0 um0 H0). simpl mbind.
      rewrite (getIn_userModel s0 um0) by exact H0. reflexivity. }
  destruct (Hmodel s um Hum) as [Hall Hkeys].
  split; [exact Hall |]. split; [exact Hkeys |].
  set (um' := <[ "error" := obj [("caller", caller); ("error", error)] ]> um).
  exists (<[ "userModel" := VMap um' ]> s).
  destruct (Hmodel (<[ "userModel" := VMap um' ]> s) um') as [Hall' Hkeys'];
    [apply lookup_insert_eq |].
  split; [| split; [exact Hall' | split]].
  - unfold userModelStateRest.setUserModelError. rewrite Hen. cbn [negb].
    apply validated. exact Hum.
  - intros k Hk. rewrite Hkeys', Hkeys. unfold um'.
    rewrite lookup_insert_ne by congruence. reflexivity.
  - apply getAdEnabledValue_insert_userModel.
Qed.

Lemma setUserModelError_getModel_witness :
  exists s',
    userModelStateRest.setUserModelError sampleEnv (sampleState true [])
      (VStr "boom") (VStr "classifyPage") = Ok s'
    /\ userModelStateRest.getModel s'
       = Ok (VMap (<[ "error" := obj [("caller", VStr "classifyPage");
                                       ("error", VStr "boom")] ]> ∅)).
Proof.
  destruct (setUserModelError_getModel sampleEnv (sampleState true []) ∅
              (VStr "boom") (VStr "classifyPage"))
    as (_ & _ & s' & Hrun & Hmodel & _); [reflexivity | reflexivity |].
  exists s'. split; assumption.
Defined.

(** * Further properties of the engine *)

(** ** Serving: refusals and surveys *)

Lemma historyRespectsRollingTimeConstraint_runs
    (E : Env) (history : value) (window : Z) (cap : value) (w : World) :
  exists b, userModelState.historyRespectsRollingTimeConstraint E history window cap w
            = Ok (b, tick w).
Proof.
  unfold userModelState.historyRespectsRollingTimeConstraint,
    userModelState.unixTimeNowSeconds, getTime, mbind, M_bind, mret, M_ret.
  eexists. reflexivity.
Qed.

Lemma allowedToShowAdBasedOnHistory_runs (E : Env) (s : state) (w : World) :
  exists b, userModelState.allowedToShowAdBasedOnHistory E s w = Ok (b, tick (tick w)).
Proof.
  unfold userModelState.allowedToShowAdBasedOnHistory.
  set (history := js_or _ _).
  destruct (historyRespectsRollingTimeConstraint_runs E history (60 * 60)
              (getSetting E (ADS_PER_HOUR E)) w) as [b1 H1].
  destruct (historyRespectsRollingTimeConstraint_runs E history (24 * (60 * 60))
              (getSetting E (ADS_PER_DAY E)) (tick w)) as [b2 H2].
  unfold mbind at 1, M_bind at 1. rewrite H1. cbv beta iota.
  unfold mbind at 1, M_bind at 1. rewrite H2. cbv beta iota.
  destruct (negb b1 || negb b2); eexists; reflexivity.
Qed.

Lemma noop_gateClosed (E : Env) (s : state) (w : World) :
  ~ gateOpen E s w -> userModel.noop E s w = Ok (true, w).
Proof.
  unfold gateOpen, userModel.noop, getWorld, mbind, M_bind, mret, M_ret.
  intros Hclosed.
  destruct (truthy (matrixData w)), (truthy (priorData w)),
    (truthy (userModelState.getAdEnabledValue E s)); try reflexivity.
  exfalso. apply Hclosed. auto.
Qed.

(** X8. [checkReadyAdServe] refuses before it looks at surveys or the
    catalog: behind a closed gate it returns the state with no event at
    all; out of the foreground it logs a not-served event without reading
    the clock; when the rate limiter says no it logs a not-served event.
    The state is returned as it was given in all three cases.  The
    foreground flag is whatever [appFocused] was last told, so a call that
    follows [appFocused] with a falsy flag is refused. *)
Theorem checkReadyAdServe_refuses
    (E : Env) (s : state) (windowId : value) (w : World) :
  (~ gateOpen E s w -> userModel.checkReadyAdServe E s windowId w = Ok (s, w))
  /\ (gateOpen E s w -> truthy (foregroundP w) = false ->
      exists w',
        userModel.checkReadyAdServe E s windowId w = Ok (s, w')
        /\ trace w' = trace w ++ [OnUserModelLog "Ad not served"
                                    (obj [("reason", VStr "not in foreground")])]
        /\ ticks w' = ticks w)
  /\ (gateOpen E s w -> truthy (foregroundP w) = true ->
      userModelState.allowedToShowAdBasedOnHistory E s w = Ok (false, tick (tick w)) ->
      exists w',
        userModel.checkReadyAdServe E s windowId w = Ok (s, w')
        /\ trace w' = trace w ++ [OnUserModelLog "Ad not served"
                                    (obj [("reason", VStr "not allowed based on history")])])
  /\ (gateOpen E s w ->
      forall focusP, truthy focusP = false ->
      exists w1 w2,
        userModelRest.appFocused s focusP w = Ok (s, w1)
        /\ userModel.checkReadyAdServe E s windowId w1 = Ok (s, w2)
        /\ trace w2 = trace w ++ [OnUserModelLog "Ad not served"
                                    (obj [("reason", VStr "not in foreground")])]).
Proof.
  assert (Hfg : forall w0, gateOpen E s w0 -> truthy (foregroundP w0) = false ->
            exists w',
              userModel.checkReadyAdServe E s windowId w0 = Ok (s, w')
              /\ trace w' = trace w0 ++ [OnUserModelLog "Ad not served"
                                           (obj [("reason", VStr "not in foreground")])]
              /\ ticks w' = ticks w0).
  { intros w0 Hgate Hback. unfold userModel.checkReadyAdServe.
    rewrite bind_noop_open by exact Hgate. cbv beta iota.
    unfold mbind at 1, M_bind at 1. unfold getWorld at 1. cbv beta iota.
    rewrite Hback. cbn [negb].
    eexists. split; [reflexivity |]. split; reflexivity. }
  split; [| split; [| split]].
  - intros Hclosed. unfold userModel.checkReadyAdServe.
    unfold mbind at 1, M_bind at 1. rewrite (noop_gateClosed E s w Hclosed). reflexivity.
  - apply Hfg.
  - intros Hgate Hfront Hno. unfold userModel.checkReadyAdServe.
    rewrite bind_noop_open by exact Hgate. cbv beta iota.
    unfold mbind at 1, M_bind at 1. unfold getWorld at 1. cbv beta iota.
    rewrite Hfront. cbn [negb].
    unfold mbind at 1, M_bind at 1. rewrite Hno. cbv beta iota. cbn [negb].
    eexists. split; reflexivity.
  - intros Hgate focusP Hfalsy.
    set (w1 := {| initP := initP w; foregroundP := focusP;
                  matrixData := matrixData w; priorData := priorData w;
                  sampleAdFeed := sampleAdFeed w;
                  lastSingleClassification := lastSingleClassification w;
                  collectActivityId := collectActivityId w;
                  ticks := ticks w; draws := draws w; idents := idents w;
                  timers := timers w; trace := trace w |}).
    destruct (Hfg w1) as (w2 & Hrun & Htrace & _); [exact Hgate | exact Hfalsy |].
    exists w1, w2. split; [reflexivity |]. split; [exact Hrun | exact Htrace].
Qed.

Lemma checkReadyAdServe_refuses_witness :
  let s := sampleState true [] in
  exists w1 w2,
    userModelRest.appFocused s (VBool false) (sampleWorld None) = Ok (s, w1)
    /\ userModel.checkReadyAdServe sampleEnv s (VNum 1) w1 = Ok (s, w2)
    /\ trace w2 = [OnUserModelLog "Ad not served"
                     (obj [("reason", VStr "not in foreground")])].
Proof.
  intros s.
  destruct (checkReadyAdServe_refuses sampleEnv s (VNum 1) (sampleWorld None))
    as (_ & _ & _ & Hfocus).
  apply (Hfocus ltac:(repeat split) (VBool false)). reflexivity.
Defined.

Lemma findAvailable_spec (surveys : list value) (i : nat) (m : gmap string value) :
  userModel.findAvailable surveys = Some (i, m) ->
  surveys !! i = Some (VMap m)
  /\ m !! "status" = Some (VStr "available")
  /\ forall j m', (j < i)%nat -> surveys !! j = Some (VMap m') ->
                  m' !! "status" <> Some (VStr "available").
Proof.
  revert i. induction surveys as [|x rest IH]; intros i; [discriminate |].
  assert (Hrest : prod_map S id <$> userModel.findAvailable rest = Some (i, m) ->
            exists i', i = S i' /\ userModel.findAvailable rest = Some (i', m)).
  { destruct (userModel.findAvailable rest) as [[i' m']|]; [| discriminate].
    intros [= <- <-]. eauto. }
  assert (Hlater : forall i', userModel.findAvailable rest = Some (i', m) ->
            (forall m', x = VMap m' -> m' !! "status" <> Some (VStr "available")) ->
            (x :: rest) !! S i' = Some (VMap m)
            /\ m !! "status" = Some (VStr "available")
            /\ forall j m', (j < S i')%nat -> (x :: rest) !! j = Some (VMap m') ->
                            m' !! "status" <> Some (VStr "available")).
  { intros i' Hfind Hx. destruct (IH i' Hfind) as (Hat & Hst & Hbefore).
    split; [exact Hat |]. split; [exact Hst |].
    intros [|j] m' Hj Hlook.
    - apply Hx. simpl in Hlook. congruence.
    - apply (Hbefore j); [lia | exact Hlook]. }
  simpl. destruct x as [| | | | | |mx];
    try (intros Hf; destruct (Hrest Hf) as (i' & -> & Hfind);
         apply Hlater; [exact Hfind | intros ? [=]]).
  case_bool_decide as Hst.
  - intros [= <- <-]. split; [reflexivity |]. split; [exact Hst |]. intros; lia.
  - intros Hf. destruct (Hrest Hf) as (i' & -> & Hfind).
    apply Hlater; [exact Hfind |]. intros m' [= <-]. exact Hst.
Qed.

Lemma getUserSurveyQueue_insert (s : state) (um : gmap string value) (q : list value) :
  userModelState.getUserSurveyQueue
    (<[ "userModel" := VMap (<[ "userSurveyQueue" := VList q ]> um) ]> s) = VList q.
Proof.
  unfold userModelState.getUserSurveyQueue.
  rewrite (getIn_userModel _ (<[ "userSurveyQueue" := VList q ]> um))
    by apply lookup_insert_eq.
  rewrite lookup_insert_eq. reflexivity.
Qed.

Lemma setUserSurveyQueue_spec
    (E : Env) (s : state) (um : gmap string value) (q : value) :
  truthy (userModelState.getAdEnabledValue E s) = true ->
  s !! "userModel" = Some (VMap um) ->
  userModelState.setUserSurveyQueue E s q
  = Ok (<[ "userModel" := VMap (<[ "userSurveyQueue" := q ]> um) ]> s).
Proof.
  intros Hen Hum. unfold userModelState.setUserSurveyQueue.
  rewrite Hen. cbn [negb]. apply setIn_userModel. exact Hum.
Qed.

(** X9. A waiting survey goes before any ad.  When the call is let
    through and the survey queue holds an available survey, the first such
    survey is marked [display] and stamped with the time, the queue is
    stored with that one entry replaced, and the survey is shown under the
    survey notification type with a fresh identifier.  No random draw is
    made, the catalog is not consulted and the history of shown ads stays
    as it was. *)
Theorem survey_preempts_ad
    (E : Env) (s : state) (um : gmap string value) (windowId : value) (w : World)
    (surveys : list value) (i : nat) (survey : gmap string value) :
  gateOpen E s w ->
  truthy (foregroundP w) = true ->
  userModelState.allowedToShowAdBasedOnHistory E s w = Ok (true, tick (tick w)) ->
  s !! "userModel" = Some (VMap um) ->
  userModelState.getUserSurveyQueue s = VList surveys ->
  userModel.findAvailable surveys = Some (i, survey) ->
  let shown := <[ "status_at" := VStr (toISOString E (clock E (S (S (ticks w))))) ]>
                 (<[ "status" := VStr "display" ]> survey) in
  (surveys !! i = Some (VMap survey)
   /\ survey !! "status" = Some (VStr "available")
   /\ forall j m, (j < i)%nat -> surveys !! j = Some (VMap m) ->
                  m !! "status" <> Some (VStr "available"))
  /\ exists s' w',
       userModel.checkReadyAdServe E s windowId w = Ok (s', w')
       /\ userModelState.getUserSurveyQueue s' = VList (<[ i := VMap shown ]> surveys)
       /\ trace w'
          = trace w ++ [NativeNotificationCreate windowId
                          (default VUndef (survey !! "title"))
                          (default VUndef (survey !! "description"))
                          (default VUndef (survey !! "url"))
                          (VStr (uuidv4 E (idents w)))
                          (js_or (VStr (SURVEYS E)) (VStr (ADS E)));
                        OnUserModelLog (SURVEY_SHOWN E) (VMap shown)]
       /\ draws w' = draws w
       /\ getIn ["userModel"; "adsShownHistory"] s'
          = getIn ["userModel"; "adsShownHistory"] s.
Proof.
  intros Hgate Hfront Hallowed Hum Hq Hfind shown.
  split; [exact (findAvailable_spec surveys i survey Hfind) |].
  pose proof (gateOpen_enabled E s w Hgate) as Hen.
  exists (<[ "userModel" :=
               VMap (<[ "userSurveyQueue" := VList (<[ i := VMap shown ]> surveys) ]> um) ]> s).
  eexists. split; [| split; [apply getUserSurveyQueue_insert | split; [| split]]].
  - unfold userModel.checkReadyAdServe.
    rewrite bind_noop_open by exact Hgate. cbv beta iota.
    unfold mbind at 1, M_bind at 1. unfold getWorld at 1. cbv beta iota.
    rewrite Hfront. cbn [negb].
    unfold mbind at 1, M_bind at 1. rewrite Hallowed. cbv beta iota. cbn [negb].
    rewrite Hq. unfold mbind at 1, M_bind at 1. unfold mret at 1, M_ret at 1.
    cbv beta iota. rewrite Hfind. cbv beta iota zeta.
    rewrite bind_getTime. cbv beta zeta.
    rewrite (setUserSurveyQueue_spec E s um) by assumption.
    rewrite bind_liftR_Ok. cbv beta.
    reflexivity.
  - cbn [trace emit]. simpl. rewrite <- app_assoc. simpl.
    assert (Hkeep : forall k : string, k <> "status" -> k <> "status_at" ->
              default VUndef (shown !! k) = default VUndef (survey !! k)).
    { intros k H1 H2. unfold shown. rewrite !lookup_insert_ne by congruence. reflexivity. }
    rewrite <- !Hkeep by discriminate. reflexivity.
  - reflexivity.
  - rewrite (getIn_userModel _ (<[ "userSurveyQueue" := VList (<[ i := VMap shown ]> surveys) ]> um))
      by apply lookup_insert_eq.
    rewrite (getIn_userModel s um) by exact Hum.
    rewrite lookup_insert_ne by discriminate. reflexivity.
Qed.

Lemma survey_preempts_ad_witness :
  let closed := obj [("status", VStr "closed")] in
  let waiting : gmap string value := {[ "status" := VStr "available" ]} in
  let s := sampleState true [("userSurveyQueue", VList [closed; VMap waiting])] in
  exists s' w',
    userModel.checkReadyAdServe sampleEnv s (VNum 1) (sampleWorld None) = Ok (s', w')
    /\ draws w' = 0%nat.
Proof.
  intros closed waiting s.
  destruct (survey_preempts_ad sampleEnv s
              (list_to_map [("userSurveyQueue", VList [closed; VMap waiting])])
              (VNum 1) (sampleWorld None) [closed; VMap waiting] 1 waiting)
    as (_ & s' & w' & Hrun & _ & _ & Hdraws & _).
  - repeat split.
  - reflexivity.
  - reflexivity.
  - reflexivity.
  - reflexivity.
  - reflexivity.
  - exists s', w'. split; [exact Hrun | exact Hdraws].
Defined.

(** ** The draw *)

(** X10. [randomKey] takes one draw.  On an array of fewer than 2^31
    entries that is not empty, and a draw that is a double in [0, 1), it
    returns an index of the array: the integer part of the product of the
    length and the draw, as the multiplication of doubles rounds it.  On
    an empty array it returns no index. *)
Theorem randomKey_in_range (E : Env) {A} (dictionary : list A) (w : World) (m k : Z) :
  random E (draws w) = (m, k) ->
  isDraw (m, k) ->
  Z.of_nat (length dictionary) < 2 ^ 31 ->
  exists r,
    userModel.randomKey E dictionary w = Ok (r, draw w)
    /\ (dictionary = [] -> r = None)
    /\ (dictionary <> [] ->
        exists i, r = Some i
                  /\ (i < length dictionary)%nat
                  /\ Z.of_nat i
                     = userModel.roundDouble (Z.of_nat (length dictionary) * m) / 2 ^ k).
Proof. apply randomKey_run. Qed.

Lemma randomKey_in_range_witness :
  userModel.randomKey roundingEnv (replicate 11 "ad") (sampleWorld None)
  = Ok (Some 3%nat, draw (sampleWorld None)).
Proof.
  destruct (randomKey_in_range roundingEnv (replicate 11 "ad") (sampleWorld None)
              1228254443828317 52) as (r & Hrun & _ & Hsome).
  - reflexivity.
  - vm_compute. repeat split; discriminate.
  - reflexivity.
  - destruct (Hsome ltac:(discriminate)) as (i & -> & _ & Hi).
    assert (Hthree : userModel.roundDouble
                       (Z.of_nat (length (replicate 11 "ad")) * 1228254443828317) / 2 ^ 52
                     = 3) by (vm_compute; reflexivity).
    rewrite Hthree in Hi. rewrite Hrun.
    replace i with 3%nat by lia. reflexivity.
Defined.

(** X11. When the selection is reached and the pool of unseen ads is not
    empty, the ad that is served is an entry of that pool, the one at the
    index the draw picks.  When its text, link and advertiser are all
    there, a notification with the ad's uuid is created under the ad
    notification type, an ad-shown event is logged, the time in seconds is
    appended to the history of shown ads (cut to its last 99 entries) and
    the seen-set is left alone: showing an ad does not mark it seen.  When
    one of the three is missing the state is returned as it was. *)
Theorem served_ad_is_unseen
    (E : Env) (s : state) (um : gmap string value) (windowId : value) (w w1 : World)
    (categories : catalog) (category : string) (k : nat) (matched : list ad) :
  reachesSelection E s w categories category w1 ->
  resolvesTo categories category k matched ->
  s !! "userModel" = Some (VMap um) ->
  adsNotSeen s matched <> [] ->
  isDraw (random E (draws w1)) ->
  Z.of_nat (length matched) < 2 ^ 31 ->
  let winner := prefixName (userModel.split_on "-"%char category) k in
  exists (i : nat) (payload : ad),
    adsNotSeen s matched !! i = Some payload
    /\ Z.of_nat i = drawnIndex E w1 (length (adsNotSeen s matched))
    /\ payload ∈ matched
    /\ ~ seenIn s payload
    /\ (complete payload = true ->
        exists s' w',
          userModel.checkReadyAdServe E s windowId w = Ok (s', w')
          /\ trace w'
             = trace w1 ++ [notificationOf E windowId payload;
                            adShownEvent E category winner i payload]
          /\ historyUnder ["userModel"; "adsShownHistory"] s'
             = lastN userModelState.maxRowsInAdsShownHistory
                 (historyUnder ["userModel"; "adsShownHistory"] s
                    ++ [VNum ((clock E (ticks w1) + 500) `div` 1000)])
          /\ userModelState.getAdUUIDSeen s' = userModelState.getAdUUIDSeen s)
    /\ (complete payload = false ->
        exists w',
          userModel.checkReadyAdServe E s windowId w = Ok (s, w')
          /\ trace w' = trace w1 ++ [incompleteEvent category winner i payload]).
Proof.
  intros Hreach Hres Hum Hpool Hdraw Hlen winner.
  destruct (checkReadyAdServe_serves E s um windowId w w1 categories category k matched
              Hreach Hres Hum Hdraw Hlen) as [Hserve _].
  destruct (Hserve Hpool)
    as (i & payload & s' & w' & Hat & Hidx & Hrun & Htrace & Hseen & Hinc & Hfull).
  assert (Hin : payload ∈ adsNotSeen s matched)
    by (eapply list_elem_of_lookup_2; exact Hat).
  apply list_elem_of_filter in Hin as [Hunseen Hin].
  exists i, payload.
  split; [exact Hat |]. split; [exact Hidx |]. split; [exact Hin |].
  split; [exact Hunseen |].
  fold winner in Htrace. unfold dispatched in Htrace. split.
  - intros Hc. rewrite Hc in Htrace. exists s', w'.
    split; [exact Hrun |]. split; [exact Htrace |]. split; [exact (Hfull Hc) | exact Hseen].
  - intros Hc. rewrite Hc in Htrace. exists w'.
    rewrite (Hinc Hc) in Hrun. split; [exact Hrun | exact Htrace].
Qed.

Lemma served_ad_is_unseen_witness :
  let a := {| uuid := "a"; notificationText := VStr "text";
              notificationURL := VStr "https://a.example"; advertiser := VStr "A" |} in
  let b := {| uuid := "b"; notificationText := VStr "text";
              notificationURL := VStr "https://b.example"; advertiser := VStr "B" |} in
  let s := sampleState true [("adsUUIDSeen", obj [("a", VNum 1)])] in
  let w := sampleWorld (Some {[ "sports" := [a; b] ]}) in
  exists s' w',
    userModel.checkReadyAdServe sampleEnv s VNull w = Ok (s', w')
    /\ trace w' = [notificationOf sampleEnv VNull b;
                   adShownEvent sampleEnv "sports-rugby-worldcup" "sports" 0 b]
    /\ historyUnder ["userModel"; "adsShownHistory"] s' = [VNum 1000002].
Proof.
  intros a b s w.
  destruct (served_ad_is_unseen sampleEnv s
              (list_to_map [("adsUUIDSeen", obj [("a", VNum 1)])]) VNull w (tick (tick w))
              {[ "sports" := [a; b] ]} "sports-rugby-worldcup" 1%nat [a; b])
    as (i & payload & Hat & Hi & _ & _ & Hfull & _).
  - repeat split; try reflexivity.
    + exists []. split; reflexivity.
    + exists (VList [VStr "sports-rugby-worldcup"]), (VList []). repeat split; reflexivity.
    + discriminate.
  - split; [simpl; lia |]. split; [reflexivity |].
    intros k' Hk'. simpl in Hk'.
    destruct k' as [|[|[|[|k']]]]; try lia; split; reflexivity.
  - reflexivity.
  - discriminate.
  - vm_compute. repeat split; discriminate.
  - reflexivity.
  - assert (Hzero : drawnIndex sampleEnv (tick (tick w)) (length (adsNotSeen s [a; b])) = 0)
      by (vm_compute; reflexivity).
    rewrite Hzero in Hi.
    assert (i = 0%nat) as -> by lia.
    injection Hat as <-.
    destruct (Hfull eq_refl) as (s' & w' & Hrun & Htrace & Hhist & _).
    exists s', w'. split; [exact Hrun |]. split; [exact Htrace | exact Hhist].
Defined.

(** ** The activity timer *)

(** X12. [collectActivityAsNeeded] never changes the state; it keeps at
    most one timer.  With ads off it cancels the timer it holds and forgets
    it.  With ads on it leaves a held timer alone and dispatches nothing;
    without one it arms exactly one, whose delay is the hour interval when
    the queue is empty and never exceeds the hour interval otherwise. *)
Theorem collectActivityAsNeeded_timer
    (E : Env) (s : state) (adEnabled : value) (w : World) :
  (truthy adEnabled = false ->
   (forall id, collectActivityId w = Some id ->
      exists w', userModel.collectActivityAsNeeded E s adEnabled w = Ok (s, w')
                 /\ trace w' = trace w ++ [ClearTimeout id]
                 /\ collectActivityId w' = None)
   /\ (collectActivityId w = None ->
       userModel.collectActivityAsNeeded E s adEnabled w = Ok (s, w)))
  /\ (truthy adEnabled = true ->
      (is_Some (collectActivityId w) ->
       userModel.collectActivityAsNeeded E s adEnabled w = Ok (s, w))
      /\ (forall q, collectActivityId w = None ->
            userModelState.getReportingEventQueue s = VList q ->
            exists w' delay,
              userModel.collectActivityAsNeeded E s adEnabled w = Ok (s, w')
              /\ trace w' = trace w ++ [SetTimeout (timers w) delay]
              /\ collectActivityId w' = Some (timers w)
              /\ (q = [] -> delay = Some (userModel.oneHour E))
              /\ (forall d, delay = Some d -> d <= userModel.oneHour E))).
Proof.
  split; intros Hon.
  - split.
    + intros id Hid. unfold userModel.collectActivityAsNeeded.
      unfold mbind at 1, M_bind at 1. unfold getWorld at 1. cbv beta iota.
      rewrite Hon, Hid. cbn [negb].
      eexists. split; [reflexivity |]. split; reflexivity.
    + intros Hnone. unfold userModel.collectActivityAsNeeded.
      unfold mbind at 1, M_bind at 1. unfold getWorld at 1. cbv beta iota.
      rewrite Hon, Hnone. reflexivity.
  - split.
    + intros [id Hid]. unfold userModel.collectActivityAsNeeded.
      unfold mbind at 1, M_bind at 1. unfold getWorld at 1. cbv beta iota.
      rewrite Hon, Hid. reflexivity.
    + intros q Hnone Hq. unfold userModel.collectActivityAsNeeded.
      unfold mbind at 1, M_bind at 1. unfold getWorld at 1. cbv beta iota.
      rewrite Hon, Hnone, Hq. cbn [negb userModel.lastOf].
      rewrite bind_liftR_Ok. cbv beta.
      destruct (truthy (default VUndef (last q))) eqn:Hmark.
      * unfold mbind at 1, M_bind at 1. rewrite bind_getTime.
        assert (Hstamp : exists stamp, prop (default VUndef (last q)) "stamp" = Ok stamp).
        { destruct (default VUndef (last q)); try discriminate Hmark; eexists; reflexivity. }
        destruct Hstamp as [stamp Hstamp]. rewrite Hstamp, bind_liftR_Ok. cbv beta.
        unfold mret at 1, M_ret at 1. cbv beta iota.
        eexists _, _. split; [reflexivity |]. split; [reflexivity |].
        split; [reflexivity |]. split.
        -- intros ->. discriminate Hmark.
        -- intros d. destruct (dateGetTime E stamp) as [t|]; [| discriminate].
           intros [= <-].
           destruct (Z.ltb_spec (userModel.oneHour E) (clock E (ticks w) - t)); lia.
      * unfold mbind at 1, M_bind at 1. unfold mret at 1, M_ret at 1. cbv beta iota.
        eexists _, _. split; [reflexivity |]. split; [reflexivity |].
        split; [reflexivity |]. split; [reflexivity |].
        intros d [= <-]. lia.
Qed.

Lemma collectActivityAsNeeded_timer_witness :
  exists w' delay,
    userModel.collectActivityAsNeeded sampleEnv (sampleState true []) (VBool true)
      (sampleWorld None) = Ok (sampleState true [], w')
    /\ trace w' = [SetTimeout 0 delay]
    /\ collectActivityId w' = Some 0%nat
    /\ delay = Some 3600000.
Proof.
  destruct (collectActivityAsNeeded_timer sampleEnv (sampleState true []) (VBool true)
              (sampleWorld None)) as [_ Hon].
  destruct (Hon eq_refl) as [_ Harm].
  destruct (Harm [] eq_refl eq_refl) as (w' & delay & Hrun & Htrace & Hid & Hempty & _).
  exists w', delay. split; [exact Hrun |]. split; [exact Htrace |].
  split; [exact Hid |]. exact (Hempty eq_refl).
Defined.

(** ** Upload attempts *)

Lemma last_markedQueue (E : Env) (w : World) (events : list value)
    (mark : gmap string value) :
  last events = Some (VMap mark) ->
  last (markedQueue E w events mark) = Some (VMap (markedRecord E w mark)).
Proof.
  intros Hlast. unfold markedQueue, markedRecord.
  destruct (truthy (default VUndef (mark !! "uuid"))); [exact Hlast |].
  rewrite last_lookup, length_insert. apply list_lookup_insert_eq.
  destruct events; [discriminate | simpl; lia].
Qed.

Lemma reportIdOf_markedRecord (E : Env) (w : World) (mark : gmap string value) :
  default VUndef (markedRecord E w mark !! "uuid") = reportIdOf E w mark.
Proof.
  unfold markedRecord, reportIdOf.
  destruct (truthy (default VUndef (mark !! "uuid"))); [reflexivity |].
  rewrite lookup_insert_eq. reflexivity.
Qed.

Lemma markedRecord_has_uuid (E : Env) (w : World) (mark : gmap string value) :
  is_Some (markedRecord E w mark !! "uuid").
Proof.
  unfold markedRecord.
  destruct (truthy (default VUndef (mark !! "uuid"))) eqn:Hid.
  - destruct (mark !! "uuid"); [eauto | discriminate Hid].
  - rewrite lookup_insert_eq. eauto.
Qed.

Lemma markedRecord_stamp (E : Env) (w : World) (mark : gmap string value) :
  markedRecord E w mark !! "stamp" = mark !! "stamp".
Proof.
  unfold markedRecord. destruct (truthy _); [reflexivity |].
  apply lookup_insert_ne. discriminate.
Qed.

(** What one upload attempt does, record by record. *)
Lemma collectActivity_run
    (E : Env) (s : state) (w : World) (events : list value) (mark : gmap string value) :
  gateOpen E s w ->
  userModelState.getReportingEventQueue s = VList events ->
  last events = Some (VMap mark) ->
  exists s1 w1,
    userModel.collectActivity E s w = Ok (s1, w1)
    /\ userModelState.getReportingEventQueue s1 = VList (markedQueue E w events mark)
    /\ trace w1
       = trace w ++ [Roundtrip "PUT" (reportPath E s)
                       (reportPayload E (reportIdOf E w mark)
                          (clock E (ticks w)) (markedQueue E w events mark))
                       (CollectActivityCallback (default VUndef (mark !! "stamp"))
                          (reportPath E s))]
    /\ ticks w1 = S (ticks w)
    /\ idents w1 = (if truthy (default VUndef (mark !! "uuid")) then idents w
                    else S (idents w))
    /\ collectActivityId w1 = collectActivityId w
    /\ userModelState.getAdUUID s1 = userModelState.getAdUUID s
    /\ gateOpen E s1 w1.
Proof.
  intros Hgate Hq Hlast.
  assert (Hne : events <> []) by (intros ->; discriminate).
  destruct (queue_nonempty_inv s events Hq Hne) as (um & Hum & Hstored).
  pose proof (gateOpen_enabled E s w Hgate) as Hen.
  unfold userModel.collectActivity.
  rewrite bind_noop_open by exact Hgate. cbv beta iota.
  rewrite Hq, (truthy_last events mark Hlast).
  rewrite bind_liftR_Ok. cbv beta iota.
  change (negb (truthy (VMap mark))) with false. cbv iota.
  unfold markedQueue, markedRecord, reportIdOf, reportPath, reportPayload.
  destruct (truthy (default VUndef (mark !! "uuid"))) eqn:Hid.
  - cbn [negb].
    eexists s, _. split; [reflexivity |]. split; [exact Hq |].
    split; [reflexivity |]. split; [reflexivity |]. split; [reflexivity |].
    split; [reflexivity |]. split; [reflexivity |]. exact Hgate.
  - cbn [negb].
    unfold newUuid, mbind, M_bind. cbv beta iota.
    rewrite (setReportingEventQueue_spec E s um) by assumption.
    rewrite liftR_Ok. cbv beta iota.
    eexists _, _. split; [reflexivity |].
    split; [apply getReportingEventQueue_insert |].
    split; [cbn [trace emit getTime]; rewrite lookup_insert_eq; reflexivity |].
    split; [reflexivity |]. split; [reflexivity |]. split; [reflexivity |].
    split.
    + unfold userModelState.getAdUUID.
      rewrite (getIn_userModel _ (<[ "reportingEventQueue" := _ ]> um))
        by apply lookup_insert_eq.
      rewrite (getIn_userModel s um) by exact Hum.
      rewrite lookup_insert_ne by discriminate. reflexivity.
    + destruct Hgate as (Hm & Hp & _). repeat split; try assumption.
      rewrite getAdEnabledValue_insert_userModel. exact Hen.
Qed.

(** X13. With nothing queued, [collectActivity] does not touch the
    network or the state: it asks for [uploadLogs] with no watermark and the
    day interval.  That [uploadLogs] in turn leaves the state as it is,
    re-arms the timer with the day interval when one is held, and polls for
    surveys. *)
Theorem collectActivity_empty_queue (E : Env) (s : state) (w : World) :
  gateOpen E s w ->
  userModelState.getReportingEventQueue s = VList [] ->
  exists w1 w2 path,
    userModel.collectActivity E s w = Ok (s, w1)
    /\ trace w1 = trace w ++ [OnUserModelUploadLogs VNull (userModel.oneDay E)]
    /\ idents w1 = idents w
    /\ userModel.uploadLogs E s VNull (userModel.oneDay E) w1 = Ok (s, w2)
    /\ trace w2 = trace w1 ++ rearmed w (userModel.oneDay E)
                    ++ [Roundtrip "GET" path VUndef (UploadLogsCallback path)].
Proof.
  intros Hgate Hq.
  set (w1 := {| initP := initP w; foregroundP := foregroundP w;
                matrixData := matrixData w; priorData := priorData w;
                sampleAdFeed := sampleAdFeed w;
                lastSingleClassification := lastSingleClassification w;
                collectActivityId := collectActivityId w;
                ticks := ticks w; draws := draws w; idents := idents w;
                timers := timers w;
                trace := trace w ++ [OnUserModelUploadLogs VNull (userModel.oneDay E)] |}).
  assert (Hgate1 : gateOpen E s w1) by exact Hgate.
  destruct (uploadLogs_keeps E s w1 VNull (userModel.oneDay E) Hgate1 eq_refl)
    as (w2 & path & Hup & Htrace & _).
  exists w1, w2, path.
  split; [| split; [reflexivity | split; [reflexivity | split; [exact Hup | exact Htrace]]]].
  unfold userModel.collectActivity.
  rewrite bind_noop_open by exact Hgate. cbv beta iota.
  rewrite Hq. reflexivity.
Qed.

Lemma collectActivity_empty_queue_witness :
  exists w1 w2 path,
    userModel.collectActivity sampleEnv (sampleState true []) (sampleWorld None)
    = Ok (sampleState true [], w1)
    /\ trace w1 = [OnUserModelUploadLogs VNull 86400000]
    /\ userModel.uploadLogs sampleEnv (sampleState true []) VNull 86400000 w1
       = Ok (sampleState true [], w2)
    /\ trace w2 = trace w1 ++ [Roundtrip "GET" path VUndef (UploadLogsCallback path)].
Proof.
  destruct (collectActivity_empty_queue sampleEnv (sampleState true []) (sampleWorld None))
    as (w1 & w2 & path & Hrun & Htrace & _ & Hup & Htrace2);
    [repeat split | reflexivity |].
  exists w1, w2, path. repeat split; assumption.
Defined.

(** X14. An upload attempt stamps the last queued record with a report
    identifier, keeping the one it has when there is one.  As long as the
    queue is not touched in between, a second attempt uploads the same
    records under the same identifier to the same path and draws no new
    identifier: a retry repeats the report, it does not start another. *)
Theorem report_id_is_stable
    (E : Env) (s : state) (w : World) (events : list value) (mark : gmap string value) :
  gateOpen E s w ->
  userModelState.getReportingEventQueue s = VList events ->
  last events = Some (VMap mark) ->
  uuidv4 E (idents w) <> "" ->
  let id := reportIdOf E w mark in
  let sent := markedQueue E w events mark in
  let k := CollectActivityCallback (default VUndef (mark !! "stamp")) (reportPath E s) in
  truthy id = true
  /\ last sent = Some (VMap (markedRecord E w mark))
  /\ default VUndef (markedRecord E w mark !! "uuid") = id
  /\ exists s1 w1 w2,
       userModel.collectActivity E s w = Ok (s1, w1)
       /\ trace w1 = trace w ++ [Roundtrip "PUT" (reportPath E s)
                                   (reportPayload E id (clock E (ticks w)) sent) k]
       /\ userModelState.getReportingEventQueue s1 = VList sent
       /\ userModel.collectActivity E s1 w1 = Ok (s1, w2)
       /\ trace w2 = trace w1 ++ [Roundtrip "PUT" (reportPath E s)
                                    (reportPayload E id (clock E (ticks w1)) sent) k]
       /\ idents w2 = idents w1.
Proof.
  intros Hgate Hq Hlast Hfresh id sent k.
  assert (Hid : truthy id = true).
  { unfold id, reportIdOf.
    destruct (truthy (default VUndef (mark !! "uuid"))) eqn:Hown; [exact Hown |].
    apply truthy_str. exact Hfresh. }
  split; [exact Hid |].
  split; [apply last_markedQueue; exact Hlast |].
  split; [apply reportIdOf_markedRecord |].
  destruct (collectActivity_run E s w events mark Hgate Hq Hlast)
    as (s1 & w1 & Hrun & Hq1 & Htrace & _ & _ & _ & Hpath & Hgate1).
  pose proof (last_markedQueue E w events mark Hlast) as Hlast1.
  destruct (collectActivity_run E s1 w1 sent (markedRecord E w mark) Hgate1 Hq1 Hlast1)
    as (s2 & w2 & Hrun2 & _ & Htrace2 & _ & Hidents & _).
  assert (Hown : truthy (default VUndef (markedRecord E w mark !! "uuid")) = true)
    by (rewrite reportIdOf_markedRecord; exact Hid).
  assert (Hsame : s2 = s1 /\ markedQueue E w1 sent (markedRecord E w mark) = sent).
  { unfold markedQueue. rewrite Hown. split; [| reflexivity].
    unfold userModel.collectActivity in Hrun2.
    rewrite bind_noop_open in Hrun2 by exact Hgate1. cbv beta iota in Hrun2.
    rewrite Hq1, (truthy_last _ _ Hlast1), bind_liftR_Ok in Hrun2.
    cbv beta iota in Hrun2.
    change (negb (truthy (VMap (markedRecord E w mark)))) with false in Hrun2.
    cbv iota in Hrun2. rewrite Hown in Hrun2. cbn [negb] in Hrun2.
    inversion Hrun2. reflexivity. }
  destruct Hsame as [-> Hsent].
  exists s1, w1, w2.
  split; [exact Hrun |]. split; [exact Htrace |]. split; [exact Hq1 |].
  split; [exact Hrun2 |]. split.
  - rewrite Htrace2, Hsent. unfold reportPath. rewrite Hpath.
    unfold reportIdOf at 1. rewrite Hown, reportIdOf_markedRecord, markedRecord_stamp.
    reflexivity.
  - rewrite Hidents, Hown. reflexivity.
Qed.

Lemma report_id_is_stable_witness :
  let mark : gmap string value :=
    list_to_map [("type", VStr "focus"); ("stamp", VStr "2018-05-23T11:00:00.000Z")] in
  let s := sampleState true [("reportingEventQueue", VList [VMap mark])] in
  let w := sampleWorld None in
  exists s1 w1 w2,
    userModel.collectActivity sampleEnv s w = Ok (s1, w1)
    /\ userModel.collectActivity sampleEnv s1 w1 = Ok (s1, w2)
    /\ idents w2 = idents w1.
Proof.
  intros mark s w.
  destruct (report_id_is_stable sampleEnv s w [VMap mark] mark)
    as (_ & _ & _ & s1 & w1 & w2 & Hrun & _ & _ & Hrun2 & _ & Hidents).
  - repeat split.
  - reflexivity.
  - reflexivity.
  - discriminate.
  - exists s1, w1, w2. split; [exact Hrun |]. split; [exact Hrun2 | exact Hidents].
Defined.

Lemma js_gt_irrefl (E : Env) (v : value) : js_gt E v v = false.
Proof.
  unfold js_gt.
  assert (Hnum : match toNumber E (toPrimitive E v), toNumber E (toPrimitive E v) with
                 | Some x, Some y => (y <? x)%Z
                 | _, _ => false
                 end = false).
  { destruct (toNumber E (toPrimitive E v)); [apply Z.ltb_irrefl | reflexivity]. }
  destruct (toPrimitive E v) as [| |b|n|x|l|m]; try exact Hnum.
  pose proof (String.compare_antisym x x) as H.
  destruct (String.compare x x); try reflexivity. discriminate H.
Qed.

Lemma markedQueue_filter (E : Env) (w : World) (events : list value)
    (mark : gmap string value) (stamp : value) :
  last events = Some (VMap mark) ->
  mark !! "stamp" = Some stamp ->
  filter (newerThan E stamp) (markedQueue E w events mark)
  = filter (newerThan E stamp) events
  /\ VMap mark ∉ filter (newerThan E stamp) events.
Proof.
  intros Hlast Hstamp.
  assert (Hold : ~ newerThan E stamp (VMap mark)).
  { unfold newerThan. simpl. rewrite Hstamp. simpl. rewrite js_gt_irrefl. discriminate. }
  split.
  - unfold markedQueue. destruct (truthy (default VUndef (mark !! "uuid"))); [reflexivity |].
    apply last_Some in Hlast as [init ->].
    rewrite length_app. simpl length.
    replace (pred (length init + 1)) with (length init + 0)%nat by lia.
    rewrite insert_app_r. simpl. rewrite !filter_app.
    rewrite (filter_cons_False _ (VMap mark)) by exact Hold.
    rewrite filter_cons_False; [reflexivity |].
    unfold newerThan. simpl. rewrite markedRecord_stamp, Hstamp. simpl.
    rewrite js_gt_irrefl. discriminate.
  - intros Hin. apply list_elem_of_filter in Hin as [Hnew _]. contradiction.
Qed.

Lemma filter_none {A} (P : A -> Prop) `{!forall x, Decision (P x)} (l : list A) :
  (forall x, x ∈ l -> ~ P x) -> filter P l = [].
Proof.
  induction l as [|x l IH]; intros Hnone; [reflexivity |].
  rewrite filter_cons_False by (apply Hnone; left).
  apply IH. intros y Hy. apply Hnone. right. exact Hy.
Qed.

Lemma markedQueue_records (E : Env) (w : World) (events : list value)
    (mark : gmap string value) :
  Forall (fun e => isMap e = true) events ->
  Forall (fun e => isMap e = true) (markedQueue E w events mark).
Proof.
  intros Hrec. unfold markedQueue. destruct (truthy _); [exact Hrec |].
  apply Forall_insert; [exact Hrec | reflexivity].
Qed.

(** X15. One successful upload cycle: the attempt, the callback without
    an error and the [uploadLogs] it asks for.  The queue that is left holds
    exactly the records of the old queue whose stamp is strictly greater
    than that of its last record; the last record itself is never among
    them, since a stamp is not greater than itself.  When no record is
    newer than the last one the queue ends up empty. *)
Theorem upload_cycle_prunes_reported
    (E : Env) (s : state) (w : World) (events : list value)
    (mark : gmap string value) (stamp err response : value) :
  gateOpen E s w ->
  truthy err = false ->
  userModelState.getReportingEventQueue s = VList events ->
  Forall (fun e => isMap e = true) events ->
  last events = Some (VMap mark) ->
  mark !! "stamp" = Some stamp ->
  truthy stamp = true ->
  exists s1 w1 w2 s2 w3,
    userModel.collectActivity E s w = Ok (s1, w1)
    /\ userModel.runCollectActivityCallback E stamp (reportPath E s) err response w1
       = Ok (tt, w2)
    /\ trace w2 = trace w1 ++ [OnUserModelUploadLogs stamp (userModel.oneDay E)]
    /\ userModel.uploadLogs E s1 stamp (userModel.oneDay E) w2 = Ok (s2, w3)
    /\ userModelState.getReportingEventQueue s2 = VList (filter (newerThan E stamp) events)
    /\ (VMap mark ∉ filter (newerThan E stamp) events)
    /\ ((forall e, e ∈ events -> ~ newerThan E stamp e) ->
        userModelState.getReportingEventQueue s2 = VList []).
Proof.
  intros Hgate Herr Hq Hrec Hlast Hstamp Htruthy.
  destruct (collectActivity_run E s w events mark Hgate Hq Hlast)
    as (s1 & w1 & Hrun & Hq1 & _ & _ & _ & _ & _ & Hgate1).
  destruct (runCollectActivityCallback_success E stamp (reportPath E s) err response w1
              Herr) as (w2 & Hcb & Htrace & _).
  assert (Hgate2 : gateOpen E s1 w2).
  { unfold userModel.runCollectActivityCallback in Hcb. rewrite Herr in Hcb.
    inversion Hcb; subst w2. exact Hgate1. }
  assert (Hne : markedQueue E w events mark <> []).
  { intros Hnil. pose proof (last_markedQueue E w events mark Hlast) as Hl.
    rewrite Hnil in Hl. discriminate. }
  destruct (queue_nonempty_inv s1 _ Hq1 Hne) as (um1 & Hum1 & _).
  destruct (uploadLogs_prunes E s1 um1 w2 _ stamp (userModel.oneDay E) Hgate2 Hum1 Hq1
              (markedQueue_records E w events mark Hrec) Htruthy)
    as (s2 & w3 & uploaded & path & Hup & Hq2 & _).
  destruct (markedQueue_filter E w events mark stamp Hlast Hstamp) as [Hfilter Hgone].
  rewrite Hfilter in Hq2.
  exists s1, w1, w2, s2, w3.
  split; [exact Hrun |]. split; [exact Hcb |]. split; [exact Htrace |].
  split; [exact Hup |]. split; [exact Hq2 |]. split; [exact Hgone |].
  intros Hnone. rewrite Hq2. f_equal.
  apply filter_none. exact Hnone.
Qed.

Lemma upload_cycle_prunes_reported_witness :
  let older : gmap string value :=
    list_to_map [("type", VStr "focus"); ("stamp", VStr "2018-05-23T10:00:00.000Z")] in
  let mark : gmap string value :=
    list_to_map [("type", VStr "blur"); ("stamp", VStr "2018-05-23T11:00:00.000Z")] in
  let s := sampleState true [("reportingEventQueue", VList [VMap older; VMap mark])] in
  let w := sampleWorld None in
  exists s1 w1 w2 s2 w3,
    userModel.collectActivity sampleEnv s w = Ok (s1, w1)
    /\ userModel.runCollectActivityCallback sampleEnv (VStr "2018-05-23T11:00:00.000Z")
         (reportPath sampleEnv s) VUndef VUndef w1 = Ok (tt, w2)
    /\ userModel.uploadLogs sampleEnv s1 (VStr "2018-05-23T11:00:00.000Z") 86400000 w2
       = Ok (s2, w3)
    /\ userModelState.getReportingEventQueue s2 = VList [].
Proof.
  intros older mark s w.
  destruct (upload_cycle_prunes_reported sampleEnv s w [VMap older; VMap mark] mark
              (VStr "2018-05-23T11:00:00.000Z") VUndef VUndef)
    as (s1 & w1 & w2 & s2 & w3 & Hrun & Hcb & _ & Hup & _ & _ & Hempty).
  - repeat split.
  - reflexivity.
  - reflexivity.
  - repeat constructor.
  - reflexivity.
  - reflexivity.
  - reflexivity.
  - exists s1, w1, w2, s2, w3.
    split; [exact Hrun |]. split; [exact Hcb |]. split; [exact Hup |].
    apply Hempty. intros e He.
    apply elem_of_cons in He as [-> | He]; [vm_compute; discriminate |].
    apply elem_of_cons in He as [-> | He]; [vm_compute; discriminate |].
    inversion He.
Defined.

Lemma eventFields_no_uuid
    (E : Env) (s s2 : state) (ty : string) (action : value)
    (map0 map : gmap string value) (w w2 : World) :
  userModel.eventFields E s ty action map0 w = Ok (inr (s2, map), w2) ->
  map !! "uuid" = map0 !! "uuid".
Proof.
  unfold userModel.eventFields, getWorld, liftR, throw, mbind, M_bind, mret, M_ret.
  intros H.
  repeat case_match; simplify_eq;
    rewrite ?lookup_insert_ne by discriminate; reflexivity.
Qed.

(** X16. An upload attempt switches the duplicate check off for the next
    event.  The attempt leaves a report identifier on the last queued
    record, and no record that [generateAdReportingEvent] builds carries
    one; so whatever event comes next is logged and appended, even one
    that repeats the last record in everything but the stamp. *)
Theorem upload_attempt_defeats_dedup
    (E : Env) (s : state) (w : World) (events : list value) (mark : gmap string value) :
  gateOpen E s w ->
  userModelState.getReportingEventQueue s = VList events ->
  last events = Some (VMap mark) ->
  exists s1 w1,
    userModel.collectActivity E s w = Ok (s1, w1)
    /\ userModelState.getReportingEventQueue s1 = VList (markedQueue E w events mark)
    /\ forall (ty : string) (action : value) (s2 : state) (map : gmap string value)
              (w2 : World),
         userModel.eventFields E s1 ty action (stampedRecord E ty w1) (tick w1)
         = Ok (inr (s2, map), w2) ->
         exists s3 w3,
           userModel.generateAdReportingEvent E s1 ty action w1 = Ok (s3, w3)
           /\ userModelState.getReportingEventQueue s3
              = VList (markedQueue E w events mark ++ [VMap map])
           /\ trace w3 = trace w1 ++ [OnUserModelLog "Event logged" (VMap map)].
Proof.
  intros Hgate Hq Hlast.
  destruct (collectActivity_run E s w events mark Hgate Hq Hlast)
    as (s1 & w1 & Hrun & Hq1 & _ & _ & _ & _ & _ & Hgate1).
  exists s1, w1. split; [exact Hrun |]. split; [exact Hq1 |].
  intros ty action s2 map w2 Hfields.
  pose proof (eventFields_no_uuid _ _ _ _ _ _ _ _ _ Hfields) as Hplain.
  destruct (eventFields_bookkeeping E s1 s2 ty action w1 w2 map Hfields)
    as (-> & Hstamp & Hq2 & Hen2 & _).
  rewrite Hq1 in Hq2.
  pose proof (last_markedQueue E w events mark Hlast) as Hlast1.
  assert (Hne : markedQueue E w events mark <> []).
  { intros Hnil. rewrite Hnil in Hlast1. discriminate. }
  destruct (queue_nonempty_inv s2 _ Hq2 Hne) as (um2 & Hum2 & _).
  apply (generateAdReportingEvent_appends E s1 s2 ty action w1 map um2
           (markedQueue E w events mark)); try assumption.
  - rewrite Hen2. exact (gateOpen_enabled E s1 w1 Hgate1).
  - intros l Hl. right. intros Hsame. rewrite Hlast1 in Hl. injection Hl as <-.
    assert (Huuid : markedRecord E w mark !! "uuid" = map !! "uuid").
    { rewrite <- (lookup_delete_ne (markedRecord E w mark) "stamp" "uuid") by discriminate.
      rewrite <- (lookup_delete_ne map "stamp" "uuid") by discriminate.
      unfold sameExceptStamp in Hsame. rewrite Hsame. reflexivity. }
    rewrite Hplain in Huuid. unfold stampedRecord in Huuid.
    rewrite lookup_insert_ne, lookup_singleton_ne in Huuid by discriminate.
    destruct (markedRecord_has_uuid E w mark) as [u Hu]. congruence.
  - intros x Hx. rewrite Hlast1 in Hx. injection Hx as <-. reflexivity.
Qed.

Lemma upload_attempt_defeats_dedup_witness :
  let focus : gmap string value :=
    list_to_map [("type", VStr "focus"); ("stamp", VStr "earlier"); ("tabId", VStr "7")] in
  let s := sampleState true [("reportingEventQueue", VList [VMap focus])] in
  let w := sampleWorld None in
  let action := obj [("tabId", VStr "7")] in
  exists s1 w1 s3 w3 again,
    userModel.collectActivity sampleEnv s w = Ok (s1, w1)
    /\ userModel.generateAdReportingEvent sampleEnv s1 "focus" action w1 = Ok (s3, w3)
    /\ sameExceptStamp focus again
    /\ userModelState.getReportingEventQueue s3
       = VList (markedQueue sampleEnv w [VMap focus] focus ++ [VMap again]).
Proof.
  intros focus s w action.
  destruct (upload_attempt_defeats_dedup sampleEnv s w [VMap focus] focus)
    as (s1 & w1 & Hrun & _ & Hnext); [repeat split | reflexivity | reflexivity |].
  destruct (Hnext "focus" action s1
              (<[ "tabId" := VStr "7" ]> (stampedRecord sampleEnv "focus" w1)) (tick w1)
              eq_refl) as (s3 & w3 & Hgen & Hq3 & _).
  exists s1, w1, s3, w3, (<[ "tabId" := VStr "7" ]> (stampedRecord sampleEnv "focus" w1)).
  split; [exact Hrun |]. split; [exact Hgen |]. split; [| exact Hq3].
  unfold sameExceptStamp, stampedRecord, focus.
  apply map_eq. intros k.
  destruct (decide (k = "stamp")) as [-> | Hk]; [rewrite !lookup_delete_eq; reflexivity |].
  rewrite !lookup_delete_ne by congruence.
  destruct (decide (k = "tabId")) as [-> | Ht]; [reflexivity |].
  destruct (decide (k = "type")) as [-> | Hy].
  { rewrite lookup_insert_ne by discriminate. rewrite lookup_insert_ne by discriminate.
    rewrite lookup_singleton_eq. reflexivity. }
  rewrite !lookup_insert_ne by congruence. rewrite lookup_singleton_ne by congruence.
  simpl. rewrite !lookup_insert_ne by congruence. apply lookup_empty.
Defined.

(** ** Erasing history *)

(** X17. After the history is erased every getter of the behavioural
    state answers with its default: no ad seen, empty queues, no page
    scores, no identifier, no network, an undisclosed place, no search or
    timing model.  The settings are untouched, and the rate limiter allows
    the next ad whenever the two caps are not negative.  Removing a single
    site at the engine does exactly the same erasure and, unlike
    [removeAllHistory] of the engine, draws no new identifier. *)
Theorem erased_history_defaults (E : Env) (s s' : state) :
  userModelState.removeAllHistory s = Ok s' ->
  userModelState.getAdUUIDSeen s' = ∅
  /\ userModelState.getReportingEventQueue s' = VList []
  /\ userModelState.getUserSurveyQueue s' = VList []
  /\ userModelState.getPageScoreHistory s' true = Ok (VList [])
  /\ userModelState.getAdUUID s' = VUndef
  /\ userModelState.getSSID s' = VNull
  /\ userModelState.getAdPlace s' = VStr "UNDISCLOSED"
  /\ userModelState.getSearchState (VMap s') = Ok VUndef
  /\ userModelState.getUserModelTimingMdl s' true = VList []
  /\ userModelStateRest.getModel s' = Ok (VMap ∅)
  /\ userModelState.getAdEnabledValue E s' = userModelState.getAdEnabledValue E s
  /\ (forall w,
        (forall n, toNumber E (getSetting E (ADS_PER_HOUR E)) = Some n -> 0 <= n) ->
        (forall n, toNumber E (getSetting E (ADS_PER_DAY E)) = Some n -> 0 <= n) ->
        userModelState.allowedToShowAdBasedOnHistory E s' w = Ok (true, tick (tick w)))
  /\ (forall action w,
        userModelRest.removeHistorySite s action w = Ok (s', w)).
Proof.
  unfold userModelState.removeAllHistory. intros Hrun.
  apply result_bind_Ok_inv in Hrun as (s0 & Hvalid & Hset).
  apply validateState_inv in Hvalid as ([= <-] & um & Hum).
  unfold setIn in Hset. simpl in Hset. injection Hset as <-.
  assert (Hum' : (<[ "userModel" := VMap ∅ ]> s) !! "userModel" = Some (VMap ∅))
    by apply lookup_insert_eq.
  assert (Hget : forall k, getIn ["userModel"; k] (<[ "userModel" := VMap ∅ ]> s) = VUndef).
  { intros k. rewrite (getIn_userModel _ ∅ k Hum'). rewrite lookup_empty. reflexivity. }
  repeat split.
  - unfold userModelState.getAdUUIDSeen. rewrite Hget. reflexivity.
  - unfold userModelState.getReportingEventQueue. rewrite Hget. reflexivity.
  - unfold userModelState.getUserSurveyQueue. rewrite Hget. reflexivity.
  - unfold userModelState.getPageScoreHistory.
    rewrite (validateState_Ok _ ∅ Hum'). simpl mbind. rewrite Hget. reflexivity.
  - apply Hget.
  - unfold userModelState.getSSID. rewrite Hget. reflexivity.
  - unfold userModelState.getAdPlace, userModelState.getSSID. rewrite !Hget. reflexivity.
  - unfold userModelState.getSearchState.
    rewrite (validateState_Ok _ ∅ Hum'). simpl mbind. rewrite Hget. reflexivity.
  - unfold userModelState.getUserModelTimingMdl. rewrite Hget. reflexivity.
  - unfold userModelStateRest.getModel.
    rewrite (validateState_Ok _ ∅ Hum'). simpl mbind. rewrite Hum'. reflexivity.
  - apply getAdEnabledValue_insert_userModel.
  - intros w Hhour Hday.
    unfold userModelState.allowedToShowAdBasedOnHistory. rewrite Hget.
    change (js_or VUndef (VList [])) with (VList []).
    unfold userModelState.historyRespectsRollingTimeConstraint,
      userModelState.unixTimeNowSeconds, getTime, mbind, M_bind, mret, M_ret.
    cbn [fold_left].
    destruct (toNumber E (getSetting E (ADS_PER_HOUR E))) as [h|] eqn:Hh;
      destruct (toNumber E (getSetting E (ADS_PER_DAY E))) as [d|] eqn:Hd;
      cbv beta iota;
      try (pose proof (Hhour h eq_refl));
      try (pose proof (Hday d eq_refl));
      repeat match goal with
             | |- context [(?a <? 0)%Z] =>
                 destruct (Z.ltb_spec a 0); [lia |]
             end;
      reflexivity.
  - intros action w. unfold userModelRest.removeHistorySite, userModelState.removeAllHistory.
    rewrite (validateState_Ok s um Hum). reflexivity.
Qed.

Lemma erased_history_defaults_witness :
  let s := sampleState true [("adUUID", VStr "id-0"); ("adsShownHistory", VList [VNum 1000000])] in
  exists s',
    userModelState.removeAllHistory s = Ok s'
    /\ userModelState.getAdUUID s' = VUndef
    /\ userModelState.allowedToShowAdBasedOnHistory sampleEnv s' (sampleWorld None)
       = Ok (true, tick (tick (sampleWorld None))).
Proof.
  intros s. eexists. split; [reflexivity |].
  pose proof (erased_history_defaults sampleEnv s _ eq_refl)
    as (_ & _ & _ & _ & Hid & _ & _ & _ & _ & _ & _ & Hallowed & _).
  split; [exact Hid |].
  apply Hallowed; intros n [= <-]; lia.
Defined.

(** ** Locale *)

(** X18. [changeLocale] stores what the classifier library normalises the
    locale to, not what it was given; the stored locale can be read back
    and the other keys keep their values.  When the library rejects the
    locale the state is returned as it was and a locale error is logged
    with the locale and the reason; the failure does not propagate. *)
Theorem changeLocale_stores_normalised
    (E : Env) (H : Host) (s : state) (um : gmap string value) (locale : value) (w : World) :
  gateOpen E s w ->
  s !! "userModel" = Some (VMap um) ->
  (forall normalised, setLocaleSync H locale = Ok normalised ->
     exists s',
       userModelRest.changeLocale E H s locale w = Ok (s', w)
       /\ userModelState.getUserModelValue s' "locale" = Ok normalised
       /\ (forall k, k <> "locale" ->
             userModelState.getUserModelValue s' k = userModelState.getUserModelValue s k))
  /\ (forall ex, setLocaleSync H locale = Throw ex ->
        exists w',
          userModelRest.changeLocale E H s locale w = Ok (s, w')
          /\ trace w' = trace w ++ [OnUserModelLog "Locale error"
                                      (obj [("locale", locale);
                                            ("reason", exnToString H ex);
                                            ("stack", exnStack H ex)])]).
Proof.
  intros Hgate Hum.
  pose proof (gateOpen_enabled E s w Hgate) as Hen.
  split.
  - intros normalised Hok.
    exists (<[ "userModel" := VMap (<[ "locale" := normalised ]> um) ]> s).
    split; [| split].
    + unfold userModelRest.changeLocale.
      rewrite bind_noop_open by exact Hgate. cbv beta iota.
      rewrite Hok. unfold userModelState.setLocale. rewrite Hen. cbn [negb].
      rewrite (validated s um "locale" normalised Hum). reflexivity.
    + unfold userModelState.getUserModelValue.
      rewrite (validateState_Ok _ (<[ "locale" := normalised ]> um))
        by apply lookup_insert_eq.
      simpl mbind.
      rewrite (getIn_userModel _ (<[ "locale" := normalised ]> um))
        by apply lookup_insert_eq.
      rewrite lookup_insert_eq. reflexivity.
    + intros k Hk. unfold userModelState.getUserModelValue.
      rewrite (validateState_Ok _ (<[ "locale" := normalised ]> um))
        by apply lookup_insert_eq.
      rewrite (validateState_Ok s um Hum). simpl mbind.
      rewrite (getIn_userModel _ (<[ "locale" := normalised ]> um))
        by apply lookup_insert_eq.
      rewrite (getIn_userModel s um) by exact Hum.
      rewrite lookup_insert_ne by congruence. reflexivity.
  - intros ex Hthrow. unfold userModelRest.changeLocale.
    rewrite bind_noop_open by exact Hgate. cbv beta iota.
    rewrite Hthrow. eexists. split; reflexivity.
Qed.

Lemma changeLocale_stores_normalised_witness :
  (exists s',
      userModelRest.changeLocale sampleEnv sampleHost (sampleState true []) (VStr "en")
        (sampleWorld None) = Ok (s', sampleWorld None)
      /\ userModelState.getUserModelValue s' "locale" = Ok (VStr "en"))
  /\ (exists w',
         userModelRest.changeLocale sampleEnv sampleHost (sampleState true []) (VStr "xx")
           (sampleWorld None) = Ok (sampleState true [], w')).
Proof.
  split.
  - destruct (changeLocale_stores_normalised sampleEnv sampleHost (sampleState true []) ∅
                (VStr "en") (sampleWorld None)) as [Hok _];
      [repeat split | reflexivity |].
    destruct (Hok (VStr "en") eq_refl) as (s' & Hrun & Hget & _).
    exists s'. split; assumption.
  - destruct (changeLocale_stores_normalised sampleEnv sampleHost (sampleState true []) ∅
                (VStr "xx") (sampleWorld None)) as [_ Hbad];
      [repeat split | reflexivity |].
    destruct (Hbad (TypeError "unknown locale") eq_refl) as (w' & Hrun & _).
    exists w'. exact Hrun.
Defined.

(** ** Surveys *)

Lemma available_status (m : gmap string value) :
  strict_eq (default VUndef (m !! "status")) (VStr "available") = true
  <-> available (VMap m).
Proof.
  simpl. destruct (m !! "status") as [v|]; simpl; [| split; discriminate].
  destruct v; simpl; try (split; discriminate).
  rewrite bool_decide_eq_true. split; congruence.
Qed.

Lemma filterAvailable_spec (surveys : list value) :
  Forall (fun e => isMap e = true) surveys ->
  userModelRest.filterAvailable surveys = Ok (filter available surveys).
Proof.
  induction 1 as [|survey rest Hsurvey _ IH]; [reflexivity |].
  destruct survey as [| | | | | |m]; try discriminate Hsurvey.
  simpl. rewrite IH. simpl. rewrite filter_cons.
  pose proof (available_status m) as Hst.
  destruct (strict_eq (default VUndef (m !! "status")) (VStr "available"));
    case_decide as Hd; try reflexivity.
  - exfalso. apply Hd, Hst. reflexivity.
  - apply Hst in Hd. discriminate.
Qed.

Lemma findAvailable_head (surveys : list value) (m : gmap string value) :
  head (filter available surveys) = Some (VMap m) ->
  userModel.findAvailable (filter available surveys) = Some (0%nat, m).
Proof.
  destruct (filter available surveys) as [|x rest] eqn:Hf; [discriminate |].
  intros [= ->].
  assert (Hin : VMap m ∈ filter available surveys) by (rewrite Hf; left).
  apply list_elem_of_filter in Hin as [Hav _]. simpl in Hav.
  simpl. rewrite bool_decide_eq_true_2 by exact Hav. reflexivity.
Qed.

(** X19. Outside testing mode a download replaces the survey queue: what
    is stored is exactly the downloaded surveys whose status is
    [available], in their order, whatever the queue held before.  Both the
    download and the surveys kept are logged.  The first survey kept is the
    one that [checkReadyAdServe] will pick next. *)
Theorem downloadSurveys_replaces_queue
    (E : Env) (s : state) (um : gmap string value) (surveys : list value) (w : World) :
  gateOpen E s w ->
  testingP E = false ->
  s !! "userModel" = Some (VMap um) ->
  Forall (fun e => isMap e = true) surveys ->
  exists s' w',
    userModelRest.downloadSurveys E s (VList surveys) w = Ok (s', w')
    /\ userModelState.getUserSurveyQueue s' = VList (filter available surveys)
    /\ trace w' = trace w ++ [OnUserModelLog "Surveys downloaded" (VList surveys);
                              OnUserModelLog "Surveys available"
                                (VList (filter available surveys))]
    /\ (forall m, head (filter available surveys) = Some (VMap m) ->
          userModel.findAvailable (filter available surveys) = Some (0%nat, m)).
Proof.
  intros Hgate Hprod Hum Hrec.
  pose proof (gateOpen_enabled E s w Hgate) as Hen.
  exists (<[ "userModel" :=
               VMap (<[ "userSurveyQueue" := VList (filter available surveys) ]> um) ]> s).
  eexists. split; [| split; [apply getUserSurveyQueue_insert | split]].
  - unfold userModelRest.downloadSurveys.
    rewrite bind_noop_open by exact Hgate. cbv beta iota.
    unfold userModel.onUserModelLog. rewrite bind_emit.
    rewrite (filterAvailable_spec surveys Hrec), bind_liftR_Ok. cbv beta.
    rewrite Hprod. unfold mbind at 1, M_bind at 1. unfold mret at 1, M_ret at 1.
    cbv beta iota.
    rewrite (setUserSurveyQueue_spec E s um) by assumption.
    rewrite bind_liftR_Ok. cbv beta.
    reflexivity.
  - cbn [trace]. rewrite <- app_assoc. reflexivity.
  - apply findAvailable_head.
Qed.

Lemma downloadSurveys_replaces_queue_witness :
  let closed := obj [("status", VStr "closed")] in
  let waiting := obj [("status", VStr "available"); ("title", VStr "T")] in
  let s := sampleState true [("userSurveyQueue", VList [closed])] in
  exists s' w',
    userModelRest.downloadSurveys sampleEnv s (VList [closed; waiting]) (sampleWorld None)
    = Ok (s', w')
    /\ userModelState.getUserSurveyQueue s' = VList [waiting].
Proof.
  intros closed waiting s.
  destruct (downloadSurveys_replaces_queue sampleEnv s
              (list_to_map [("userSurveyQueue", VList [closed])])
              [closed; waiting] (sampleWorld None))
    as (s' & w' & Hrun & Hq & _).
  - repeat split.
  - reflexivity.
  - reflexivity.
  - repeat constructor.
  - exists s', w'. split; [exact Hrun |]. rewrite Hq. reflexivity.
Defined.

Lemma someInteracted_spec (queue : list value) :
  Forall (fun e => isMap e = true) queue ->
  userModelRest.someInteracted queue
  = Ok (bool_decide (Exists (fun e => ~ available e) queue)).
Proof.
  induction 1 as [|entry rest Hentry _ IH]; [reflexivity |].
  destruct entry as [| | | | | |m]; try discriminate Hentry.
  simpl. pose proof (available_status m) as Hst.
  destruct (strict_eq (default VUndef (m !! "status")) (VStr "available")) eqn:Heq; simpl.
  - rewrite IH. f_equal. apply bool_decide_ext. rewrite Exists_cons.
    split; [auto |]. intros [Hno | ?]; [| assumption].
    exfalso. apply Hno, Hst. reflexivity.
  - f_equal. symmetry. apply bool_decide_eq_true_2. left.
    intros Hav. apply Hst in Hav. discriminate.
Qed.

Lemma filterNotInteracted_spec (queue surveys : list value) :
  Forall (fun e => isMap e = true) queue ->
  userModelRest.filterNotInteracted (VList queue) surveys
  = Ok (if bool_decide (Exists (fun e => ~ available e) queue) then [] else surveys).
Proof.
  intros Hq. induction surveys as [|survey rest IH]; simpl.
  - destruct (bool_decide _); reflexivity.
  - rewrite (someInteracted_spec queue Hq). simpl. rewrite IH. simpl.
    destruct (bool_decide _); reflexivity.
Qed.

(** X20. In testing mode the second filter of a download is all or
    nothing.  It is meant to drop a downloaded survey that the queue holds
    under the same id in a state other than [available]; but the ids are
    read as properties of Immutable maps, which hold their entries behind
    [get], so both reads are [undefined] and equal.  Hence one queued
    survey that is not [available] makes the download store an empty
    queue, and when every queued survey is [available] the download stores
    all the available surveys it brought. *)
Theorem downloadSurveys_testing_all_or_nothing
    (E : Env) (s : state) (um : gmap string value) (queue surveys : list value)
    (w : World) :
  gateOpen E s w ->
  testingP E = true ->
  s !! "userModel" = Some (VMap um) ->
  userModelState.getUserSurveyQueue s = VList queue ->
  Forall (fun e => isMap e = true) queue ->
  Forall (fun e => isMap e = true) surveys ->
  exists s' w',
    userModelRest.downloadSurveys E s (VList surveys) w = Ok (s', w')
    /\ (Exists (fun e => ~ available e) queue ->
        userModelState.getUserSurveyQueue s' = VList [])
    /\ (Forall available queue ->
        userModelState.getUserSurveyQueue s' = VList (filter available surveys)).
Proof.
  intros Hgate Htest Hum Hq Hqrec Hrec.
  pose proof (gateOpen_enabled E s w Hgate) as Hen.
  set (kept := if bool_decide (Exists (fun e => ~ available e) queue)
               then [] else filter available surveys).
  exists (<[ "userModel" := VMap (<[ "userSurveyQueue" := VList kept ]> um) ]> s).
  eexists. split; [| split].
  - unfold userModelRest.downloadSurveys.
    rewrite bind_noop_open by exact Hgate. cbv beta iota.
    unfold userModel.onUserModelLog. rewrite bind_emit.
    rewrite (filterAvailable_spec surveys Hrec), bind_liftR_Ok. cbv beta.
    rewrite Htest, Hq. cbv zeta.
    rewrite (filterNotInteracted_spec queue _ Hqrec), bind_liftR_Ok. cbv beta.
    fold kept.
    rewrite (setUserSurveyQueue_spec E s um) by assumption.
    rewrite bind_liftR_Ok. cbv beta.
    reflexivity.
  - intros Hsome. rewrite getUserSurveyQueue_insert. unfold kept.
    rewrite bool_decide_eq_true_2 by exact Hsome. reflexivity.
  - intros Hall. rewrite getUserSurveyQueue_insert. unfold kept.
    rewrite bool_decide_eq_false_2; [reflexivity |].
    intros Hsome. apply Exists_exists in Hsome as (e & He & Hno).
    apply Hno. rewrite Forall_forall in Hall. apply Hall. exact He.
Qed.

Lemma downloadSurveys_testing_all_or_nothing_witness :
  let answered := obj [("id", VStr "s1"); ("status", VStr "answered")] in
  let waiting := obj [("id", VStr "s2"); ("status", VStr "available")] in
  let s := sampleState true [("userSurveyQueue", VList [answered])] in
  exists s' w',
    userModelRest.downloadSurveys testingEnv s (VList [waiting]) (sampleWorld None)
    = Ok (s', w')
    /\ userModelState.getUserSurveyQueue s' = VList [].
Proof.
  intros answered waiting s.
  destruct (downloadSurveys_testing_all_or_nothing testingEnv s
              (list_to_map [("userSurveyQueue", VList [answered])])
              [answered] [waiting] (sampleWorld None))
    as (s' & w' & Hrun & Hnone & _).
  - repeat split.
  - reflexivity.
  - reflexivity.
  - reflexivity.
  - repeat constructor.
  - repeat constructor.
  - exists s', w'. split; [exact Hrun |]. apply Hnone.
    left. simpl. discriminate.
Defined.

(** ** Recency *)

Lemma valueToLowHigh_Z (z thresh : Z) :
  userModel.valueToLowHigh (Some (inject_Z z)) (inject_Z thresh)
  = if bool_decide (z < thresh) then "low" else "high".
Proof.
  unfold userModel.valueToLowHigh.
  destruct (Qle_bool (inject_Z thresh) (inject_Z z)) eqn:Hle.
  - apply Qle_bool_iff in Hle. unfold Qle in Hle. simpl in Hle.
    rewrite bool_decide_eq_false_2 by lia. reflexivity.
  - rewrite bool_decide_eq_true_2; [reflexivity |].
    destruct (Z.lt_ge_cases z thresh) as [Hlt | Hge]; [exact Hlt |].
    assert (Hq : Qle_bool (inject_Z thresh) (inject_Z z) = true).
    { apply Qle_bool_iff. unfold Qle. simpl. lia. }
    congruence.
Qed.

(** X21. [recordUnIdle] stamps the state with the time of the call, in
    milliseconds, and [recencyCalc] compares the milliseconds elapsed since
    then with 60: recency is [low] only within 60 milliseconds of the last
    return from idle, and [high] from then on.  A state that never recorded
    a return from idle has recency [high].  [tabUpdate] stamps a key of its
    own and leaves recency as it is. *)
Theorem recency_after_unidle (E : Env) (s : state) (um : gmap string value) (w : World) :
  truthy (userModelState.getAdEnabledValue E s) = true ->
  s !! "userModel" = Some (VMap um) ->
  (um !! "lastUserIdleStopTime" = None ->
   forall w2, userModel.recencyCalc E s w2 = Ok ("high", tick w2))
  /\ exists s',
       userModelRest.recordUnIdle E s w = Ok (s', tick w)
       /\ userModelState.getLastUserIdleStopTime s' = Ok (VNum (clock E (ticks w)))
       /\ (forall w2,
             userModel.recencyCalc E s' w2
             = Ok (if bool_decide (clock E (ticks w2) - clock E (ticks w) < 60)
                   then "low" else "high", tick w2))
       /\ (forall action w2,
             exists s2,
               userModelRest.tabUpdate E s' action w2 = Ok (s2, tick w2)
               /\ userModelState.getUserModelValue s2 "lastUserActivity"
                  = Ok (VNum (clock E (ticks w2)))
               /\ userModelState.getLastUserIdleStopTime s2
                  = Ok (VNum (clock E (ticks w)))).
Proof.
  intros Hen Hum. split.
  - intros Hnever w2. unfold userModel.recencyCalc.
    rewrite bind_getTime. unfold userModelState.getLastUserIdleStopTime.
    rewrite (validateState_Ok s um Hum). simpl mbind.
    rewrite (getIn_userModel s um) by exact Hum. rewrite Hnever. reflexivity.
  - set (um' := <[ "lastUserIdleStopTime" := VNum (clock E (ticks w)) ]> um).
    set (s' := <[ "userModel" := VMap um' ]> s).
    assert (Hum' : s' !! "userModel" = Some (VMap um')) by apply lookup_insert_eq.
    assert (Hen' : truthy (userModelState.getAdEnabledValue E s') = true).
    { unfold s'. rewrite getAdEnabledValue_insert_userModel. exact Hen. }
    assert (Hidle : userModelState.getLastUserIdleStopTime s' = Ok (VNum (clock E (ticks w)))).
    { unfold userModelState.getLastUserIdleStopTime.
      rewrite (validateState_Ok s' um' Hum'). simpl mbind.
      rewrite (getIn_userModel s' um') by exact Hum'. unfold um'.
      rewrite lookup_insert_eq. reflexivity. }
    exists s'. split; [| split; [exact Hidle | split]].
    + unfold userModelRest.recordUnIdle, userModelState.setLastUserIdleStopTime.
      rewrite Hen. cbn [negb].
      rewrite (validateState_Ok s um Hum), bind_liftR_Ok. cbv beta.
      rewrite bind_getTime.
      rewrite (setIn_userModel s um) by exact Hum. reflexivity.
    + intros w2. unfold userModel.recencyCalc.
      rewrite bind_getTime, Hidle, bind_liftR_Ok. cbv beta zeta.
      unfold toNumber, fmap, option_fmap, option_map, mret, M_ret.
      change (60 # 1)%Q with (inject_Z 60).
      rewrite (valueToLowHigh_Z (clock E (ticks w2) - clock E (ticks w)) 60).
      reflexivity.
    + intros action w2.
      set (um2 := <[ "lastUserActivity" := VNum (clock E (ticks w2)) ]> um').
      exists (<[ "userModel" := VMap um2 ]> s').
      assert (Hum2 : (<[ "userModel" := VMap um2 ]> s') !! "userModel" = Some (VMap um2))
        by apply lookup_insert_eq.
      split; [| split].
      * unfold userModelRest.tabUpdate, userModelState.setLastUserActivity.
        rewrite Hen'. cbn [negb].
        rewrite (validateState_Ok s' um' Hum'), bind_liftR_Ok. cbv beta.
        rewrite bind_getTime.
        rewrite (setIn_userModel s' um') by exact Hum'. reflexivity.
      * unfold userModelState.getUserModelValue.
        rewrite (validateState_Ok _ um2 Hum2). simpl mbind.
        rewrite (getIn_userModel _ um2) by exact Hum2. unfold um2.
        rewrite lookup_insert_eq. reflexivity.
      * unfold userModelState.getLastUserIdleStopTime.
        rewrite (validateState_Ok _ um2 Hum2). simpl mbind.
        rewrite (getIn_userModel _ um2) by exact Hum2. unfold um2, um'.
        rewrite lookup_insert_ne by discriminate.
        rewrite lookup_insert_eq. reflexivity.
Qed.

Lemma recency_after_unidle_witness :
  exists s',
    userModelRest.recordUnIdle sampleEnv (sampleState true []) (sampleWorld None)
    = Ok (s', tick (sampleWorld None))
    /\ userModel.recencyCalc sampleEnv s' (tick (sampleWorld None))
       = Ok ("high", tick (tick (sampleWorld None))).
Proof.
  destruct (recency_after_unidle sampleEnv (sampleState true []) ∅ (sampleWorld None))
    as (_ & s' & Hrun & _ & Hrec & _); [reflexivity | reflexivity |].
  exists s'. split; [exact Hrun |]. rewrite Hrec. reflexivity.
Defined.

(** ** Providers of search *)

Lemma indexOf_app (c : ascii) (p rest : string) :
  userModelRest.indexOf c p = None ->
  userModelRest.indexOf c (p +:+ String c rest) = Some (String.length p)
  /\ String.substring 0 (String.length p) (p +:+ String c rest) = p.
Proof.
  induction p as [|d p IH]; simpl.
  - intros _. rewrite Ascii.eqb_refl. split; reflexivity.
  - destruct (Ascii.eqb d c); [discriminate |].
    destruct (userModelRest.indexOf c p); [discriminate |].
    intros _. destruct (IH eq_refl) as [Hidx Hsub].
    change (String.append p (String c rest)) with (p +:+ String c rest).
    rewrite Hidx, Hsub. split; reflexivity.
Qed.

Lemma indexOf_split (c : ascii) (x : string) (n : nat) :
  userModelRest.indexOf c x = Some n ->
  exists rest,
    x = String.substring 0 n x +:+ String c rest
    /\ userModelRest.indexOf c (String.substring 0 n x) = None
    /\ String.length (String.substring 0 n x) = n.
Proof.
  revert n. induction x as [|d x IH]; intros n; simpl; [discriminate |].
  destruct (Ascii.eqb_spec d c) as [-> | Hd].
  - intros [= <-]. exists x. repeat split.
  - destruct (userModelRest.indexOf c x) as [m|]; [| discriminate].
    intros [= <-]. destruct (IH m eq_refl) as (rest & Hx & Hnone & Hlen).
    exists rest. simpl. rewrite Hnone, Hlen.
    destruct (Ascii.eqb_spec d c); [contradiction |].
    split; [| split; reflexivity].
    change (String d x = String d (String.substring 0 m x +:+ String c rest)).
    f_equal. exact Hx.
Qed.

Lemma searchTemplateMatches_code (template href : string) :
  searchTemplateMatches template href
  <-> exists x, userModelRest.indexOf "{"%char template = Some (S x)
                /\ String.prefix (String.substring 0 (S x) template) href = true.
Proof.
  split.
  - intros (p & rest & -> & Hne & Hnone & Hpre).
    destruct (indexOf_app "{"%char p rest Hnone) as [Hidx Hsub].
    destruct p as [|d p]; [contradiction |].
    exists (String.length p). simpl String.length in Hidx, Hsub.
    split; [exact Hidx |]. rewrite Hsub. exact Hpre.
  - intros (x & Hidx & Hpre).
    destruct (indexOf_split _ _ _ Hidx) as (rest & Hx & Hnone & Hlen).
    exists (String.substring 0 (S x) template), rest.
    split; [exact Hx |]. split; [| split; [exact Hnone | exact Hpre]].
    intros Hempty. rewrite Hempty in Hlen. discriminate.
Qed.

Lemma searchLoop_spec
    (E : Env) (s : state) (url : value) (h : string) (providers : list string) (w : World) :
  (Exists (fun template => searchTemplateMatches template h) providers ->
   userModelRest.searchLoop E s url (VStr h) providers w
   = (s ← userModelState.flagSearchState E s url (VNum 1); mret (Some s)) w)
  /\ (Forall (fun template => ~ searchTemplateMatches template h) providers ->
      userModelRest.searchLoop E s url (VStr h) providers w = Ok (None, w)).
Proof.
  induction providers as [|template providers [IHsome IHnone]].
  - split; [intros Hex; inversion Hex | reflexivity].
  - pose proof (searchTemplateMatches_code template h) as Hcode.
    simpl userModelRest.searchLoop.
    destruct (userModelRest.indexOf "{"%char template) as [[|x]|] eqn:Hidx.
    + assert (Hno : ~ searchTemplateMatches template h).
      { intros Hm. apply Hcode in Hm as (x & [=] & _). }
      split.
      * intros Hex. apply Exists_cons in Hex as [Hm | Hex]; [contradiction | auto].
      * intros Hall. apply Forall_cons in Hall as [_ Hall]. auto.
    + destruct (String.prefix (String.substring 0 (S x) template) h) eqn:Hpre.
      * split; [reflexivity |].
        intros Hall. apply Forall_cons in Hall as [Hno _].
        exfalso. apply Hno, Hcode. eauto.
      * assert (Hno : ~ searchTemplateMatches template h).
        { intros Hm. apply Hcode in Hm as (x' & [= <-] & Hp). congruence. }
        split.
        -- intros Hex. apply Exists_cons in Hex as [Hm | Hex]; [contradiction | auto].
        -- intros Hall. apply Forall_cons in Hall as [_ Hall]. auto.
    + assert (Hno : ~ searchTemplateMatches template h).
      { intros Hm. apply Hcode in Hm as (x & [=] & _). }
      split.
      * intros Hex. apply Exists_cons in Hex as [Hm | Hex]; [contradiction | auto].
      * intros Hall. apply Forall_cons in Hall as [_ Hall]. auto.
Qed.

(** X22. [testSearchState] treats a page as a search exactly when its
    address starts with the text that some provider's template has before
    its first placeholder, that text being non-empty: a template without a
    placeholder, or one that starts with it, matches nothing.  On a search
    the call is [flagSearchState] with score 1.  Otherwise it is
    [unFlagSearchState] when the search flag was up, and it returns the
    state as it was when the flag was down. *)
Theorem testSearchState_matches_providers
    (E : Env) (H : Host) (s : state) (um : gmap string value) (url : value) (h : string)
    (w : World) :
  gateOpen E s w ->
  s !! "userModel" = Some (VMap um) ->
  urlParseHref H url = VStr h ->
  (Exists (fun template => searchTemplateMatches template h) (searchProviders H) ->
   userModelRest.testSearchState E H s url w
   = userModelState.flagSearchState E s url (VNum 1) w)
  /\ (Forall (fun template => ~ searchTemplateMatches template h) (searchProviders H) ->
      (truthy (getIn ["userModel"; "searchActivity"] s) = true ->
       userModelRest.testSearchState E H s url w
       = userModelState.unFlagSearchState E s url w)
      /\ (truthy (getIn ["userModel"; "searchActivity"] s) = false ->
          userModelRest.testSearchState E H s url w = Ok (s, w)))
  /\ (forall template rest,
        template = String "{"%char rest \/ userModelRest.indexOf "{"%char template = None ->
        ~ searchTemplateMatches template h).
Proof.
  intros Hgate Hum Hhref.
  assert (Hstart : userModelRest.testSearchState E H s url w
                   = (found ← userModelRest.searchLoop E s url (VStr h) (searchProviders H);
                      match found with
                      | Some s => mret s
                      | None =>
                          if truthy (getIn ["userModel"; "searchActivity"] s)
                          then userModelState.unFlagSearchState E s url
                          else mret s
                      end) w).
  { unfold userModelRest.testSearchState.
    rewrite bind_noop_open by exact Hgate. cbv beta iota zeta.
    unfold userModelState.getSearchState.
    rewrite (validateState_Ok s um Hum). simpl (Ok s ≫= _).
    rewrite bind_liftR_Ok, Hhref. reflexivity. }
  destruct (searchLoop_spec E s url h (searchProviders H) w) as [Hsome Hnone].
  split; [| split].
  - intros Hex. rewrite Hstart. unfold mbind at 1, M_bind at 1.
    rewrite (Hsome Hex). unfold mbind, M_bind, mret, M_ret.
    destruct (userModelState.flagSearchState E s url (VNum 1) w) as [[s' w']|e];
      reflexivity.
  - intros Hall. split; intros Hflag; rewrite Hstart;
      unfold mbind at 1, M_bind at 1; rewrite (Hnone Hall), Hflag; reflexivity.
  - intros template rest Hshape Hm.
    apply searchTemplateMatches_code in Hm as (x & Hidx & _).
    destruct Hshape as [-> | Hnone']; [discriminate Hidx | congruence].
Qed.

Lemma testSearchState_matches_providers_witness :
  let s := sampleState true [] in
  let w := sampleWorld None in
  userModelRest.testSearchState sampleEnv sampleHost s
    (VStr "https://search.example/?q=rugby") w
  = userModelState.flagSearchState sampleEnv s (VStr "https://search.example/?q=rugby")
      (VNum 1) w
  /\ userModelRest.testSearchState sampleEnv sampleHost s (VStr "https://news.example/") w
     = Ok (s, w).
Proof.
  intros s w. split.
  - destruct (testSearchState_matches_providers sampleEnv sampleHost s ∅
                (VStr "https://search.example/?q=rugby") "https://search.example/?q=rugby" w)
      as (Hsearch & _); [repeat split | reflexivity | reflexivity |].
    apply Hsearch. left.
    exists "https://search.example/?q=", "searchTerms}".
    repeat split. discriminate.
  - destruct (testSearchState_matches_providers sampleEnv sampleHost s ∅
                (VStr "https://news.example/") "https://news.example/" w)
      as (_ & Hother & Hnever); [repeat split | reflexivity | reflexivity |].
    apply Hother; [| reflexivity].
    repeat constructor.
    + intros Hm. apply searchTemplateMatches_code in Hm as (x & Hidx & Hpre).
      injection Hidx as <-. discriminate Hpre.
    + apply (Hnever _ "searchTerms}.example"). left. reflexivity.
Defined.

(** ** The closed gate *)

(** X23. Behind a closed gate (classifier data not loaded, or ads off)
    every gated entry point of the engine is inert: it returns the state it
    was given, dispatches nothing, reads neither the clock nor the random
    source, and draws no identifier; the world is left as it was.  This
    holds whatever the arguments are, including ones that would raise past
    the gate. *)
Theorem closed_gate_is_inert (E : Env) (H : Host) (s : state) (w : World) :
  ~ gateOpen E s w ->
  (forall eventType action,
      userModel.generateAdReportingEvent E s eventType action w = Ok (s, w))
  /\ (forall special, userModel.updateTimingModel E s special w = Ok (s, w))
  /\ (forall url, userModel.testShoppingData E s url w = Ok (s, w))
  /\ (forall url, userModelRest.testSearchState E H s url w = Ok (s, w))
  /\ (forall windowId, userModel.checkReadyAdServe E s windowId w = Ok (s, w))
  /\ (forall locale, userModelRest.changeLocale E H s locale w = Ok (s, w))
  /\ userModel.collectActivity E s w = Ok (s, w)
  /\ (forall stamp retryIn, userModel.uploadLogs E s stamp retryIn w = Ok (s, w))
  /\ (forall surveys, userModelRest.downloadSurveys E s surveys w = Ok (s, w)).
Proof.
  intros Hclosed. pose proof (noop_gateClosed E s w Hclosed) as Hnoop.
  repeat split; intros;
    unfold userModel.generateAdReportingEvent, userModel.updateTimingModel,
      userModel.testShoppingData, userModelRest.testSearchState,
      userModel.checkReadyAdServe, userModelRest.changeLocale,
      userModel.collectActivity, userModel.uploadLogs, userModelRest.downloadSurveys;
    unfold mbind at 1, M_bind at 1; rewrite Hnoop; reflexivity.
Qed.

Lemma closed_gate_is_inert_witness :
  userModel.collectActivity sampleEnv (sampleState false []) (sampleWorld None)
  = Ok (sampleState false [], sampleWorld None)
  /\ userModel.updateTimingModel sampleEnv (sampleState false []) VUndef (sampleWorld None)
     = Ok (sampleState false [], sampleWorld None).
Proof.
  destruct (closed_gate_is_inert sampleEnv sampleHost (sampleState false [])
              (sampleWorld None)) as (_ & Htiming & _ & _ & _ & _ & Hcollect & _).
  - intros (_ & _ & Hen). discriminate Hen.
  - split; [exact Hcollect | apply Htiming].
Defined.

(** ** Shopping and buying *)

(** X24. On the shopping host [testShoppingData] raises the shopping
    flag: the flag reads true afterwards, the page and the time of the call
    are remembered, and the search flag is not touched.
    [flagUserBuyingSomething] does the same for a purchase.  Neither flag
    changes the other. *)
Theorem shopping_and_buying_flags
    (E : Env) (s : state) (um : gmap string value) (url : value) (w : World) :
  gateOpen E s w ->
  s !! "userModel" = Some (VMap um) ->
  (getHostname E url = VStr "amazon.com" ->
   exists s',
     userModel.testShoppingData E s url w = Ok (s', tick w)
     /\ userModelState.getShoppingState (VMap s') = Ok (VBool true)
     /\ getIn ["userModel"; "shopUrl"] s' = url
     /\ getIn ["userModel"; "lastShopTime"] s' = VNum (clock E (ticks w))
     /\ userModelState.getSearchState (VMap s') = userModelState.getSearchState (VMap s)
     /\ userModelState.getUserBuyingState (VMap s')
        = userModelState.getUserBuyingState (VMap s))
  /\ exists s',
       userModelState.flagUserBuyingSomething E s url w = Ok (s', tick w)
       /\ userModelState.getUserBuyingState (VMap s') = Ok (VBool true)
       /\ getIn ["userModel"; "purchaseUrl"] s' = url
       /\ getIn ["userModel"; "purchaseTime"] s' = VNum (clock E (ticks w))
       /\ userModelState.getShoppingState (VMap s')
          = userModelState.getShoppingState (VMap s).
Proof.
  intros Hgate Hum.
  pose proof (gateOpen_enabled E s w Hgate) as Hen.
  assert (Hvalid : forall um' : gmap string value,
            userModelState.validateState (VMap (<[ "userModel" := VMap um' ]> s))
            = Ok (<[ "userModel" := VMap um' ]> s)).
  { intros um'. apply (validateState_Ok _ um'), lookup_insert_eq. }
  split.
  - intros Hhost.
    set (um' := <[ "lastShopTime" := VNum (clock E (ticks w)) ]>
                  (<[ "shopUrl" := url ]> (<[ "shopActivity" := VBool true ]> um))).
    exists (<[ "userModel" := VMap um' ]> s).
    split; [| repeat split].
    + unfold userModel.testShoppingData.
      rewrite bind_noop_open by exact Hgate. cbv beta iota zeta.
      unfold userModelState.getSearchState.
      rewrite (validateState_Ok s um Hum). simpl (Ok s ≫= _).
      rewrite bind_liftR_Ok. cbv beta.
      rewrite Hhost, strict_eq_refl_str.
      unfold userModelState.flagShoppingState. rewrite Hen. cbn [negb].
      rewrite (validateState_Ok s um Hum), bind_liftR_Ok. cbv beta.
      rewrite (setIn_userModel s um) by exact Hum. rewrite bind_liftR_Ok. cbv beta.
      rewrite (setIn_userModel _ (<[ "shopActivity" := VBool true ]> um))
        by apply lookup_insert_eq.
      rewrite bind_liftR_Ok. cbv beta. rewrite insert_insert_eq.
      rewrite bind_getTime.
      rewrite (setIn_userModel _ (<[ "shopUrl" := url ]>
                                    (<[ "shopActivity" := VBool true ]> um)))
        by apply lookup_insert_eq.
      rewrite liftR_Ok, insert_insert_eq. reflexivity.
    + unfold userModelState.getShoppingState. rewrite Hvalid. simpl mbind.
      rewrite (getIn_userModel _ um') by apply lookup_insert_eq. unfold um'.
      rewrite !lookup_insert_ne by discriminate. rewrite lookup_insert_eq. reflexivity.
    + rewrite (getIn_userModel _ um') by apply lookup_insert_eq. unfold um'.
      rewrite lookup_insert_ne by discriminate. rewrite lookup_insert_eq. reflexivity.
    + rewrite (getIn_userModel _ um') by apply lookup_insert_eq. unfold um'.
      rewrite lookup_insert_eq. reflexivity.
    + unfold userModelState.getSearchState. rewrite Hvalid.
      rewrite (validateState_Ok s um Hum). simpl mbind.
      rewrite (getIn_userModel _ um') by apply lookup_insert_eq.
      rewrite (getIn_userModel s um) by exact Hum. unfold um'.
      rewrite !lookup_insert_ne by discriminate. reflexivity.
    + unfold userModelState.getUserBuyingState. rewrite Hvalid.
      rewrite (validateState_Ok s um Hum). simpl mbind.
      rewrite (getIn_userModel _ um') by apply lookup_insert_eq.
      rewrite (getIn_userModel s um) by exact Hum. unfold um'.
      rewrite !lookup_insert_ne by discriminate. reflexivity.
  - set (um' := <[ "purchaseActive" := VBool true ]>
                  (<[ "purchaseUrl" := url ]>
                     (<[ "purchaseTime" := VNum (clock E (ticks w)) ]> um))).
    exists (<[ "userModel" := VMap um' ]> s).
    split; [| repeat split].
    + unfold userModelState.flagUserBuyingSomething. rewrite Hen. cbn [negb].
      rewrite (validateState_Ok s um Hum), bind_liftR_Ok. cbv beta.
      rewrite bind_getTime.
      rewrite (setIn_userModel s um) by exact Hum. rewrite bind_liftR_Ok. cbv beta.
      rewrite (setIn_userModel _ (<[ "purchaseTime" := VNum (clock E (ticks w)) ]> um))
        by apply lookup_insert_eq.
      rewrite bind_liftR_Ok. cbv beta. rewrite insert_insert_eq.
      rewrite (setIn_userModel _ (<[ "purchaseUrl" := url ]>
                                    (<[ "purchaseTime" := VNum (clock E (ticks w)) ]> um)))
        by apply lookup_insert_eq.
      rewrite liftR_Ok, insert_insert_eq. reflexivity.
    + unfold userModelState.getUserBuyingState. rewrite Hvalid. simpl mbind.
      rewrite (getIn_userModel _ um') by apply lookup_insert_eq. unfold um'.
      rewrite lookup_insert_eq. reflexivity.
    + rewrite (getIn_userModel _ um') by apply lookup_insert_eq. unfold um'.
      rewrite lookup_insert_ne by discriminate. rewrite lookup_insert_eq. reflexivity.
    + rewrite (getIn_userModel _ um') by apply lookup_insert_eq. unfold um'.
      rewrite !lookup_insert_ne by discriminate. rewrite lookup_insert_eq. reflexivity.
    + unfold userModelState.getShoppingState. rewrite Hvalid.
      rewrite (validateState_Ok s um Hum). simpl mbind.
      rewrite (getIn_userModel _ um') by apply lookup_insert_eq.
      rewrite (getIn_userModel s um) by exact Hum. unfold um'.
      rewrite !lookup_insert_ne by discriminate. reflexivity.
Qed.

Lemma shopping_and_buying_flags_witness :
  exists s',
    userModel.testShoppingData sampleEnv (sampleState true []) (VStr "amazon.com")
      (sampleWorld None) = Ok (s', tick (sampleWorld None))
    /\ userModelState.getShoppingState (VMap s') = Ok (VBool true).
Proof.
  destruct (shopping_and_buying_flags sampleEnv (sampleState true []) ∅ (VStr "amazon.com")
              (sampleWorld None)) as [Hshop _]; [repeat split | reflexivity |].
  destruct (Hshop eq_refl) as (s' & Hrun & Hflag & _).
  exists s'. split; assumption.
Defined.

(** ** What is not reported *)

(** X27. Some events never reach the reporting queue.  A page load in a
    private tab, a page load without a tab, a page load whose address is
    neither [http://] nor [https://], a notification event other than an
    ad being shown or a notification result, and a change of a setting
    whose key is none of the five reported ones and does not name a
    property that every object inherits: each returns the state it was
    given and logs nothing.  Only the clock has been read, for the stamp
    that is then thrown away. *)
Theorem unreported_events (E : Env) (s : state) (action : value) (w : World) :
  gateOpen E s w ->
  (forall tabValue,
      get action "tabValue" = Ok tabValue -> truthy tabValue = false ->
      userModel.generateAdReportingEvent E s "load" action w = Ok (s, tick w))
  /\ (forall tabValue incognito,
         get action "tabValue" = Ok tabValue ->
         get tabValue "incognito" = Ok incognito -> truthy incognito = true ->
         userModel.generateAdReportingEvent E s "load" action w = Ok (s, tick w))
  /\ (forall tabValue incognito url,
         get action "tabValue" = Ok tabValue -> truthy tabValue = true ->
         get tabValue "incognito" = Ok incognito -> truthy incognito = false ->
         get tabValue "url" = Ok (VStr url) ->
         String.prefix "http://" url = false -> String.prefix "https://" url = false ->
         userModel.generateAdReportingEvent E s "load" action w = Ok (s, tick w))
  /\ (forall eventName data,
         get action "eventName" = Ok eventName -> get action "data" = Ok data ->
         eventName <> VStr (AD_SHOWN E) -> eventName <> VStr (NOTIFICATION_RESULT E) ->
         userModel.generateAdReportingEvent E s "notify" action w = Ok (s, tick w))
  /\ (forall key,
         get action "key" = Ok key ->
         userModel.mapping E !! userModel.toPropertyKey E key = None ->
         inherited (userModel.toPropertyKey E key) = false ->
         userModel.generateAdReportingEvent E s "settings" action w = Ok (s, tick w)).
Proof.
  intros Hgate.
  assert (Hearly : forall ty,
            userModel.eventFields E s ty action (stampedRecord E ty w) (tick w)
            = Ok (inl s, tick w) ->
            userModel.generateAdReportingEvent E s ty action w = Ok (s, tick w)).
  { intros ty Hfields. rewrite (generateAdReportingEvent_run E s ty action w Hgate), Hfields.
    reflexivity. }
  split; [| split; [| split; [| split]]].
  - intros tabValue Htab Hnone. apply Hearly.
    unfold userModel.eventFields. cbn [String.eqb Ascii.eqb Bool.eqb].
    rewrite Htab, bind_liftR_Ok. cbv beta. rewrite Hnone. reflexivity.
  - intros tabValue incognito Htab Hinc Hprivate. apply Hearly.
    unfold userModel.eventFields. cbn [String.eqb Ascii.eqb Bool.eqb].
    rewrite Htab, bind_liftR_Ok. cbv beta.
    destruct (truthy tabValue); [| reflexivity]. cbn [negb].
    rewrite Hinc, bind_liftR_Ok. cbv beta. rewrite Hprivate. reflexivity.
  - intros tabValue incognito url Htab Hsome Hinc Hpublic Hurl Hhttp Hhttps. apply Hearly.
    unfold userModel.eventFields. cbn [String.eqb Ascii.eqb Bool.eqb].
    rewrite Htab, bind_liftR_Ok. cbv beta. rewrite Hsome. cbn [negb].
    rewrite Hinc, bind_liftR_Ok. cbv beta. rewrite Hpublic.
    rewrite Hurl, bind_liftR_Ok. cbv beta iota. rewrite Hhttp, Hhttps. reflexivity.
  - intros eventName data Hname Hdata Hshown Hresult. apply Hearly.
    unfold userModel.eventFields. cbn [String.eqb Ascii.eqb Bool.eqb].
    rewrite Hname, bind_liftR_Ok. cbv beta.
    rewrite Hdata, bind_liftR_Ok. cbv beta.
    rewrite (strict_eq_false _ _ Hshown), (strict_eq_false _ _ Hresult). reflexivity.
  - intros key Hkey Hout Hown. apply Hearly.
    unfold userModel.eventFields. cbn [String.eqb Ascii.eqb Bool.eqb].
    rewrite Hkey, bind_liftR_Ok. cbv beta. unfold userModel.reported. rewrite Hout, Hown.
    rewrite bool_decide_eq_false_2 by (intros [? [=]]). reflexivity.
Qed.

Lemma unreported_events_witness :
  let action := obj [("tabValue", obj [("incognito", VBool true);
                                       ("url", VStr "https://a.example/")])] in
  userModel.generateAdReportingEvent sampleEnv (sampleState true []) "load" action
    (sampleWorld None)
  = Ok (sampleState true [], tick (sampleWorld None)).
Proof.
  intros action.
  destruct (unreported_events sampleEnv (sampleState true []) action (sampleWorld None))
    as (_ & Hprivate & _); [repeat split |].
  apply (Hprivate (obj [("incognito", VBool true); ("url", VStr "https://a.example/")])
           (VBool true)); reflexivity.
Defined.
